(** * Pupil-report parsing and fatigue scoring: a shallow embedding

    The development follows the TypeScript sources
    [services/analysisService.ts], [services/eyeTestService.ts],
    [components/CognitiveMetricsChart.tsx] and the store helpers of
    [lib/firebase.js].

    JavaScript numbers are IEEE 754 binary64 values.  They are modelled by
    [spec_float], the executable specification of binary floating point of
    the standard library, instantiated at precision 53 and maximal exponent
    1024; every arithmetic operation below is the correctly rounded one. *)

From Stdlib Require Import ZArith List Bool String Ascii Lia.
From Stdlib Require Import Uint63 PrimFloat SpecFloat FloatOps.
From Stdlib Require Import Sorted Permutation.
Import ListNotations.

Set Warnings "-inexact-float".

Local Open Scope string_scope.
Local Open Scope list_scope.
Local Open Scope Z_scope.

(** ** JavaScript numbers *)

Module JS.

Definition number : Type := spec_float.

Definition prec : Z := 53.
Definition emax : Z := 1024.

(** A numeric literal of the source, read by Rocq's own binary64 reader. *)
Definition lit (x : float) : number := Prim2SF x.

Definition NaN : number := S754_nan.
Definition Infinity : number := S754_infinity false.
Definition zero : number := S754_zero false.

Definition add : number -> number -> number := SFadd prec emax.
Definition sub : number -> number -> number := SFsub prec emax.
Definition mul : number -> number -> number := SFmul prec emax.
Definition div : number -> number -> number := SFdiv prec emax.
Definition neg : number -> number := SFopp.

(** [a < b], [a > b], [a <= b], [a >= b]: false as soon as one side is NaN. *)
Definition lt (a b : number) : bool := SFltb a b.
Definition gt (a b : number) : bool := SFltb b a.
Definition le (a b : number) : bool := SFleb a b.
Definition ge (a b : number) : bool := SFleb b a.

Definition isNaN (x : number) : bool :=
  match x with S754_nan => true | _ => false end.

Definition isFinite (x : number) : bool :=
  match x with S754_nan | S754_infinity _ => false | _ => true end.

(** Truthiness of a number: [0], [-0] and [NaN] are falsy. *)
Definition truthy (x : number) : bool :=
  match x with S754_zero _ | S754_nan => false | _ => true end.

(** The Number value of a mathematical integer (round to nearest, ties to
    even); exact below 2^53. *)
Definition ofZ (z : Z) : number := binary_normalize prec emax z 0 false.
Definition ofNat (n : nat) : number := ofZ (Z.of_nat n).

(** [Math.sqrt]. *)
Definition sqrt : number -> number := SFsqrt prec emax.

(** [Math.pow(x, 2)], taken as the correctly rounded square. *)
Definition pow2 (x : number) : number := mul x x.

(** [Math.floor] and [Math.round] of a finite value [(-1)^s * m * 2^e] are
    computed on the exact integer; a result of zero keeps the sign of the
    argument, as ECMAScript prescribes. *)
Definition withSign (s : bool) (z : Z) : number :=
  if z =? 0 then S754_zero s else ofZ z.

Definition floor (x : number) : number :=
  match x with
  | S754_finite s m e =>
      if 0 <=? e then x
      else withSign s (Z.div (cond_Zopp s (Zpos m)) (2 ^ (- e)))
  | _ => x
  end.

Definition round (x : number) : number :=
  match x with
  | S754_finite s m e =>
      if 0 <=? e then x
      else withSign s (Z.div (2 * cond_Zopp s (Zpos m) + 2 ^ (- e)) (2 ^ (- e + 1)))
  | _ => x
  end.

(** [Math.max] and [Math.min]: NaN is contagious and [+0] is above [-0]. *)
Definition max2 (highest x : number) : number :=
  if isNaN highest || isNaN x then NaN
  else match highest, x with
       | S754_zero true, S754_zero false => x
       | _, _ => if gt x highest then x else highest
       end.

Definition min2 (lowest x : number) : number :=
  if isNaN lowest || isNaN x then NaN
  else match lowest, x with
       | S754_zero false, S754_zero true => x
       | _, _ => if lt x lowest then x else lowest
       end.

Definition Math_max (xs : list number) : number :=
  fold_left max2 xs (S754_infinity true).

Definition Math_min (xs : list number) : number :=
  fold_left min2 xs (S754_infinity false).

End JS.

(** ** JavaScript strings

    A string is its sequence of code units; the reports are plain text and
    only code units below 256 occur in the model. *)

Module Str.

Definition LF : ascii := "010"%char.

(** White space and line terminators, as removed by [trim] and skipped by
    [parseInt] and [parseFloat]: TAB, LF, VT, FF, CR, SP and NBSP. *)
Definition isWhiteSpace (c : ascii) : bool :=
  let n := nat_of_ascii c in
  ((9 <=? n) && (n <=? 13))%nat || (n =? 32)%nat || (n =? 160)%nat.

Fixpoint trimStart (s : string) : string :=
  match s with
  | String c r => if isWhiteSpace c then trimStart r else s
  | EmptyString => EmptyString
  end.

Fixpoint trimEnd (s : string) : string :=
  match s with
  | EmptyString => EmptyString
  | String c r =>
      match trimEnd r with
      | EmptyString => if isWhiteSpace c then EmptyString else String c EmptyString
      | r' => String c r'
      end
  end.

Definition trim (s : string) : string := trimEnd (trimStart s).

(** [s.includes(sub)]. *)
Fixpoint includes (s sub : string) : bool :=
  String.prefix sub s
  || match s with
     | String _ r => includes r sub
     | EmptyString => false
     end.

(** [s.split(sep)] for a separator of one code unit. *)
Fixpoint split (sep : ascii) (s : string) : list string :=
  match s with
  | EmptyString => [EmptyString]
  | String c r =>
      if Ascii.eqb c sep then EmptyString :: split sep r
      else match split sep r with
           | h :: t => String c h :: t
           | [] => [String c EmptyString]
           end
  end.

(** [lines.join(sep)], used to write out multi-line texts. *)
Fixpoint join (sep : ascii) (l : list string) : string :=
  match l with
  | [] => EmptyString
  | [s] => s
  | s :: t => s ++ String sep (join sep t)
  end.

(** Truthiness of a string: only the empty string is falsy. *)
Definition truthy (s : string) : bool :=
  match s with EmptyString => false | _ => true end.

End Str.

(** ** [parseInt] and [parseFloat] *)

Module Parse.
Import JS Str.

Definition digitValue (c : ascii) : option Z :=
  let n := Z.of_nat (nat_of_ascii c) in
  if (48 <=? n) && (n <=? 57) then Some (n - 48)
  else if (97 <=? n) && (n <=? 122) then Some (n - 87)
  else if (65 <=? n) && (n <=? 90) then Some (n - 55)
  else None.

Definition digitIn (R : Z) (c : ascii) : option Z :=
  match digitValue c with
  | Some d => if d <? R then Some d else None
  | None => None
  end.

(** The longest prefix of radix-[R] digits: its value (continuing [acc]),
    the number of digits read (continuing [n]) and the rest of the string. *)
Fixpoint spanDigits (R : Z) (s : string) (acc : Z) (n : nat) : Z * nat * string :=
  match s with
  | String c r =>
      match digitIn R c with
      | Some d => spanDigits R r (R * acc + d) (S n)
      | None => (acc, n, s)
      end
  | EmptyString => (acc, n, s)
  end.

Definition takeSign (s : string) : bool * string :=
  match s with
  | String c r =>
      if Ascii.eqb c "-" then (true, r)
      else if Ascii.eqb c "+" then (false, r)
      else (false, s)
  | EmptyString => (false, s)
  end.

Definition drop2 (s : string) : string :=
  match s with
  | String _ (String _ r) => r
  | _ => EmptyString
  end.

(** [parseInt(str)] without a radix argument: leading white space, a sign,
    an optional [0x]/[0X] prefix, then the longest digit prefix; [NaN] when
    there is no digit. *)
Definition parseInt (str : string) : number :=
  let '(sign, S1) := takeSign (trimStart str) in
  let '(R, S2) :=
    if String.prefix "0x" S1 || String.prefix "0X" S1 then (16, drop2 S1)
    else (10, S1) in
  let '(mathInt, n, _) := spanDigits R S2 0 0 in
  match n with
  | O => NaN
  | _ => if mathInt =? 0 then S754_zero sign else ofZ (cond_Zopp sign mathInt)
  end.

(** The Number value of [(-1)^sgn * N * 10^x] for [0 <= N]: one rounding to
    nearest, ties to even, of the exact decimal value. *)
Definition decimalToNumber (sgn : bool) (N x : Z) : number :=
  if N =? 0 then S754_zero sgn
  else if 0 <=? x then binary_normalize prec emax (cond_Zopp sgn (N * 10 ^ x)) 0 false
  else
    let '(q, e, l) := SFdiv_core_binary prec emax N 0 (10 ^ (- x)) 0 in
    binary_round_aux prec emax sgn q e l.

Definition exponentPart (s : string) : Z :=
  match s with
  | String c r =>
      if Ascii.eqb c "e" || Ascii.eqb c "E" then
        let '(esign, r1) := takeSign r in
        let '(ev, ne, _) := spanDigits 10 r1 0 0 in
        match ne with O => 0 | _ => cond_Zopp esign ev end
      else 0
  | EmptyString => 0
  end.

(** [parseFloat(str)]: leading white space, then the longest prefix that is
    a decimal literal ([Infinity], or digits with an optional fraction and
    an optional exponent, after an optional sign); [NaN] when there is
    none. *)
Definition parseFloat (str : string) : number :=
  let '(sign, S1) := takeSign (trimStart str) in
  if String.prefix "Infinity" S1 then S754_infinity sign
  else
    let '(ip, ni, r1) := spanDigits 10 S1 0 0 in
    let '(m, nf, r2) :=
      match r1 with
      | String c r => if Ascii.eqb c "." then spanDigits 10 r ip 0 else (ip, O, r1)
      | EmptyString => (ip, O, r1)
      end in
    match (ni + nf)%nat with
    | O => NaN
    | _ => decimalToNumber sign m (exponentPart r2 - Z.of_nat nf)
    end.

End Parse.

(** ** Data model ([analysisService.ts], [eyeTestService.ts]) *)

Import JS.

Inductive Eye : Type := left_eye | right_eye.

Definition Eye_eqb (a b : Eye) : bool :=
  match a, b with
  | left_eye, left_eye | right_eye, right_eye => true
  | _, _ => false
  end.

Record PupilData : Type := mkPupilData {
  frame : number;
  eye : Eye;
  diameter : number
}.

Record EyeStats : Type := mkEyeStats {
  mean : number;
  std : number;
  min : number;
  max : number
}.

Inductive FatigueLevel : Type := low | moderate | high.

Record Settings : Type := mkSettings {
  pupilSelection : string;
  tvModel : string;
  blinkDetection : bool
}.

(** [metadata?: any]: the objects passed around are flat, with string or
    boolean values; a later key overrides an earlier one in place. *)
Inductive MetaValue : Type := MStr (s : string) | MBool (b : bool).
Definition Metadata : Type := list (string * MetaValue).

Fixpoint objSet (k : string) (v : MetaValue) (o : Metadata) : Metadata :=
  match o with
  | [] => [(k, v)]
  | (k', v') :: t => if (k' =? k)%string then (k, v) :: t else (k', v') :: objSet k v t
  end.

Module AnalysisData.
Record t : Type := mk {
  leftEyeStats : option EyeStats;
  rightEyeStats : option EyeStats;
  summary : string;
  fatigueLevel : FatigueLevel;
  pupilData : list PupilData;
  frameCount : number;
  analysisUrl : option string;
  metadata : option Metadata;
  reactionTime : option number;
  settings : option Settings
}.
End AnalysisData.

Inductive TestType : Type := pupil_analysis | blink_test | eye_movement | focus_test.

Module EyeTestData.
Record t : Type := mk {
  leftEyeStats : option EyeStats;
  rightEyeStats : option EyeStats;
  summary : string;
  fatigueLevel : FatigueLevel;
  pupilData : list PupilData;
  frameCount : number;
  analysisUrl : option string;
  metadata : option Metadata;
  reactionTime : option number;
  testType : TestType;
  testDuration : option number;
  settings : option Settings;
  blinkCount : option nat;
  averageBlinkRate : option number;
  eyeMovementPattern : option string;
  focusAccuracy : option number;
  visualAcuity : option number;
  contrastSensitivity : option number
}.
End EyeTestData.

(** ** The world outside the core: random draws, clock and document store

    Effectful code is written in a state monad over [World].  The store is
    observed through the log of the [set] calls made on it; whether a call
    is rejected is decided by the world. *)

Inductive Document : Type :=
  | AnalysisDoc (d : AnalysisData.t)
  | EyeTestDoc (d : EyeTestData.t).

Record StoreWrite : Type := mkWrite {
  path : string;
  key : Z;
  doc : Document
}.

Record World : Type := mkWorld {
  randoms : nat -> number;          (* successive values of Math.random() *)
  draws : nat;                      (* how many were consumed *)
  clock : nat -> Z;                 (* successive readings of the client clock *)
  ticks : nat;
  toISOString : Z -> string;        (* the host's rendering of a clock reading *)
  setError : nat -> option string;  (* message thrown by the n-th set(), if any *)
  writes : list StoreWrite          (* set() calls made so far, oldest first *)
}.

Definition M (A : Type) : Type := World -> A * World.
Definition ret {A} (a : A) : M A := fun w => (a, w).
Definition bind {A B} (c : M A) (k : A -> M B) : M B :=
  fun w => let '(a, w') := c w in k a w'.

Notation "x <- c ;; k" := (bind c (fun x => k))
  (at level 61, c at next level, right associativity).

Definition Math_random : M number :=
  fun w => (randoms w (draws w),
            mkWorld (randoms w) (S (draws w)) (clock w) (ticks w) (toISOString w) (setError w) (writes w)).

Definition Date_now : M Z :=
  fun w => (clock w (ticks w),
            mkWorld (randoms w) (draws w) (clock w) (S (ticks w)) (toISOString w) (setError w) (writes w)).

(** [new Date().toISOString()]. *)
Definition Date_toISOString : M string :=
  fun w => let '(t, w') := Date_now w in (toISOString w t, w').

(** [await set(ref, data)]: the call is logged; the result is the message of
    the exception it throws, if it throws. *)
Definition set (p : string) (k : Z) (d : Document) : M (option string) :=
  fun w => (setError w (List.length (writes w)),
            mkWorld (randoms w) (draws w) (clock w) (ticks w) (toISOString w) (setError w)
                    (writes w ++ [mkWrite p k d])).

(** ** Store helpers ([lib/firebase.js]) *)

Record SaveResult : Type := mkSaveResult {
  save_success : bool;
  save_id : option Z;
  save_error : option string
}.

Definition FAKE_UID : string := "demo-user-12345".

(** The object written is the record without its undefined fields, stamped
    with the server time placeholder, the client date, [uid] and [id]; the
    stamps are functions of the key and are not part of the logged
    document. *)
Definition saveAnalysisResult (analysisData : AnalysisData.t) : M SaveResult :=
  timestamp <- Date_now ;;
  thrown <- set ("users/" ++ FAKE_UID ++ "/analyses")%string timestamp (AnalysisDoc analysisData) ;;
  match thrown with
  | None => ret (mkSaveResult true (Some timestamp) None)
  | Some message => ret (mkSaveResult false None (Some message))
  end.

Definition saveEyeTestResult (eyeTestData : EyeTestData.t) : M SaveResult :=
  timestamp <- Date_now ;;
  thrown <- set ("eye-test/" ++ FAKE_UID)%string timestamp (EyeTestDoc eyeTestData) ;;
  match thrown with
  | None => ret (mkSaveResult true (Some timestamp) None)
  | Some message => ret (mkSaveResult false None (Some message))
  end.

(** ** Report parser ([parseResultData]) *)

Import Str Parse.

Record ParseState : Type := mkParseState {
  st_pupilData : list PupilData;
  st_summary : string;
  inSummarySection : bool;
  inCSVSection : bool
}.

(** Lines 88-94: the label after normalisation, as a string. *)
Definition normalizeEye (eye : string) : string :=
  if (eye =? "left_eye")%string || (eye =? "right_eye")%string then eye
  else if (eye =? "left")%string || (eye =? "Left")%string then "left_eye"
  else if (eye =? "right")%string || (eye =? "Right")%string then "right_eye"
  else eye.

(** The test [eye === 'left_eye' || eye === 'right_eye'] of line 96, giving
    the typed label. *)
Definition recognizedEye (eye : string) : option Eye :=
  if (eye =? "left_eye")%string then Some left_eye
  else if (eye =? "right_eye")%string then Some right_eye
  else None.

(** Lines 81-99: what a comma-containing line contributes. *)
Definition parseRow (trimmedLine : string) : option PupilData :=
  let parts := split "," trimmedLine in
  if (3 <=? List.length parts)%nat then
    let frame := parseInt (nth 0 parts "") in
    let eye := normalizeEye (trim (nth 1 parts "")) in
    let diameter := parseFloat (nth 2 parts "") in
    match recognizedEye eye with
    | Some e =>
        if negb (isNaN frame) && negb (isNaN diameter)
        then Some (mkPupilData frame e diameter)
        else None
    | None => None
    end
  else None.

Definition isSummaryField (trimmedLine : string) : bool :=
  includes trimmedLine "Eye:" || includes trimmedLine "Mean:"
  || includes trimmedLine "Std:" || includes trimmedLine "Min:"
  || includes trimmedLine "Max:".

(** One iteration of the loop of lines 48-101. *)
Definition parseLine (st : ParseState) (line : string) : ParseState :=
  let trimmedLine := trim line in
  if includes trimmedLine "Processed" && includes trimmedLine "frames" then
    mkParseState (st_pupilData st) (st_summary st ++ trimmedLine ++ String LF "")%string
                 true (inCSVSection st)
  else if (trimmedLine =? "--- CSV Data ---")%string then
    mkParseState (st_pupilData st) (st_summary st) (inSummarySection st) true
  else if (trimmedLine =? "Frame,Eye_Type,Diameter_mm")%string then st
  else if inSummarySection st && negb (inCSVSection st) then
    if isSummaryField trimmedLine then
      mkParseState (st_pupilData st) (st_summary st ++ trimmedLine ++ String LF "")%string
                   (inSummarySection st) (inCSVSection st)
    else st
  else if includes trimmedLine "," then
    match parseRow trimmedLine with
    | Some d =>
        mkParseState (st_pupilData st ++ [d]) (st_summary st)
                     (inSummarySection st) (inCSVSection st)
    | None => st
    end
  else st.

Definition initialState : ParseState := mkParseState [] "" false false.

Definition parseLines (lines : list string) : ParseState :=
  fold_left parseLine lines initialState.

Record ParseResult : Type := mkParseResult {
  pupilData : list PupilData;
  summary : string
}.

Definition parseResultData (resultText : string) : ParseResult :=
  let lines := filter (fun line => Str.truthy (trim line)) (split LF resultText) in
  let st := parseLines lines in
  mkParseResult (st_pupilData st) (trim (st_summary st)).

(** ** Statistics engine ([calculateEyeStats]) *)

Definition zeroStats : EyeStats := mkEyeStats zero zero zero zero.

Definition calculateEyeStats (data : list PupilData) (e : Eye) : EyeStats :=
  let eyeData := map diameter (filter (fun d => Eye_eqb (eye d) e) data) in
  match eyeData with
  | [] => zeroStats
  | _ =>
      let mean := div (fold_left (fun sum val => add sum val) eyeData zero)
                      (ofNat (List.length eyeData)) in
      let variance :=
        div (fold_left (fun sum val => add sum (pow2 (sub val mean))) eyeData zero)
            (ofNat (List.length eyeData)) in
      let std := sqrt variance in
      let min := Math_min eyeData in
      let max := Math_max eyeData in
      mkEyeStats mean std min max
  end.

(** ** Fatigue classifier ([determineFatigueLevel]) *)

Definition determineFatigueLevel (leftStats rightStats : option EyeStats) : FatigueLevel :=
  match leftStats, rightStats with
  | None, None => moderate
  | _, _ =>
      let avgPupilSize := zero in
      let count := 0%nat in
      let '(avgPupilSize, count) :=
        match leftStats with
        | Some ls => (add avgPupilSize (mean ls), S count)
        | None => (avgPupilSize, count)
        end in
      let '(avgPupilSize, count) :=
        match rightStats with
        | Some rs => (add avgPupilSize (mean rs), S count)
        | None => (avgPupilSize, count)
        end in
      let avgPupilSize := div avgPupilSize (ofNat count) in
      if lt avgPupilSize (lit 2.2) then high
      else if gt avgPupilSize (lit 2.6) then low
      else moderate
  end.

(** ** Reaction-time estimate of [analysisService.ts] *)

Definition baseReactionTimes (fatigueLevel : FatigueLevel) : number :=
  match fatigueLevel with
  | low => lit 280
  | moderate => lit 350
  | high => lit 450
  end.

Definition generateMockReactionTime
    (fatigueLevel : FatigueLevel) (avgPupilSize : option number) : M number :=
  let baseTime := baseReactionTimes fatigueLevel in
  let baseTime :=
    match avgPupilSize with
    | Some a =>
        if JS.truthy a then
          let pupilFactor := mul (sub (lit 3.0) a) (lit 50) in
          add baseTime pupilFactor
        else baseTime
    | None => baseTime
    end in
  r <- Math_random ;;
  let variation := mul (sub r (lit 0.5)) (lit 40) in
  ret (max2 (lit 200) (JS.round (add baseTime variation))).

(** Lines 255-266 of [processAndSaveAnalysis], repeated at lines 160-171 of
    [processEyeTestResult]: the average handed to the reaction-time
    estimate. *)
Definition averagePupilSize (leftEyeStats rightEyeStats : EyeStats) : option number :=
  let avgPupilSize := zero in
  let count := 0%nat in
  let '(avgPupilSize, count) :=
    if gt (mean leftEyeStats) zero then (add avgPupilSize (mean leftEyeStats), S count)
    else (avgPupilSize, count) in
  let '(avgPupilSize, count) :=
    if gt (mean rightEyeStats) zero then (add avgPupilSize (mean rightEyeStats), S count)
    else (avgPupilSize, count) in
  if (0 <? count)%nat then Some (div avgPupilSize (ofNat count)) else None.

(** [stats.mean > 0 ? stats : undefined]. *)
Definition presentStats (stats : EyeStats) : option EyeStats :=
  if gt (mean stats) zero then Some stats else None.

Definition computeFrameCount (pupilData : list PupilData) : number :=
  add (Math_max (map frame pupilData)) (lit 1).

(** ** [eyeTestService.ts] *)

Module EyeTestService.

Definition generateMockReactionTime
    (fatigueLevel : FatigueLevel) (avgPupilSize : option number) : M number :=
  let baseTime := lit 250 in
  baseTime <-
    match fatigueLevel with
    | low => r <- Math_random ;; ret (add baseTime (mul r (lit 50)))
    | moderate => r <- Math_random ;; ret (add baseTime (add (lit 50) (mul r (lit 100))))
    | high => r <- Math_random ;; ret (add baseTime (add (lit 150) (mul r (lit 150))))
    end ;;
  let baseTime :=
    match avgPupilSize with
    | Some a =>
        if JS.truthy a then
          if lt a (lit 2.0) then add baseTime (lit 50)
          else if gt a (lit 3.0) then sub baseTime (lit 25)
          else baseTime
        else baseTime
    | None => baseTime
    end in
  ret (JS.round baseTime).

(** The loop of lines 78-86, on the list and its predecessor element. *)
Fixpoint countBlinks (previous : PupilData) (rest : list PupilData) : nat :=
  match rest with
  | [] => 0%nat
  | current :: rest' =>
      ((if Eye_eqb (eye current) (eye previous)
           && gt (sub (diameter previous) (diameter current)) (lit 0.5)
        then 1 else 0)
       + countBlinks current rest')%nat
  end.

Definition calculateBlinkStats (pupilData : list PupilData) (testDuration : number)
  : nat * number :=
  let blinkCount :=
    match pupilData with
    | [] => 0%nat
    | first :: rest => countBlinks first rest
    end in
  let averageBlinkRate := mul (div (ofNat blinkCount) testDuration) (lit 60) in
  (blinkCount, averageBlinkRate).

Definition patterns (fatigueLevel : FatigueLevel) : list string :=
  match fatigueLevel with
  | low => ["smooth"; "precise"; "coordinated"]
  | moderate => ["slightly irregular"; "mostly coordinated"; "minor tremor"]
  | high => ["irregular"; "uncoordinated"; "significant tremor"; "delayed"]
  end.

(** An array index: a number that is a non-negative integer. *)
Definition toIndex (x : number) : option nat :=
  match x with
  | S754_zero _ => Some 0%nat
  | S754_finite false m e =>
      if 0 <=? e then Some (Z.to_nat (Zpos m * 2 ^ e))
      else if Zpos m mod 2 ^ (- e) =? 0 then Some (Z.to_nat (Zpos m / 2 ^ (- e)))
      else None
  | _ => None
  end.

Definition generateEyeMovementPattern (fatigueLevel : FatigueLevel) : M (option string) :=
  let patternOptions := patterns fatigueLevel in
  r <- Math_random ;;
  ret match toIndex (JS.floor (mul r (ofNat (List.length patternOptions)))) with
      | Some i => nth_error patternOptions i
      | None => None
      end.

Definition generateFocusAccuracy (fatigueLevel : FatigueLevel) : M number :=
  baseAccuracy <-
    match fatigueLevel with
    | low => r <- Math_random ;; ret (add (lit 90) (mul r (lit 10)))
    | moderate => r <- Math_random ;; ret (add (lit 75) (mul r (lit 15)))
    | high => r <- Math_random ;; ret (add (lit 60) (mul r (lit 15)))
    end ;;
  ret (JS.round baseAccuracy).

Record Result : Type := mkResult {
  success : bool;
  data : option EyeTestData.t;
  error : option string
}.

Definition processEyeTestResult
    (resultText : string) (analysisUrl : option string) (metadata : option Metadata)
    (testType : TestType) (testDuration : number) (settings : option Settings)
  : M Result :=
  let parsed := parseResultData resultText in
  let pupilData := pupilData parsed in
  let summary := summary parsed in
  match pupilData with
  | [] => ret (mkResult false None (Some "No valid pupil data found in results"))
  | _ =>
      let leftEyeStats := calculateEyeStats pupilData left_eye in
      let rightEyeStats := calculateEyeStats pupilData right_eye in
      let fatigueLevel := determineFatigueLevel (Some leftEyeStats) (Some rightEyeStats) in
      let avgPupilSize := averagePupilSize leftEyeStats rightEyeStats in
      reactionTime <- generateMockReactionTime fatigueLevel avgPupilSize ;;
      let '(blinkCount, averageBlinkRate) := calculateBlinkStats pupilData testDuration in
      eyeMovementPattern <- generateEyeMovementPattern fatigueLevel ;;
      focusAccuracy <- generateFocusAccuracy fatigueLevel ;;
      let visualAcuity :=
        match fatigueLevel with
        | low => div (lit 20) (lit 20)
        | moderate => div (lit 20) (lit 25)
        | high => div (lit 20) (lit 30)
        end in
      contrastSensitivity <-
        match fatigueLevel with
        | low => r <- Math_random ;; ret (add (lit 95) (mul r (lit 5)))
        | moderate => r <- Math_random ;; ret (add (lit 80) (mul r (lit 15)))
        | high => r <- Math_random ;; ret (add (lit 65) (mul r (lit 15)))
        end ;;
      let eyeTestData :=
        EyeTestData.mk
          (presentStats leftEyeStats) (presentStats rightEyeStats)
          summary fatigueLevel pupilData (computeFrameCount pupilData)
          analysisUrl metadata (Some reactionTime) testType (Some testDuration) settings
          (Some blinkCount)
          (Some (div (JS.round (mul averageBlinkRate (lit 10))) (lit 10)))
          eyeMovementPattern (Some focusAccuracy) (Some visualAcuity)
          (Some (div (JS.round (mul contrastSensitivity (lit 10))) (lit 10))) in
      saveResult <- saveEyeTestResult eyeTestData ;;
      if save_success saveResult
      then ret (mkResult true (Some eyeTestData) None)
      else ret (mkResult false None (save_error saveResult))
  end.

End EyeTestService.

(** ** Record assembly ([processAndSaveAnalysis]) *)

Record Result : Type := mkResult {
  success : bool;
  data : option AnalysisData.t;
  error : option string;
  eyeTestSaved : option bool
}.

Definition processAndSaveAnalysis
    (resultText : string) (analysisUrl : option string) (metadata : option Metadata)
    (settings : option Settings) : M Result :=
  let parsed := parseResultData resultText in
  let pupilData := pupilData parsed in
  let summary := summary parsed in
  match pupilData with
  | [] => ret (mkResult false None (Some "No valid pupil data found in results") None)
  | _ =>
      let leftEyeStats := calculateEyeStats pupilData left_eye in
      let rightEyeStats := calculateEyeStats pupilData right_eye in
      let fatigueLevel := determineFatigueLevel (Some leftEyeStats) (Some rightEyeStats) in
      let avgPupilSize := averagePupilSize leftEyeStats rightEyeStats in
      reactionTime <- generateMockReactionTime fatigueLevel avgPupilSize ;;
      let analysisData :=
        AnalysisData.mk
          (presentStats leftEyeStats) (presentStats rightEyeStats)
          summary fatigueLevel pupilData (computeFrameCount pupilData)
          analysisUrl metadata (Some reactionTime) settings in
      saveResult <- saveAnalysisResult analysisData ;;
      eyeTestResult <-
        EyeTestService.processEyeTestResult
          resultText analysisUrl
          (Some (objSet "originalAnalysis" (MBool true)
                   (objSet "source" (MStr "analysis_service")
                      match metadata with Some o => o | None => [] end)))
          pupil_analysis (lit 30) settings ;;
      let eyeTestSaved := EyeTestService.success eyeTestResult in
      if save_success saveResult
      then ret (mkResult true (Some analysisData) None (Some eyeTestSaved))
      else ret (mkResult false None (save_error saveResult) None)
  end.

(** ** Bundled sample report ([loadSampleAnalysisData])

    The template literal of lines 335-386, written line by line. *)

Definition sampleResultText : string :=
  join LF
    [
     "37,left_eye,2.300457715988159";
     "38,left_eye,2.3212697505950928";
     "39,left_eye,2.3268024921417236";
     "40,left_eye,2.325519323348999";
     "41,left_eye,2.3016486167907715";
     "42,left_eye,2.2915494441986084";
     "43,left_eye,2.307129144668579";
     "44,left_eye,2.3017423152923584";
     "45,left_eye,2.306887149810791";
     "46,left_eye,2.287179708480835";
     "47,left_eye,2.2922284603118896";
     "48,left_eye,2.2548787593841553";
     "49,left_eye,2.260747194290161";
     "50,left_eye,2.299243927001953";
     "0,right_eye,2.2755913734436035";
     "1,right_eye,2.2151496410369873";
     "2,right_eye,2.203460454940796";
     "3,right_eye,2.2932863235473633";
     "4,right_eye,2.2873587608337402";
     "5,right_eye,2.322633981704712";
     "6,right_eye,2.327956199645996";
     "7,right_eye,2.310279607772827";
     "8,right_eye,2.3053176403045654";
     "9,right_eye,2.301894187927246";
     "10,right_eye,2.328364610671997";
     "11,right_eye,2.358999490737915";
     "12,right_eye,2.3684120178222656";
     "13,right_eye,2.3732266426086426";
     "14,right_eye,2.3003456592559814";
     "";
     "Processed 255 frames";
     "";
     "Left Eye:";
     "  Mean: 2.40 mm";
     "  Std: 0.11 mm";
     "  Min: 2.20 mm";
     "  Max: 2.71 mm";
     "";
     "Right Eye:";
     "  Mean: 2.28 mm";
     "  Std: 0.10 mm";
     "  Min: 2.09 mm";
     "  Max: 2.53 mm";
     "";
     "--- CSV Data ---";
     "Frame,Eye_Type,Diameter_mm";
     "0,left_eye,2.3495993614196777";
     "1,left_eye,2.3160369396209717";
     "2,left_eye,2.31215500831604";
     "3,left_eye,2.2922122478485107";
     "4,left_eye,2.3858745098114014";
     "5,left_eye,2.389317035675049"
    ].

Definition loadSampleAnalysisData : M Result :=
  timestamp <- Date_toISOString ;;
  processAndSaveAnalysis
    sampleResultText None
    (Some [("source", MStr "sample_data");
           ("timestamp", MStr timestamp);
           ("note", MStr "Sample cognitive fatigue analysis with mock reaction time data")])
    (Some (mkSettings "both" "ResNet18" true)).

(** ** Trend analyser ([generateConclusions] of [CognitiveMetricsChart.tsx]) *)

Record DataPoint : Type := mkDataPoint {
  time : string;
  pupilDiameter : number;
  dp_reactionTime : option number
}.

Inductive Trend : Type := insufficient | declining | improving | variable | stable.

(** The returned object, without its [icon] glyph. *)
Record Conclusions : Type := mkConclusions {
  trend : Trend;
  message : string;
  recommendation : string;
  color : option string
}.

(** [Math.ceil(n / 2)] for an array length [n]. *)
Definition ceilHalf (n : nat) : nat := Nat.div2 (S n).

Definition generateConclusions (data : list DataPoint) : Conclusions :=
  if (List.length data <? 2)%nat then
    mkConclusions insufficient
      "Need more measurements to identify trends"
      "Take additional measurements throughout the day"
      None
  else
    let pupilSizes := map pupilDiameter data in
    let firstHalf := firstn (ceilHalf (List.length pupilSizes)) pupilSizes in
    let secondHalf := skipn (ceilHalf (List.length pupilSizes)) pupilSizes in
    let firstHalfAvg :=
      div (fold_left (fun sum val => add sum val) firstHalf zero)
          (ofNat (List.length firstHalf)) in
    let secondHalfAvg :=
      div (fold_left (fun sum val => add sum val) secondHalf zero)
          (ofNat (List.length secondHalf)) in
    let pupilTrend := sub secondHalfAvg firstHalfAvg in
    let pupilVariability :=
      sqrt (div (fold_left
                   (fun sum val =>
                      add sum (pow2 (sub val (div (fold_left (fun s v => add s v) pupilSizes zero)
                                                  (ofNat (List.length pupilSizes))))))
                   pupilSizes zero)
                (ofNat (List.length pupilSizes))) in
    if lt pupilTrend (lit (-0.1)) then
      mkConclusions declining
        "Pupil diameter decreasing throughout the day - indicates increasing cognitive fatigue"
        "Consider taking breaks, reducing cognitive load, or checking sleep quality"
        (Some "#EF4444")
    else if gt pupilTrend (lit 0.1) then
      mkConclusions improving
        "Pupil diameter increasing - cognitive alertness improving throughout the day"
        "Great! Your cognitive state is improving. Maintain current activities"
        (Some "#10B981")
    else if gt pupilVariability (lit 0.15) then
      mkConclusions variable
        "High variability in pupil diameter - inconsistent cognitive state"
        "Try to maintain consistent work patterns and minimize distractions"
        (Some "#F59E0B")
    else
      mkConclusions stable
        "Stable pupil diameter - consistent cognitive performance"
        "Excellent cognitive stability. Continue your current routine"
        (Some "#3B82F6").

(** * Code around the services

    The copy of the classifier in [test-sample-data.js], the data
    preparation of [components/CognitiveMetricsChart.tsx], the
    recommendations of [app/(tabs)/dashboard.tsx] and
    [generateRecommendations] of [services/analysisService.ts]. *)

(** ** The test script's copy of the classifier ([test-sample-data.js],
    lines 121-148) *)

Module TestScript.

Definition determineFatigueLevel (leftStats rightStats : option EyeStats) : FatigueLevel :=
  match leftStats, rightStats with
  | None, None => moderate
  | _, _ =>
      let avgPupilSize := zero in
      let count := 0%nat in
      let '(avgPupilSize, count) :=
        match leftStats with
        | Some ls =>
            if gt (mean ls) zero then (add avgPupilSize (mean ls), S count)
            else (avgPupilSize, count)
        | None => (avgPupilSize, count)
        end in
      let '(avgPupilSize, count) :=
        match rightStats with
        | Some rs =>
            if gt (mean rs) zero then (add avgPupilSize (mean rs), S count)
            else (avgPupilSize, count)
        | None => (avgPupilSize, count)
        end in
      if (count =? 0)%nat then moderate
      else
        let avgPupilSize := div avgPupilSize (ofNat count) in
        if lt avgPupilSize (lit 2.2) then high
        else if gt avgPupilSize (lit 2.6) then low
        else moderate
  end.

End TestScript.

(** ** Chart data ([CognitiveMetricsChart.tsx], lines 59-86) *)

Module Chart.

Record Analysis : Type := mkAnalysis {
  id : string;
  timestamp : Z;
  date : string;
  leftEyeStats : option EyeStats;
  rightEyeStats : option EyeStats;
  reactionTime : option number
}.

(** Lines 66-79: the pupil diameter plotted for an analysis. *)
Definition averagePupilDiameter (analysis : Analysis) : number :=
  let avgPupilDiameter := zero in
  let count := 0%nat in
  let '(avgPupilDiameter, count) :=
    match leftEyeStats analysis with
    | Some s =>
        if gt (mean s) zero then (add avgPupilDiameter (mean s), S count)
        else (avgPupilDiameter, count)
    | None => (avgPupilDiameter, count)
    end in
  let '(avgPupilDiameter, count) :=
    match rightEyeStats analysis with
    | Some s =>
        if gt (mean s) zero then (add avgPupilDiameter (mean s), S count)
        else (avgPupilDiameter, count)
    | None => (avgPupilDiameter, count)
    end in
  if (0 <? count)%nat then div avgPupilDiameter (ofNat count) else zero.

Section ChartData.

(** The host's [toLocaleTimeString] of a time stamp, with the options of
    lines 60-64. *)
Variable toLocaleTimeString : Z -> string.

Definition chartPoint (analysis : Analysis) : M DataPoint :=
  let time := toLocaleTimeString (timestamp analysis) in
  let mock := r <- Math_random ;; ret (add (mul r (lit 200)) (lit 300)) in
  reactionTime <-
    match reactionTime analysis with
    | Some rt => if JS.truthy rt then ret rt else mock
    | None => mock
    end ;;
  ret (mkDataPoint time (averagePupilDiameter analysis) (Some reactionTime)).

(** [todayAnalyses.map(...)], on the analyses of the day in time order. *)
Fixpoint chartData (todayAnalyses : list Analysis) : M (list DataPoint) :=
  match todayAnalyses with
  | [] => ret []
  | analysis :: rest =>
      point <- chartPoint analysis ;;
      points <- chartData rest ;;
      ret (point :: points)
  end.

End ChartData.

(** [array.sort(compare)]: the stable sort by a comparator that returns a
    negative number, zero or a positive number. *)
Fixpoint insertSorted {A} (compare : A -> A -> Z) (a : A) (sorted : list A) : list A :=
  match sorted with
  | [] => [a]
  | b :: rest =>
      if compare a b <=? 0 then a :: b :: rest else b :: insertSorted compare a rest
  end.

Definition Array_sort {A} (compare : A -> A -> Z) (array : list A) : list A :=
  fold_right (insertSorted compare) [] array.

(** Lines 42-45: the analyses dated today, in the order of their time
    stamps. *)
Definition todayAnalyses (analyses : list Analysis) : M (list Analysis) :=
  now <- Date_toISOString ;;
  let today := nth 0 (split "T" now) "" in
  ret (Array_sort (fun a b => timestamp a - timestamp b)
                  (filter (fun analysis => (date analysis =? today)%string) analyses)).

End Chart.

(** ** Dashboard recommendations ([app/(tabs)/dashboard.tsx]) *)

Module Dashboard.

Record Analysis : Type := mkAnalysis {
  id : string;
  timestamp : Z;
  date : string;
  leftEyeStats : option EyeStats;
  rightEyeStats : option EyeStats;
  summary : option string;
  fatigueLevel : option FatigueLevel
}.

(** A recommendation card, without its [icon] glyph. *)
Record Recommendation : Type := mkRecommendation {
  title : string;
  message : string;
  color : string
}.

(** Lines 197-229. *)
Definition getRecommendationBasedOnCount (todayCount eyeTestTodayCount : nat)
  : Recommendation :=
  let totalToday := (todayCount + eyeTestTodayCount)%nat in
  if (totalToday =? 0)%nat then
    mkRecommendation "Start Your Day Right"
      "Take your first cognitive assessment or eye test to establish a baseline for today."
      "#3B82F6"
  else if (totalToday <? 3)%nat then
    mkRecommendation "Keep Monitoring"
      "Consider taking 2-3 assessments throughout the day for better insights."
      "#10B981"
  else if (3 <=? totalToday)%nat && (totalToday <? 6)%nat then
    mkRecommendation "Great Progress!"
      "You're doing well with regular monitoring. This helps track your cognitive and visual patterns."
      "#059669"
  else
    mkRecommendation "Excellent Monitoring"
      "You're taking great care of your cognitive and visual health with frequent assessments."
      "#7C3AED".

(** [array.slice(-3)]: the last three elements. *)
Definition lastThree {A} (l : list A) : list A := skipn (List.length l - 3) l.

(** [stats?.mean || 0]. *)
Definition meanOrZero (stats : option EyeStats) : number :=
  match stats with
  | Some s => if JS.truthy (mean s) then mean s else zero
  | None => zero
  end.

(** Lines 231-296. *)
Definition getDataPatternRecommendation
    (analyses : list Analysis) (eyeTests : list EyeTestData.t) : Recommendation :=
  let totalAssessments := (List.length analyses + List.length eyeTests)%nat in
  if (totalAssessments <? 3)%nat then
    mkRecommendation "Building Your Profile"
      "Take a few more assessments to start seeing meaningful patterns in your cognitive and visual data."
      "#6B7280"
  else
    let recentAnalyses := lastThree analyses in
    let recentEyeTests := lastThree eyeTests in
    let '(avgPupilSize, pupilCount) :=
      fold_left
        (fun '(avgPupilSize, pupilCount) analysis =>
           let leftMean := meanOrZero (leftEyeStats analysis) in
           let rightMean := meanOrZero (rightEyeStats analysis) in
           if gt leftMean zero || gt rightMean zero
           then (add avgPupilSize (div (add leftMean rightMean) (lit 2)), S pupilCount)
           else (avgPupilSize, pupilCount))
        recentAnalyses (zero, 0%nat) in
    let '(avgFocusAccuracy, focusCount) :=
      fold_left
        (fun '(avgFocusAccuracy, focusCount) eyeTest =>
           match EyeTestData.focusAccuracy eyeTest with
           | Some fa =>
               if JS.truthy fa then (add avgFocusAccuracy fa, S focusCount)
               else (avgFocusAccuracy, focusCount)
           | None => (avgFocusAccuracy, focusCount)
           end)
        recentEyeTests (zero, 0%nat) in
    let avgPupilSize :=
      if (0 <? pupilCount)%nat then div avgPupilSize (ofNat pupilCount) else zero in
    let avgFocusAccuracy :=
      if (0 <? focusCount)%nat then div avgFocusAccuracy (ofNat focusCount) else zero in
    if lt avgPupilSize (lit 2.2) || lt avgFocusAccuracy (lit 70) then
      mkRecommendation "Potential Fatigue Detected"
        "Your recent assessments suggest increased cognitive fatigue or reduced visual performance. Consider taking breaks and ensuring adequate rest."
        "#EF4444"
    else if gt avgPupilSize (lit 2.5) && gt avgFocusAccuracy (lit 85) then
      mkRecommendation "Excellent Performance"
        "Your assessments indicate excellent cognitive alertness and visual performance. Keep up the great work!"
        "#10B981"
    else
      mkRecommendation "Balanced State"
        "Your cognitive and visual state appears balanced. Continue your current routine for optimal performance."
        "#3B82F6".

End Dashboard.

(** ** Recommendations ([generateRecommendations], lines 189-225)

    The texts are held as the bytes of their UTF-8 encoding. *)


(** * Definitions used in the statements *)

(** ** Classifier *)

(** The average that lines 134-147 of [determineFatigueLevel] compare with
    the thresholds: the sum of the means of the statistics that are
    present, over their number; there is none when both are absent. *)
Definition classifierAverage (leftStats rightStats : option EyeStats) : option number :=
  let means :=
    (match leftStats with Some s => [mean s] | None => [] end)
    ++ (match rightStats with Some s => [mean s] | None => [] end) in
  match means with
  | [] => None
  | _ => Some (div (fold_left add means zero) (ofNat (List.length means)))
  end.

(** Statistics with a given mean, for examples. *)
Definition statsWithMean (m : number) : EyeStats := mkEyeStats m zero m m.

(** Statistics that count in the specification's average: absent, or with a
    mean above 0. *)
Definition eligible (stats : option EyeStats) : Prop :=
  match stats with
  | Some s => gt (mean s) zero = true
  | None => True
  end.

(** ** Pipeline *)

(** The two collection paths of the store helpers. *)
Definition analysesPath : string := ("users/" ++ FAKE_UID ++ "/analyses")%string.

Definition eyeTestPath : string := ("eye-test/" ++ FAKE_UID)%string.

(** The record that [processAndSaveAnalysis] builds at lines 272-283 from
    the parsed report and the reaction time it was given. *)
Definition assembledRecord
    (resultText : string) (analysisUrl : option string) (metadata : option Metadata)
    (settings : option Settings) (reactionTime : number) : AnalysisData.t :=
  let parsed := parseResultData resultText in
  let leftEyeStats := calculateEyeStats (pupilData parsed) left_eye in
  let rightEyeStats := calculateEyeStats (pupilData parsed) right_eye in
  AnalysisData.mk
    (presentStats leftEyeStats) (presentStats rightEyeStats)
    (summary parsed)
    (determineFatigueLevel (Some leftEyeStats) (Some rightEyeStats))
    (pupilData parsed) (computeFrameCount (pupilData parsed))
    analysisUrl metadata (Some reactionTime) settings.

(** The message of the failure on an empty parse. *)
Definition noValidData : string := "No valid pupil data found in results".

(** A world for examples: every draw is 0.5 and the store accepts. *)
Definition sampleWorld : World :=
  mkWorld (fun _ => lit 0.5) 0 (fun n => 1700000000000 + Z.of_nat n) 0
          (fun _ => "2025-01-01T00:00:00.000Z") (fun _ => None) [].

(** ** Statistics and trend in the words of the specification *)

(** The statistics in the words of the specification: sums run from left to
    right starting at 0, the mean divides by the number of values, and the
    variance is the population variance (it divides by N, not N - 1). *)
Definition sumOf (xs : list number) : number := fold_left add xs zero.

Definition arithmeticMean (xs : list number) : number :=
  div (sumOf xs) (ofNat (List.length xs)).

Definition populationVariance (xs : list number) : number :=
  div (sumOf (map (fun x => pow2 (sub x (arithmeticMean xs))) xs))
      (ofNat (List.length xs)).

Definition populationStdDev (xs : list number) : number :=
  sqrt (populationVariance xs).

(** The diameters [calculateEyeStats] keeps for an eye. *)
Definition diametersOf (data : list PupilData) (e : Eye) : list number :=
  map diameter (filter (fun d => Eye_eqb (eye d) e) data).

Definition noNaN (xs : list number) : Prop := forall x, In x xs -> isNaN x = false.

(** The trend rule in the words of the specification, on the series of
    pupil diameters in time order. *)
Definition analyzeTrend (series : list number) : Trend :=
  let n := List.length series in
  if (n <? 2)%nat then insufficient
  else
    let firstHalf := firstn (ceilHalf n) series in
    let secondHalf := skipn (ceilHalf n) series in
    let delta := sub (arithmeticMean secondHalf) (arithmeticMean firstHalf) in
    let variability := populationStdDev series in
    if lt delta (lit (-0.1)) then declining
    else if gt delta (lit 0.1) then improving
    else if gt variability (lit 0.15) then variable
    else stable.

(** Samples of one eye, and chart points, with given diameters. *)
Definition samplesOf (e : Eye) (diameters : list number) : list PupilData :=
  map (fun d => mkPupilData zero e d) diameters.

Definition pointsOf (diameters : list number) : list DataPoint :=
  map (fun d => mkDataPoint "" d None) diameters.

(** ** Rows of a report *)

(** Well-formed data rows: a frame written with decimal digits, one of the
    six eye labels, and a diameter written as digits with an optional
    fractional part. *)
Definition isDigit (c : ascii) : bool :=
  let n := nat_of_ascii c in ((48 <=? n) && (n <=? 57))%nat.

Fixpoint allChars (p : ascii -> bool) (s : string) : bool :=
  match s with
  | EmptyString => true
  | String c r => p c && allChars p r
  end.

Definition digitString (s : string) : bool := Str.truthy s && allChars isDigit s.

Definition isEyeLabel (s : string) : bool :=
  existsb (String.eqb s) ["left_eye"; "right_eye"; "left"; "Left"; "right"; "Right"].

Definition decimalString (s : string) : bool :=
  match split "." s with
  | [i] => digitString i
  | [i; f] => digitString i && digitString f
  | _ => false
  end.

Record Row : Type := mkRow {
  frameField : string;
  eyeField : string;
  diameterField : string
}.

Definition wellFormedRow (r : Row) : bool :=
  digitString (frameField r) && isEyeLabel (eyeField r) && decimalString (diameterField r).

Definition rowLine (r : Row) : string :=
  (frameField r ++ "," ++ eyeField r ++ "," ++ diameterField r)%string.

Definition reportOf (rows : list Row) : string := join LF (map rowLine rows).

(** The normalisation of the specification: [left_eye], [left] and [Left]
    are the left eye; [right_eye], [right] and [Right] the right eye. *)
Definition normalizedEye (label : string) : option Eye :=
  if existsb (String.eqb label) ["left_eye"; "left"; "Left"] then Some left_eye
  else if existsb (String.eqb label) ["right_eye"; "right"; "Right"] then Some right_eye
  else None.

(** The value of a string of decimal digits. *)
Fixpoint digitsValueFrom (acc : Z) (s : string) : Z :=
  match s with
  | EmptyString => acc
  | String c r => digitsValueFrom (10 * acc + (Z.of_nat (nat_of_ascii c) - 48)) r
  end.

Definition digitsValue (s : string) : Z := digitsValueFrom 0 s.

(** The sample expected from a well-formed row. *)
Definition rowSample (r : Row) : PupilData :=
  mkPupilData (ofZ (digitsValue (frameField r)))
              (match normalizedEye (eyeField r) with Some e => e | None => left_eye end)
              (parseFloat (diameterField r)).

(** Characters that can occur in a well-formed row. *)
Definition plainChar (c : ascii) : bool :=
  isDigit c || existsb (Ascii.eqb c) (list_ascii_of_string ".,_efghilrtyLR").

(** A line is handled by the row branch of the loop (line 80) when it is
    neither the summary trigger nor a marker, the parser is not inside the
    summary block, and it contains a comma. *)
Definition reachesRowBranch (st : ParseState) (trimmedLine : string) : bool :=
  negb (includes trimmedLine "Processed" && includes trimmedLine "frames")
  && negb (trimmedLine =? "--- CSV Data ---")%string
  && negb (trimmedLine =? "Frame,Eye_Type,Diameter_mm")%string
  && negb (inSummarySection st && negb (inCSVSection st))
  && includes trimmedLine ",".

(** The state after line 97 pushed a sample. *)
Definition pushSample (st : ParseState) (d : PupilData) : ParseState :=
  mkParseState (st_pupilData st ++ [d]) (st_summary st)
               (inSummarySection st) (inCSVSection st).

(** The conditions of line 96 on the fields of a comma-separated line. *)
Definition rowAccepted (trimmedLine : string) (d : PupilData) : Prop :=
  let parts := split "," trimmedLine in
  (3 <= List.length parts)%nat
  /\ isNaN (parseInt (nth 0 parts "")) = false
  /\ isNaN (parseFloat (nth 2 parts "")) = false
  /\ normalizedEye (trim (nth 1 parts "")) = Some (eye d)
  /\ frame d = parseInt (nth 0 parts "")
  /\ diameter d = parseFloat (nth 2 parts "").

(** Example reports. *)
Definition exampleRows : list Row :=
  [mkRow "37" "left_eye" "2.300457715988159"; mkRow "0" "Right" "2.25"; mkRow "12" "left" "3"].

Definition mixedReport : string :=
  join LF ["abc,left_eye,2.3"; "1,top_eye,2.3"; "2,left_eye,"; "3,left_eye"; "7,right,2.5";
           "8,left_eye,NaN"; "9, Left ,2.75,extra"].

(** ** Exact values of numbers *)

(** Exact values.  A finite number [(-1)^s * m * 2^e] is compared with other
    values through the integer [m * 2^(e + 2148)]; the offset covers the
    exponents of the exact products of two binary64 numbers. *)
Definition sc (e : Z) : Z := 2 ^ (e + 2148).

(** [x] is a positive finite number [m * 2^e] whose value lies between the
    integers [lo] and [hi]; the exponent is negative, as it is for every
    binary64 value that is not a multiple of 2^53. *)
Definition valueBetween (lo hi : Z) (x : number) : Prop :=
  match x with
  | S754_finite false m e =>
      -1074 <= e <= -1 /\ lo * 2 ^ (- e) <= Zpos m <= hi * 2 ^ (- e)
  | _ => False
  end.

(** A possible result of [Math.random()]: a binary64 number in [0, 1) with
    positive sign. *)
Definition unitInterval (r : number) : bool :=
  match r with
  | S754_zero false => true
  | S754_finite false m e =>
      valid_binary prec emax r && (e <? 0) && (Zpos m <? 2 ^ (- e))
  | _ => false
  end.

(** [c] is a positive number of integer value [C]. *)
Definition constOf (c : number) (C : Z) : Prop :=
  exists mc ec,
    c = S754_finite false mc ec /\ -1074 <= ec <= -1 /\ Zpos mc * sc ec = C * sc 0.

(** [v] is zero, or a finite number of either sign whose magnitude is at
    most the integer [H]. *)
Definition magnitudeAtMost (H : Z) (v : number) : Prop :=
  match v with
  | S754_zero _ => True
  | S754_finite _ m e => -1074 <= e /\ Zpos m * sc e <= H * sc 0
  | _ => False
  end.

(** The same with the bound 1/2. *)
Definition magnitudeAtMostHalf (v : number) : Prop :=
  match v with
  | S754_zero _ => True
  | S754_finite _ m e => -1074 <= e /\ 2 * (Zpos m * sc e) <= sc 0
  | _ => False
  end.

(** The state of the right-shift loop of the rounding after [j] steps from
    the mantissa [m0]: quotient, remainder and exactness flags. *)
Definition shifted (m0 : Z) (j : nat) (mrs : shr_record) : Prop :=
  0 <= shr_m mrs
  /\ m0 = shr_m mrs * 2 ^ Z.of_nat j + m0 mod 2 ^ Z.of_nat j
  /\ (m0 mod 2 ^ Z.of_nat j = 0 -> shr_r mrs = false /\ shr_s mrs = false).

(** The integers [lo], [lo + 1], ... ([count] of them). *)
Definition integersFrom (lo : Z) (count : nat) : list Z :=
  map (fun k => lo + Z.of_nat k) (seq 0 count).

(** ** Reaction-time estimates *)

(** The value the next call of [Math.random()] returns. *)
Definition nextDraw (w : World) : number := randoms w (draws w).

(** The pupil adjustment of the eye-test estimate: which of the three
    branches of lines 59-65 is taken, what it does to the base time, and
    the amount in milliseconds. *)
Inductive Adjustment : Type := plus50 | minus25 | unchanged.

Definition pupilAdjustment (avgPupilSize : option number) : Adjustment :=
  match avgPupilSize with
  | Some a =>
      if JS.truthy a then
        if lt a (lit 2.0) then plus50
        else if gt a (lit 3.0) then minus25
        else unchanged
      else unchanged
  | None => unchanged
  end.

Definition adjust (a : Adjustment) (baseTime : number) : number :=
  match a with
  | plus50 => add baseTime (lit 50)
  | minus25 => sub baseTime (lit 25)
  | unchanged => baseTime
  end.

Definition amount (a : Adjustment) : Z :=
  match a with
  | plus50 => 50
  | minus25 => -25
  | unchanged => 0
  end.

Definition baseRange (fatigueLevel : FatigueLevel) : Z * Z :=
  match fatigueLevel with
  | low => (250, 300)
  | moderate => (300, 400)
  | high => (400, 550)
  end.

(** The base time of the eye-test estimate for a draw [r] (lines 43-56). *)
Definition eyeTestBaseTime (fatigueLevel : FatigueLevel) (r : number) : number :=
  match fatigueLevel with
  | low => add (lit 250) (mul r (lit 50))
  | moderate => add (lit 250) (add (lit 50) (mul r (lit 100)))
  | high => add (lit 250) (add (lit 150) (mul r (lit 150)))
  end.

(** The value of [baseReactionTimes] as an integer. *)
Definition baseValue (fatigueLevel : FatigueLevel) : Z :=
  match fatigueLevel with
  | low => 280
  | moderate => 350
  | high => 450
  end.

(** The value estimated by [analysisService.ts] before the clamp, spelled
    out: base time, continuous pupil term, variation of the draw [r]. *)
Definition analysisEstimate (fatigueLevel : FatigueLevel) (avgPupilSize : option number)
    (r : number) : number :=
  JS.round
    (add (match avgPupilSize with
          | Some a =>
              if JS.truthy a
              then add (baseReactionTimes fatigueLevel) (mul (sub (lit 3.0) a) (lit 50))
              else baseReactionTimes fatigueLevel
          | None => baseReactionTimes fatigueLevel
          end)
         (mul (sub r (lit 0.5)) (lit 40))).

(** * Definitions used in the further statements *)

(** ** Lines of a report *)

(** The test of line 52: the line opens the summary block. *)
Definition opensSummary (line : string) : bool :=
  includes (trim line) "Processed" && includes (trim line) "frames".

(** The test of line 59: the line is the CSV marker. *)
Definition isCSVMarker (line : string) : bool :=
  (trim line =? "--- CSV Data ---")%string.

(** The lines the loop of [parseResultData] runs over. *)
Definition linesOf (resultText : string) : list string :=
  filter (fun line => Str.truthy (trim line)) (split LF resultText).

(** The same text with CRLF line ends. *)
Definition CR : ascii := "013"%char.

Fixpoint toCRLF (s : string) : string :=
  match s with
  | EmptyString => EmptyString
  | String c r =>
      if Ascii.eqb c LF then String CR (String LF (toCRLF r)) else String c (toCRLF r)
  end.

(** The loop body as a function of the trimmed line. *)
Definition parseTrimmed (st : ParseState) (trimmedLine : string) : ParseState :=
  if includes trimmedLine "Processed" && includes trimmedLine "frames" then
    mkParseState (st_pupilData st) (st_summary st ++ trimmedLine ++ String LF "")%string
                 true (inCSVSection st)
  else if (trimmedLine =? "--- CSV Data ---")%string then
    mkParseState (st_pupilData st) (st_summary st) (inSummarySection st) true
  else if (trimmedLine =? "Frame,Eye_Type,Diameter_mm")%string then st
  else if inSummarySection st && negb (inCSVSection st) then
    if isSummaryField trimmedLine then
      mkParseState (st_pupilData st) (st_summary st ++ trimmedLine ++ String LF "")%string
                   (inSummarySection st) (inCSVSection st)
    else st
  else if includes trimmedLine "," then
    match parseRow trimmedLine with
    | Some d =>
        mkParseState (st_pupilData st ++ [d]) (st_summary st)
                     (inSummarySection st) (inCSVSection st)
    | None => st
    end
  else st.

(** A parser state with samples and summary text put in front. *)
Definition prefixed (p : list PupilData) (q : string) (st : ParseState) : ParseState :=
  mkParseState (p ++ st_pupilData st) (q ++ st_summary st)%string
               (inSummarySection st) (inCSVSection st).

(** ** The text the analysis screen hands to the pipeline
    ([parseAndSaveAnalysis] of [app/(tabs)/analysis.tsx], lines 151-157) *)

Definition DQUOTE : ascii := "034"%char.
Definition BACKSLASH : ascii := "092"%char.

Definition hexDigit (n : nat) : ascii :=
  nth n (list_ascii_of_string "0123456789abcdef") "0"%char.

(** [JSON.stringify] of a string value: the code units between double
    quotes, with the quote, the backslash and the control characters
    escaped. *)
Definition quoteChar (c : ascii) : string :=
  let n := nat_of_ascii c in
  if (n =? 8)%nat then String BACKSLASH "b"
  else if (n =? 9)%nat then String BACKSLASH "t"
  else if (n =? 10)%nat then String BACKSLASH "n"
  else if (n =? 12)%nat then String BACKSLASH "f"
  else if (n =? 13)%nat then String BACKSLASH "r"
  else if (n =? 34)%nat then String BACKSLASH (String DQUOTE "")
  else if (n =? 92)%nat then String BACKSLASH (String BACKSLASH "")
  else if (n <? 32)%nat then
    String BACKSLASH (String "u" (String "0" (String "0"
      (String (hexDigit (n / 16)) (String (hexDigit (n mod 16)) "")))))
  else String c "".

Fixpoint quoteBody (s : string) : string :=
  match s with
  | EmptyString => EmptyString
  | String c r => (quoteChar c ++ quoteBody r)%string
  end.

Definition JSON_stringify (s : string) : string :=
  String DQUOTE (quoteBody s ++ String DQUOTE "").

(** Lines 151-157, for a result whose [results] field, when present, is a
    string: the summary, or the empty string, unless there are results,
    which are then stringified. *)
Definition resultTextOf (summary results : option string) : string :=
  let resultText :=
    match summary with
    | Some s => if Str.truthy s then s else ""
    | None => ""
    end in
  match results with
  | Some r => if Str.truthy r then JSON_stringify r else resultText
  | None => resultText
  end.

(** ** Records of a run *)


(** The metadata [processAndSaveAnalysis] passes on to the eye-test record
    (lines 294-298). *)
Definition eyeTestMetadata (metadata : option Metadata) : Metadata :=
  objSet "originalAnalysis" (MBool true)
    (objSet "source" (MStr "analysis_service")
       match metadata with Some o => o | None => [] end).

(** The record that [processEyeTestResult] builds at lines 190-209 from
    the parsed report and the values it generated. *)
Definition assembledEyeTest
    (resultText : string) (analysisUrl : option string) (metadata : option Metadata)
    (testType : TestType) (testDuration : number) (settings : option Settings)
    (reactionTime : number) (eyeMovementPattern : option string)
    (focusAccuracy contrastSensitivity : number) : EyeTestData.t :=
  let parsed := parseResultData resultText in
  let leftEyeStats := calculateEyeStats (pupilData parsed) left_eye in
  let rightEyeStats := calculateEyeStats (pupilData parsed) right_eye in
  let fatigueLevel := determineFatigueLevel (Some leftEyeStats) (Some rightEyeStats) in
  let blinkStats := EyeTestService.calculateBlinkStats (pupilData parsed) testDuration in
  EyeTestData.mk
    (presentStats leftEyeStats) (presentStats rightEyeStats)
    (summary parsed) fatigueLevel (pupilData parsed) (computeFrameCount (pupilData parsed))
    analysisUrl metadata (Some reactionTime) testType (Some testDuration) settings
    (Some (fst blinkStats))
    (Some (div (JS.round (mul (snd blinkStats) (lit 10))) (lit 10)))
    eyeMovementPattern (Some focusAccuracy)
    (Some match fatigueLevel with
          | low => div (lit 20) (lit 20)
          | moderate => div (lit 20) (lit 25)
          | high => div (lit 20) (lit 30)
          end)
    (Some (div (JS.round (mul contrastSensitivity (lit 10))) (lit 10))).

(** The world after [n] draws, [t] clock readings and the store calls
    [ws]. *)
Definition worldAfter (w : World) (n t : nat) (ws : list StoreWrite) : World :=
  mkWorld (randoms w) (n + draws w) (clock w) (t + ticks w) (toISOString w) (setError w)
          (writes w ++ ws).

(** Whether the [n]-th store call of a world is accepted. *)
Definition accepted (w : World) (n : nat) : bool :=
  match setError w n with None => true | Some _ => false end.

(** ** Dashboard *)

(** An eye test that does not count in the focus average of the pattern
    recommendation: no focus accuracy, or one that is 0 or NaN. *)
Definition withoutFocus (eyeTest : EyeTestData.t) : Prop :=
  match EyeTestData.focusAccuracy eyeTest with
  | Some fa => JS.truthy fa = false
  | None => True
  end.

(** An analysis that does not count in its pupil average: neither mean is
    above 0. *)
Definition withoutPupil (analysis : Dashboard.Analysis) : Prop :=
  gt (Dashboard.meanOrZero (Dashboard.leftEyeStats analysis)) zero = false
  /\ gt (Dashboard.meanOrZero (Dashboard.rightEyeStats analysis)) zero = false.

Definition potentialFatigue : Dashboard.Recommendation :=
  Dashboard.mkRecommendation "Potential Fatigue Detected"
    "Your recent assessments suggest increased cognitive fatigue or reduced visual performance. Consider taking breaks and ensuring adequate rest."
    "#EF4444".

(** ** Eye-test metrics *)

(** The ranges of the focus accuracy (lines 114-124) and of the contrast
    sensitivity (lines 185-187) per fatigue level, in percent. *)
Definition focusRange (fatigueLevel : FatigueLevel) : Z * Z :=
  match fatigueLevel with
  | low => (90, 100)
  | moderate => (75, 90)
  | high => (60, 75)
  end.

(** The largest draw below 1. *)
Definition largestDraw : number := S754_finite false 9007199254740991 (-53).

(** Samples in which no two neighbours belong to the same eye. *)
Fixpoint alternatingEyes (pupilData : list PupilData) : Prop :=
  match pupilData with
  | a :: (b :: _) as rest => Eye_eqb (eye b) (eye a) = false /\ alternatingEyes rest
  | _ => True
  end.

(** The blink rate as stored by [processEyeTestResult] (line 204) for a
    blink count and a test duration. *)
Definition storedBlinkRate (blinkCount : nat) (testDuration : number) : number :=
  div (JS.round (mul (mul (div (ofNat blinkCount) testDuration) (lit 60)) (lit 10))) (lit 10).

(** Equality of numbers as values of the model. *)
Definition number_eqb (a b : number) : bool :=
  match a, b with
  | S754_zero s, S754_zero s' => Bool.eqb s s'
  | S754_infinity s, S754_infinity s' => Bool.eqb s s'
  | S754_nan, S754_nan => true
  | S754_finite s m e, S754_finite s' m' e' => Bool.eqb s s' && Pos.eqb m m' && Z.eqb e e'
  | _, _ => false
  end.

Definition contrastRange (fatigueLevel : FatigueLevel) : Z * Z :=
  match fatigueLevel with
  | low => (95, 100)
  | moderate => (80, 95)
  | high => (65, 80)
  end.

(** The contrast sensitivity of lines 185-187 for a draw [r], and the
    rounding to one decimal of line 208. *)
Definition contrastOf (fatigueLevel : FatigueLevel) (r : number) : number :=
  match fatigueLevel with
  | low => add (lit 95) (mul r (lit 5))
  | moderate => add (lit 80) (mul r (lit 15))
  | high => add (lit 65) (mul r (lit 15))
  end.

Definition oneDecimal (x : number) : number := div (JS.round (mul x (lit 10))) (lit 10).

(** The value of the [k]-th next call of [Math.random()]. *)
Definition drawAt (w : World) (k : nat) : number := randoms w (k + draws w).

(** The visual acuity of line 184. *)
Definition visualAcuityOf (fatigueLevel : FatigueLevel) : number :=
  match fatigueLevel with
  | low => div (lit 20) (lit 20)
  | moderate => div (lit 20) (lit 25)
  | high => div (lit 20) (lit 30)
  end.

(** The focus accuracy of lines 114-124 for a draw [r], before rounding. *)
Definition focusOf (fatigueLevel : FatigueLevel) (r : number) : number :=
  match fatigueLevel with
  | low => add (lit 90) (mul r (lit 10))
  | moderate => add (lit 75) (mul r (lit 15))
  | high => add (lit 60) (mul r (lit 15))
  end.

(** The pattern of line 105 for a draw [r]. *)
Definition patternOf (fatigueLevel : FatigueLevel) (r : number) : option string :=
  match EyeTestService.toIndex
          (JS.floor (mul r (ofNat (List.length (EyeTestService.patterns fatigueLevel))))) with
  | Some i => nth_error (EyeTestService.patterns fatigueLevel) i
  | None => None
  end.

(** Whether [x] lies between the integers [lo] and [hi], by comparison of
    numbers. *)
Definition within (lo hi : Z) (x : number) : bool := le (ofZ lo) x && le x (ofZ hi).

(** ** A report in full *)

(** A report in the layout of the bundled sample: direct rows, a line that
    opens the summary block, the rest of the block, the CSV marker, the
    header, and the rows of the CSV section. *)
Definition fullReport (direct : list Row) (opening block : string) (csv : list Row) : string :=
  (reportOf direct ++ String LF
     (opening ++ String LF
        (block ++ String LF
           ("--- CSV Data ---" ++ String LF
              ("Frame,Eye_Type,Diameter_mm" ++ String LF (reportOf csv))))))%string.

(** * Checks of the number model

    The arithmetic and the two readers agree with Rocq's own reader of
    binary64 literals on the values below. *)

Example arithmetic_checks :
  add (lit 0.1) (lit 0.2) = lit 0.30000000000000004
  /\ div (lit 4.4) (ofNat 2) = lit 2.2
  /\ mul (sub (lit 3.0) (lit 2.5)) (lit 50) = lit 25
  /\ sqrt (lit 2) = lit 1.4142135623730951
  /\ JS.round (lit 2.5) = lit 3
  /\ JS.round (lit (-2.5)) = lit (-2)
  /\ JS.round (lit (-0.2)) = S754_zero true
  /\ JS.round (lit 0.49999999999999994) = zero
  /\ JS.round (lit 374.5) = lit 375
  /\ JS.floor (lit (-0.5)) = lit (-1)
  /\ JS.floor (lit 2.9) = lit 2
  /\ max2 (lit 200) (lit 199) = lit 200
  /\ max2 (lit 200) NaN = NaN
  /\ Math_min [lit 3; lit 1; lit 2] = lit 1
  /\ Math_max [lit 3; lit 1; lit 2] = lit 3.
Proof. vm_compute. repeat split; reflexivity. Qed.

Example parseFloat_checks :
  parseFloat "2.3212697505950928" = lit 2.3212697505950928
  /\ parseFloat "2.300457715988159" = lit 2.300457715988159
  /\ parseFloat "  -1.5e3xyz" = lit (-1500)
  /\ parseFloat "1e400" = Infinity
  /\ parseFloat "Infinity" = Infinity
  /\ parseFloat "4.9e-324" = lit 4.9e-324
  /\ parseFloat "2.4703282292062327e-324" = zero
  /\ parseFloat "2.4703282292062328e-324" = lit 4.9e-324
  /\ parseFloat "1.7976931348623157e308" = lit 1.7976931348623157e308
  /\ parseFloat "1.7976931348623159e308" = Infinity
  /\ parseFloat "9007199254740993" = lit 9007199254740992
  /\ parseFloat "2.2250738585072012e-308" = lit 2.2250738585072012e-308
  /\ parseFloat "0.1" = lit 0.1
  /\ parseFloat ".5" = lit 0.5
  /\ parseFloat "5." = lit 5
  /\ parseFloat "1e23" = lit 1e23
  /\ parseFloat "8.5e-5" = lit 8.5e-5
  /\ parseFloat "1e" = lit 1
  /\ parseFloat "-0" = S754_zero true
  /\ parseFloat "." = NaN
  /\ parseFloat "abc" = NaN
  /\ parseFloat "" = NaN.
Proof. vm_compute. repeat split; reflexivity. Qed.

Example parseInt_checks :
  parseInt "-5" = lit (-5)
  /\ parseInt "3.7" = lit 3
  /\ parseInt " 0x1f" = lit 31
  /\ parseInt "12px" = lit 12
  /\ parseInt "-0" = S754_zero true
  /\ parseInt "9007199254740993" = lit 9007199254740992
  /\ parseInt "abc" = NaN
  /\ parseInt "0x" = NaN
  /\ parseInt "" = NaN.
Proof. vm_compute. repeat split; reflexivity. Qed.

Example string_checks :
  split "," "a,b,,c" = ["a"; "b"; ""; "c"]
  /\ split "," "" = [""]
  /\ trim "  a b  " = "a b"
  /\ includes "Processed 255 frames" "frames" = true
  /\ includes "abc" "abd" = false
  /\ includes "abc" "" = true
  /\ List.length (pupilData (parseResultData sampleResultText)) = 35%nat.
Proof. vm_compute. repeat split; reflexivity. Qed.

(** The statistics of the bundled report, recomputed with the machine's
    binary64 operations on the same diameters, are the ones of the model. *)
Example native_statistics_check :
  let ds := map SF2Prim (map diameter
              (filter (fun d => Eye_eqb (eye d) left_eye)
                      (pupilData (parseResultData sampleResultText)))) in
  let n := PrimFloat.of_uint63 (Uint63.of_Z 20) in
  let m := PrimFloat.div (fold_left PrimFloat.add ds 0%float) n in
  let v := PrimFloat.div
             (fold_left (fun s x => PrimFloat.add s (PrimFloat.mul (PrimFloat.sub x m)
                                                                   (PrimFloat.sub x m)))
                        ds 0%float) n in
  let stats := calculateEyeStats (pupilData (parseResultData sampleResultText)) left_eye in
  Prim2SF m = mean stats /\ Prim2SF (PrimFloat.sqrt v) = std stats.
Proof. vm_compute. split; reflexivity. Qed.

(** * Properties *)

(** ** Order facts on numbers *)

Lemma compare_cont_Eq (p q : positive) : Pos.compare_cont Eq p q = Pos.compare p q.
Proof. reflexivity. Qed.

Ltac order_step :=
  match goal with
  | |- context [Pos.compare_cont Eq ?a ?b] =>
      change (Pos.compare_cont Eq a b) with (Pos.compare a b)
  | H : context [Pos.compare_cont Eq ?a ?b] |- _ =>
      change (Pos.compare_cont Eq a b) with (Pos.compare a b) in H
  | |- context [Z.compare ?a ?b] => destruct (Z.compare_spec a b)
  | H : context [Z.compare ?a ?b] |- _ => destruct (Z.compare_spec a b)
  | |- context [Pos.compare ?a ?b] => destruct (Pos.compare_spec a b)
  | H : context [Pos.compare ?a ?b] |- _ => destruct (Pos.compare_spec a b)
  end.

Ltac order_cases :=
  repeat (order_step; simpl in *; subst; try discriminate; try reflexivity; try lia).

(** For numbers that are not NaN, [a < b] or [b <= a]. *)
Lemma not_lt_le (a b : number) :
  isNaN a = false -> isNaN b = false -> lt a b = false -> le b a = true.
Proof.
  unfold lt, le, SFltb, SFleb, SFcompare.
  destruct a as [sa|sa| |sa ma ea], b as [sb|sb| |sb mb eb]; simpl;
    try discriminate;
    repeat match goal with s : bool |- _ => destruct s end; simpl;
    try discriminate; try reflexivity;
    intros; order_cases.
Qed.

Lemma lt_not_le (a b : number) : lt a b = true -> le b a = false.
Proof.
  unfold lt, le, SFltb, SFleb, SFcompare.
  destruct a as [sa|sa| |sa ma ea], b as [sb|sb| |sb mb eb]; simpl;
    try discriminate;
    repeat match goal with s : bool |- _ => destruct s end; simpl;
    try discriminate; try reflexivity;
    intros; order_cases.
Qed.

Lemma lt_le (a b : number) : lt a b = true -> le a b = true.
Proof.
  unfold lt, le, SFltb, SFleb.
  destruct (SFcompare a b) as [[]|]; congruence.
Qed.

Lemma le_refl (a : number) : isNaN a = false -> le a a = true.
Proof.
  unfold le, SFleb, SFcompare.
  destruct a as [sa|sa| |sa ma ea]; simpl; try discriminate; intros _;
    repeat match goal with s : bool |- _ => destruct s end; simpl; try reflexivity;
    order_cases.
Qed.

Lemma le_trans (a b c : number) : le a b = true -> le b c = true -> le a c = true.
Proof.
  unfold le, SFleb, SFcompare.
  destruct a as [sa|sa| |sa ma ea], b as [sb|sb| |sb mb eb], c as [sc|sc| |sc mc ec];
    simpl; try discriminate; try reflexivity;
    repeat match goal with s : bool |- _ => destruct s end; simpl;
    try discriminate; try reflexivity;
    intros H1 H2; order_cases.
Qed.

Lemma le_not_NaN (a b : number) : le a b = true -> isNaN a = false /\ isNaN b = false.
Proof.
  unfold le, SFleb, SFcompare.
  destruct a, b; simpl; try discriminate; auto.
Qed.

(** ** Rounding never produces NaN *)

Lemma iter_pos_invariant {A} (P : A -> Prop) (f : A -> A) :
  (forall x, P x -> P (f x)) -> forall p x, P x -> P (iter_pos f p x).
Proof.
  intros Hf. induction p as [p IH | p IH |]; intros x Hx; simpl.
  - apply IH, IH, Hf, Hx.
  - apply IH, IH, Hx.
  - apply Hf, Hx.
Qed.

Lemma shr_1_nonneg mrs : 0 <= shr_m mrs -> 0 <= shr_m (shr_1 mrs).
Proof.
  destruct mrs as [m r s].
  destruct m as [|[p|p|]|[p|p|]]; simpl; lia.
Qed.

Lemma shr_nonneg mrs e n : 0 <= shr_m mrs -> 0 <= shr_m (fst (shr mrs e n)).
Proof.
  intros H. destruct n as [|p|p]; simpl; try exact H.
  apply (iter_pos_invariant (fun x => 0 <= shr_m x)); [apply shr_1_nonneg | exact H].
Qed.

Lemma shr_record_of_loc_m m l : shr_m (shr_record_of_loc m l) = m.
Proof. destruct l as [|[]]; reflexivity. Qed.

Lemma shr_fexp_nonneg m e l : 0 <= m -> 0 <= shr_m (fst (shr_fexp prec emax m e l)).
Proof.
  intros H. unfold shr_fexp. apply shr_nonneg. rewrite shr_record_of_loc_m. exact H.
Qed.

Lemma round_nearest_even_nonneg m l : 0 <= m -> 0 <= round_nearest_even m l.
Proof.
  intros H. unfold round_nearest_even.
  destruct l as [|[]]; try destruct (Z.even m); lia.
Qed.

Lemma binary_round_aux_not_NaN sx mx ex lx :
  0 <= mx -> isNaN (binary_round_aux prec emax sx mx ex lx) = false.
Proof.
  intros H. unfold binary_round_aux.
  pose proof (shr_fexp_nonneg mx ex lx H) as H1.
  destruct (shr_fexp prec emax mx ex lx) as [mrs' e']. simpl in H1.
  pose proof (shr_fexp_nonneg _ e' loc_Exact
                (round_nearest_even_nonneg _ (loc_of_shr_record mrs') H1)) as H2.
  destruct (shr_fexp prec emax _ e' loc_Exact) as [mrs'' e'']. simpl in H2.
  destruct (shr_m mrs'') as [|m|m]; [reflexivity | | lia].
  destruct (e'' <=? emax - prec); reflexivity.
Qed.

Lemma binary_round_not_NaN sx mx ex : isNaN (binary_round prec emax sx mx ex) = false.
Proof.
  unfold binary_round. destruct (shl_align mx ex _) as [mz ez].
  apply binary_round_aux_not_NaN. lia.
Qed.

Lemma ofZ_not_NaN z : isNaN (ofZ z) = false.
Proof.
  unfold ofZ, binary_normalize. destruct z; [reflexivity | |]; apply binary_round_not_NaN.
Qed.

Lemma decimalToNumber_not_NaN sgn N x : 0 <= N -> isNaN (decimalToNumber sgn N x) = false.
Proof.
  intros HN. unfold decimalToNumber.
  destruct (N =? 0); [reflexivity|].
  destruct (0 <=? x) eqn:Hx.
  - unfold binary_normalize.
    destruct (cond_Zopp sgn (N * 10 ^ x)); [reflexivity | |]; apply binary_round_not_NaN.
  - unfold SFdiv_core_binary.
    set (e' := Z.min _ _). set (m' := match (0 - 0 - e') with Z0 => N | Zpos _ => _ | Zneg _ => 0 end).
    assert (Hm : 0 <= m').
    { unfold m'. destruct (0 - 0 - e'); [exact HN | | lia].
      rewrite Z.shiftl_mul_pow2 by lia. apply Z.mul_nonneg_nonneg; [exact HN|].
      apply Z.pow_nonneg. lia. }
    apply Z.leb_gt in Hx.
    assert (Hp : 0 < 10 ^ (- x)) by (apply Z.pow_pos_nonneg; lia).
    pose proof (Z.div_pos m' (10 ^ (- x)) Hm Hp) as Hq.
    unfold Z.div in Hq. destruct (Z.div_eucl m' (10 ^ (- x))) as [q r].
    apply binary_round_aux_not_NaN. exact Hq.
Qed.

(** ** Rounding and exact bounds *)

Lemma fexp_eq x : fexp prec emax x = Z.max (x - 53) (-1074).
Proof. reflexivity. Qed.

Lemma digits2_bounds p :
  2 ^ (Zpos (digits2_pos p) - 1) <= Zpos p < 2 ^ Zpos (digits2_pos p).
Proof.
  induction p as [p IH | p IH |]; cbn [digits2_pos].
  - rewrite Pos2Z.inj_succ.
    replace (Z.succ (Zpos (digits2_pos p)) - 1) with (Z.succ (Zpos (digits2_pos p) - 1)) by lia.
    rewrite !Z.pow_succ_r by lia. lia.
  - rewrite Pos2Z.inj_succ.
    replace (Z.succ (Zpos (digits2_pos p)) - 1) with (Z.succ (Zpos (digits2_pos p) - 1)) by lia.
    rewrite !Z.pow_succ_r by lia. lia.
  - simpl. lia.
Qed.

Lemma sc_pos e : 0 < sc e \/ e + 2148 < 0.
Proof.
  unfold sc. destruct (Z_lt_le_dec (e + 2148) 0); [right; assumption|].
  left. apply Z.pow_pos_nonneg; lia.
Qed.

Lemma sc_shift e k : -2148 <= e -> 0 <= k -> sc (e + k) = sc e * 2 ^ k.
Proof.
  intros He Hk. unfold sc.
  replace (e + k + 2148) with ((e + 2148) + k) by lia.
  apply Z.pow_add_r; lia.
Qed.

Lemma sc_gt0 e : -2148 <= e -> 0 < sc e.
Proof. intros H. unfold sc. apply Z.pow_pos_nonneg; lia. Qed.

Lemma pow2_gt0 k : 0 <= k -> 0 < 2 ^ k.
Proof. intros H. apply Z.pow_pos_nonneg; lia. Qed.

Lemma valueBetween_sc lo hi m e :
  valueBetween lo hi (S754_finite false m e)
  <-> -1074 <= e <= -1 /\ lo * sc 0 <= Zpos m * sc e <= hi * sc 0.
Proof.
  cbn [valueBetween].
  assert (Hiff : -1074 <= e <= -1 ->
                 (lo * 2 ^ (- e) <= Zpos m <= hi * 2 ^ (- e)
                  <-> lo * sc 0 <= Zpos m * sc e <= hi * sc 0)).
  { intros He.
    assert (S0 : sc 0 = sc e * 2 ^ (- e)).
    { replace 0 with (e + (- e)) at 1 by lia. apply sc_shift; lia. }
    pose proof (sc_gt0 e ltac:(lia)) as Hse.
    pose proof (pow2_gt0 (- e) ltac:(lia)) as Hk.
    rewrite S0. split; intros [H1 H2]; split; nia. }
  split; intros [He H]; (split; [exact He | apply (Hiff He); exact H]).
Qed.

(** *** Shifting right *)

Lemma iter_pos_count {A} (P : nat -> A -> Prop) (f : A -> A) :
  (forall j x, P j x -> P (S j) (f x)) ->
  forall p j x, P j x -> P (j + Pos.to_nat p)%nat (iter_pos f p x).
Proof.
  intros Hf. induction p as [p IH | p IH |]; intros j x Hx; cbn [iter_pos].
  - rewrite Pos2Nat.inj_xI.
    replace (j + S (2 * Pos.to_nat p))%nat with (S j + Pos.to_nat p + Pos.to_nat p)%nat by lia.
    apply IH, IH, Hf, Hx.
  - rewrite Pos2Nat.inj_xO.
    replace (j + 2 * Pos.to_nat p)%nat with (j + Pos.to_nat p + Pos.to_nat p)%nat by lia.
    apply IH, IH, Hx.
  - rewrite Pos2Nat.inj_1. replace (j + 1)%nat with (S j) by lia. apply Hf, Hx.
Qed.

Lemma shr_1_half m r s :
  0 <= m ->
  shr_1 (Build_shr_record m r s)
  = Build_shr_record (m / 2) (Z.odd m) (r || s).
Proof.
  intros Hm. destruct m as [|[p|p|]|p]; try lia; cbn [shr_1].
  - reflexivity.
  - f_equal. change (Zpos p~1) with (2 * Zpos p + 1).
    apply Z.div_unique with 1; lia.
  - f_equal. change (Zpos p~0) with (2 * Zpos p).
    apply Z.div_unique with 0; lia.
  - reflexivity.
Qed.

Lemma shifted_step m0 j mrs : 0 <= m0 -> shifted m0 j mrs -> shifted m0 (S j) (shr_1 mrs).
Proof.
  intros Hm0 (Hm & Hdiv & Hex). destruct mrs as [m r s]. cbn [shr_m shr_r shr_s] in *.
  rewrite (shr_1_half m r s Hm). unfold shifted. cbn [shr_m shr_r shr_s].
  rewrite Nat2Z.inj_succ, Z.pow_succ_r by lia.
  set (q := 2 ^ Z.of_nat j) in *.
  assert (Hq : 0 < q) by (apply pow2_gt0; lia).
  pose proof (Z.mod_pos_bound m0 q Hq) as Hr.
  pose proof (Z.div_mod m 2 ltac:(lia)) as Hm2.
  pose proof (Z.mod_pos_bound m 2 ltac:(lia)) as Hr2.
  assert (Hmod : m0 mod (2 * q) = (m mod 2) * q + m0 mod q).
  { symmetry. apply Z.mod_unique with (m / 2); [nia | nia]. }
  split; [apply Z.div_pos; lia|]. split; [rewrite Hmod; nia|].
  intros H0. rewrite Hmod in H0.
  assert (Hm20 : m mod 2 = 0) by nia.
  assert (Hr0 : m0 mod q = 0) by nia.
  destruct (Hex Hr0) as [-> ->].
  split; [|reflexivity].
  rewrite <- Z.negb_even. apply negb_false_iff, Z.even_spec. exists (m / 2). lia.
Qed.

Lemma shr_spec m0 e k :
  0 <= m0 -> 0 < k ->
  exists mrs,
    shr (Build_shr_record m0 false false) e k = (mrs, e + k)
    /\ 0 <= shr_m mrs
    /\ m0 = shr_m mrs * 2 ^ k + m0 mod 2 ^ k
    /\ (m0 mod 2 ^ k = 0 -> loc_of_shr_record mrs = loc_Exact).
Proof.
  intros Hm0 Hk. destruct k as [|p|p]; try lia.
  cbn [shr]. eexists. split; [reflexivity|].
  assert (S0 : shifted m0 0 (Build_shr_record m0 false false)).
  { unfold shifted. cbn [shr_m shr_r shr_s]. change (2 ^ Z.of_nat 0) with 1.
    rewrite Z.mod_1_r. repeat split; try lia. }
  pose proof (iter_pos_count (shifted m0) shr_1 (fun j x => shifted_step m0 j x Hm0) p 0%nat _ S0)
    as (H1 & H2 & H3).
  cbn [Nat.add] in H1, H2, H3. rewrite positive_nat_Z in H2, H3.
  split; [exact H1|]. split; [exact H2|].
  intros H0. destruct (H3 H0) as [Hr Hs].
  destruct (iter_pos shr_1 p _) as [m r s]. cbn in Hr, Hs. subst. reflexivity.
Qed.

Lemma round_nearest_even_bounds m l :
  m <= round_nearest_even m l <= m + 1
  /\ (l = loc_Exact -> round_nearest_even m l = m).
Proof.
  unfold round_nearest_even.
  destruct l as [|[]]; try destruct (Z.even m); split; try lia; try discriminate; reflexivity.
Qed.

(** *** One rounding stage *)

Lemma shr_fexp_stage p e :
  -2148 <= e ->
  exists mrs e' rho,
    shr_fexp prec emax (Zpos p) e loc_Exact = (mrs, e')
    /\ 0 <= shr_m mrs
    /\ e' = Z.max e (Z.max (Zpos (digits2_pos p) + e - 53) (-1074))
    /\ 0 <= rho < 2 ^ (e' - e)
    /\ Zpos p = shr_m mrs * 2 ^ (e' - e) + rho
    /\ (rho = 0 -> loc_of_shr_record mrs = loc_Exact).
Proof.
  intros He. unfold shr_fexp. rewrite fexp_eq. cbn [Zdigits2 shr_record_of_loc].
  set (fe := Z.max (Zpos (digits2_pos p) + e - 53) (-1074)).
  destruct (Z_lt_le_dec 0 (fe - e)) as [Hk | Hk].
  - destruct (shr_spec (Zpos p) e (fe - e) ltac:(lia) Hk) as (mrs & E & H1 & H2 & H3).
    exists mrs, (e + (fe - e)), (Zpos p mod 2 ^ (fe - e)).
    rewrite E. replace (Z.max e fe) with fe by lia.
    replace (e + (fe - e)) with fe by lia.
    split; [reflexivity|]. split; [exact H1|]. split; [reflexivity|].
    split; [apply Z.mod_pos_bound, pow2_gt0; lia|]. split; [exact H2 | exact H3].
  - exists (Build_shr_record (Zpos p) false false), e, 0.
    replace (Z.max e fe) with e by lia. rewrite Z.sub_diag.
    split; [destruct (fe - e); try reflexivity; lia|].
    cbn [shr_m]. repeat split; try lia; reflexivity.
Qed.

(** A bound [A * 2^g] that a binary64 number can take ([A < 2^53]) is kept
    by the floor of a stage, from below. *)
Lemma stage_lower p e m' e' rho A g :
  -2148 <= e -> -1074 <= g -> 0 < A < 2 ^ 53 ->
  e' = Z.max e (Z.max (Zpos (digits2_pos p) + e - 53) (-1074)) ->
  0 <= rho < 2 ^ (e' - e) ->
  Zpos p = m' * 2 ^ (e' - e) + rho ->
  A * sc g <= Zpos p * sc e ->
  A * sc g <= m' * sc e'.
Proof.
  intros He Hg HA He' Hrho Hp L.
  assert (Hee : e <= e') by lia.
  set (K := 2 ^ (e' - e)) in *.
  assert (HK : 0 < K) by (apply pow2_gt0; lia).
  assert (Hsc' : sc e' = sc e * K).
  { replace e' with (e + (e' - e)) at 1 by lia. apply sc_shift; lia. }
  pose proof (sc_gt0 e He) as Hse.
  pose proof (sc_gt0 g ltac:(lia)) as Hsg.
  destruct (Z_le_gt_dec e' e) as [Hsame | Hshift].
  - assert (EK : K = 1) by (unfold K; replace (e' - e) with 0 by lia; reflexivity).
    rewrite EK in *. assert (rho = 0) by lia. subst rho.
    rewrite Hsc'. replace m' with (Zpos p) by lia. lia.
  - destruct (Z_le_gt_dec e' g) as [Hle | Hgt].
    + set (B := A * 2 ^ (g - e')).
      assert (HB : A * sc g = B * sc e').
      { unfold B. replace g with (e' + (g - e')) at 1 by lia.
        rewrite sc_shift by lia. ring. }
      rewrite HB, Hsc'. rewrite HB, Hsc' in L.
      assert (B * K <= Zpos p) by nia.
      assert (B <= m') by nia.
      apply Z.mul_le_mono_nonneg_r; [nia | exact H0].
    + assert (Ed : e' = Zpos (digits2_pos p) + e - 53) by lia.
      pose proof (digits2_bounds p) as [Hd _].
      assert (HKd : 2 ^ (Zpos (digits2_pos p) - 1) = 2 ^ 52 * K).
      { unfold K. rewrite <- Z.pow_add_r by lia. f_equal. lia. }
      assert (Hm' : 2 ^ 52 <= m') by nia.
      assert (Hsg' : sc g * 2 <= sc e').
      { replace e' with ((g + 1) + (e' - (g + 1))) by lia.
        rewrite sc_shift by lia. rewrite (sc_shift g 1) by lia.
        change (2 ^ 1) with 2.
        pose proof (pow2_gt0 (e' - (g + 1)) ltac:(lia)). nia. }
      pose proof (sc_gt0 e' ltac:(lia)) as Hse'.
      assert (2 ^ 53 = 2 ^ 52 * 2) by reflexivity.
      nia.
Qed.

(** ... and from above, by the rounded mantissa of the stage. *)
Lemma stage_upper p e m' m2 e' rho A g :
  -2148 <= e -> -1074 <= g -> 0 <= A < 2 ^ 53 ->
  e' = Z.max e (Z.max (Zpos (digits2_pos p) + e - 53) (-1074)) ->
  0 <= rho < 2 ^ (e' - e) ->
  Zpos p = m' * 2 ^ (e' - e) + rho ->
  m' <= m2 <= m' + 1 -> (rho = 0 -> m2 = m') ->
  Zpos p * sc e <= A * sc g ->
  m2 * sc e' <= A * sc g.
Proof.
  intros He Hg HA He' Hrho Hp Hm2 Hex U.
  assert (Hee : e <= e') by lia.
  set (K := 2 ^ (e' - e)) in *.
  assert (HK : 0 < K) by (apply pow2_gt0; lia).
  assert (Hsc' : sc e' = sc e * K).
  { replace e' with (e + (e' - e)) at 1 by lia. apply sc_shift; lia. }
  pose proof (sc_gt0 e He) as Hse.
  pose proof (sc_gt0 g ltac:(lia)) as Hsg.
  destruct (Z_le_gt_dec e' e) as [Hsame | Hshift].
  - assert (EK : K = 1) by (unfold K; replace (e' - e) with 0 by lia; reflexivity).
    rewrite EK in *. assert (rho = 0) by lia. subst rho.
    rewrite Hsc', (Hex eq_refl). replace m' with (Zpos p) by lia. lia.
  - destruct (Z_le_gt_dec e' g) as [Hle | Hgt].
    + set (B := A * 2 ^ (g - e')).
      assert (HB : A * sc g = B * sc e').
      { unfold B. replace g with (e' + (g - e')) at 1 by lia.
        rewrite sc_shift by lia. ring. }
      rewrite HB, Hsc'. rewrite HB, Hsc' in U.
      assert (Zpos p <= B * K) by nia.
      assert (m2 <= B).
      { destruct (Z.eq_dec rho 0) as [-> | Hne]; [rewrite (Hex eq_refl); nia | nia]. }
      apply Z.mul_le_mono_nonneg_r; [nia | assumption].
    + exfalso.
      assert (Ed : e' = Zpos (digits2_pos p) + e - 53) by lia.
      pose proof (digits2_bounds p) as [Hd _].
      assert (HKd : 2 ^ (Zpos (digits2_pos p) - 1) = 2 ^ 52 * K).
      { unfold K. rewrite <- Z.pow_add_r by lia. f_equal. lia. }
      assert (Hsg' : sc g * 2 <= sc e').
      { replace e' with ((g + 1) + (e' - (g + 1))) by lia.
        rewrite sc_shift by lia. rewrite (sc_shift g 1) by lia.
        change (2 ^ 1) with 2.
        pose proof (pow2_gt0 (e' - (g + 1)) ltac:(lia)). nia. }
      assert (2 ^ 53 = 2 ^ 52 * 2) by reflexivity.
      assert (2 ^ 52 * sc e' <= Zpos p * sc e) by (rewrite Hsc'; nia).
      nia.
Qed.

Lemma sc_big g x A : -2148 <= g -> g + 53 <= x -> A < 2 ^ 53 -> A * sc g < sc x.
Proof.
  intros Hg Hx HA.
  replace x with (g + (x - g)) by lia. rewrite sc_shift by lia.
  pose proof (sc_gt0 g Hg) as Hs.
  assert (2 ^ 53 <= 2 ^ (x - g)) by (apply Z.pow_le_mono_r; lia).
  nia.
Qed.

Lemma digits_sc p e : -2148 <= e -> sc (e + Zpos (digits2_pos p) - 1) <= Zpos p * sc e.
Proof.
  intros He. pose proof (digits2_bounds p) as [Hd _].
  replace (e + Zpos (digits2_pos p) - 1) with (e + (Zpos (digits2_pos p) - 1)) by lia.
  rewrite sc_shift by lia. pose proof (sc_gt0 e He). nia.
Qed.

Lemma round_aux_zero_stage e :
  -1074 <= e ->
  shr_fexp prec emax 0 e loc_Exact = (Build_shr_record 0 false false, e).
Proof.
  intros He. unfold shr_fexp. rewrite fexp_eq.
  cbn [Zdigits2 shr_record_of_loc]. unfold shr.
  destruct (Z.max (0 + e - 53) (-1074) - e) eqn:K; try reflexivity. lia.
Qed.

(** The rounding of the exact value [p * 2^e] stays below every bound
    [A * 2^g] that a binary64 number can take; if the mantissa was aligned on
    its exponent, the exponent of the result is at most [g]. *)
Lemma binary_round_aux_upper s p e A g :
  -2148 <= e -> -1074 <= g <= 0 -> 0 <= A < 2 ^ 53 ->
  Zpos p * sc e <= A * sc g ->
  binary_round_aux prec emax s (Zpos p) e loc_Exact = S754_zero s
  \/ exists m' e',
       binary_round_aux prec emax s (Zpos p) e loc_Exact = S754_finite s m' e'
       /\ -1074 <= e' /\ Zpos m' * sc e' <= A * sc g
       /\ (e <= Z.max (Zpos (digits2_pos p) + e - 53) (-1074) -> e' <= g).
Proof.
  intros He Hg HA U. unfold binary_round_aux.
  destruct (shr_fexp_stage p e He) as (mrs1 & e1 & rho1 & E1 & Hm1 & He1 & Hr1 & Hp1 & Hx1).
  rewrite E1.
  destruct (round_nearest_even_bounds (shr_m mrs1) (loc_of_shr_record mrs1)) as [Hb2 Hx2].
  set (m2 := round_nearest_even (shr_m mrs1) (loc_of_shr_record mrs1)) in *.
  assert (U2 : m2 * sc e1 <= A * sc g).
  { apply (stage_upper p e (shr_m mrs1) m2 e1 rho1 A g); auto; try lia. }
  assert (He1' : -1074 <= e1) by lia.
  assert (Al1 : e <= Z.max (Zpos (digits2_pos p) + e - 53) (-1074) -> e1 <= g).
  { intros Hal. destruct (Z_le_gt_dec e1 g) as [|Hgt]; [assumption|exfalso].
    assert (Ed : e1 = Zpos (digits2_pos p) + e - 53) by lia.
    pose proof (digits_sc p e He) as Hd.
    pose proof (sc_big g (e + Zpos (digits2_pos p) - 1) A ltac:(lia) ltac:(lia) ltac:(lia)). lia. }
  destruct m2 as [|p2|p2] eqn:Em2; [| |lia].
  - left. rewrite (round_aux_zero_stage e1 He1'). reflexivity.
  - destruct (shr_fexp_stage p2 e1 ltac:(lia))
      as (mrs3 & e3 & rho3 & E3 & Hm3 & He3 & Hr3 & Hp3 & _).
    rewrite E3.
    assert (Hsc3 : sc e3 = sc e1 * 2 ^ (e3 - e1)).
    { replace e3 with (e1 + (e3 - e1)) at 1 by lia. apply sc_shift; lia. }
    pose proof (sc_gt0 e1 ltac:(lia)) as Hs1.
    pose proof (sc_gt0 g ltac:(lia)) as Hsg.
    assert (U3 : shr_m mrs3 * sc e3 <= A * sc g).
    { rewrite Hsc3. pose proof (pow2_gt0 (e3 - e1) ltac:(lia)). nia. }
    destruct (shr_m mrs3) as [|m|m] eqn:Em3; [left; reflexivity | | lia].
    right.
    assert (He3u : e3 < 53).
    { destruct (Z_lt_le_dec e3 53) as [|Hge]; [assumption|exfalso].
      pose proof (sc_big g e3 A ltac:(lia) ltac:(lia) ltac:(lia)).
      pose proof (sc_gt0 e3 ltac:(lia)). nia. }
    assert (Hle : (e3 <=? emax - prec) = true) by (apply Z.leb_le; unfold emax, prec; lia).
    rewrite Hle. exists m, e3. split; [reflexivity|]. split; [lia|]. split; [exact U3|].
    intros Hal. specialize (Al1 Hal).
    destruct (Z_le_gt_dec e3 g) as [|Hgt]; [assumption|exfalso].
    assert (Ed : e3 = Zpos (digits2_pos p2) + e1 - 53) by lia.
    pose proof (digits_sc p2 e1 ltac:(lia)) as Hd.
    pose proof (sc_big g (e1 + Zpos (digits2_pos p2) - 1) A ltac:(lia) ltac:(lia) ltac:(lia)). lia.
Qed.

(** ... and above every such bound that is below the exact value. *)
Lemma binary_round_aux_lower s p e A g :
  -2148 <= e -> -1074 <= g -> 0 < A < 2 ^ 53 ->
  A * sc g <= Zpos p * sc e ->
  binary_round_aux prec emax s (Zpos p) e loc_Exact = S754_infinity s
  \/ exists m' e',
       binary_round_aux prec emax s (Zpos p) e loc_Exact = S754_finite s m' e'
       /\ -1074 <= e' /\ A * sc g <= Zpos m' * sc e'.
Proof.
  intros He Hg HA L. unfold binary_round_aux.
  destruct (shr_fexp_stage p e He) as (mrs1 & e1 & rho1 & E1 & Hm1 & He1 & Hr1 & Hp1 & Hx1).
  rewrite E1.
  destruct (round_nearest_even_bounds (shr_m mrs1) (loc_of_shr_record mrs1)) as [Hb2 _].
  set (m2 := round_nearest_even (shr_m mrs1) (loc_of_shr_record mrs1)) in *.
  pose proof (stage_lower p e (shr_m mrs1) e1 rho1 A g He Hg HA He1 Hr1 Hp1 L) as L1.
  pose proof (sc_gt0 e1 ltac:(lia)) as Hs1.
  pose proof (sc_gt0 g ltac:(lia)) as Hsg.
  assert (L2 : A * sc g <= m2 * sc e1) by nia.
  destruct m2 as [|p2|p2] eqn:Em2; [nia| |nia].
  destruct (shr_fexp_stage p2 e1 ltac:(lia))
    as (mrs3 & e3 & rho3 & E3 & Hm3 & He3 & Hr3 & Hp3 & _).
  rewrite E3.
  pose proof (stage_lower p2 e1 (shr_m mrs3) e3 rho3 A g ltac:(lia) Hg HA He3 Hr3 Hp3 L2) as L3.
  pose proof (sc_gt0 e3 ltac:(lia)) as Hs3.
  destruct (shr_m mrs3) as [|m|m] eqn:Em3; [nia| |nia].
  destruct (e3 <=? emax - prec); [right|left; reflexivity].
  exists m, e3. split; [reflexivity|]. split; [lia | exact L3].
Qed.

(** *** Alignment *)

Lemma iter_xO_spec x n :
  Zpos (Pos.iter xO x n) = Zpos x * 2 ^ Zpos n
  /\ Zpos (digits2_pos (Pos.iter xO x n)) = Zpos (digits2_pos x) + Zpos n.
Proof.
  induction n as [|n [IH1 IH2]] using Pos.peano_ind.
  - cbn [Pos.iter digits2_pos]. rewrite Pos2Z.inj_succ. split; lia.
  - rewrite Pos.iter_succ. cbn [digits2_pos].
    rewrite !Pos2Z.inj_succ, Z.pow_succ_r by lia.
    rewrite Pos2Z.inj_xO, IH1, IH2. split; lia.
Qed.

Lemma shl_align_spec mx ex ex' :
  exists mz ez,
    shl_align mx ex ex' = (mz, ez)
    /\ ez = Z.min ex ex'
    /\ Zpos mz = Zpos mx * 2 ^ (ex - ez)
    /\ Zpos (digits2_pos mz) + ez = Zpos (digits2_pos mx) + ex.
Proof.
  unfold shl_align. destruct (ex' - ex) as [|d|d] eqn:E.
  - exists mx, ex. replace (Z.min ex ex') with ex by lia. rewrite Z.sub_diag.
    repeat split; lia.
  - exists mx, ex. replace (Z.min ex ex') with ex by lia. rewrite Z.sub_diag.
    repeat split; lia.
  - exists (Pos.iter xO mx d), ex'. replace (Z.min ex ex') with ex' by lia.
    destruct (iter_xO_spec mx d) as [H1 H2].
    replace (ex - ex') with (Zpos d) by lia. repeat split; lia.
Qed.

Lemma binary_round_between s mx ex lo hi :
  -2148 <= ex -> 0 < lo -> hi < 2 ^ 52 ->
  lo * sc 0 <= Zpos mx * sc ex <= hi * sc 0 ->
  exists m e,
    binary_round prec emax s mx ex = S754_finite s m e
    /\ -1074 <= e <= -1 /\ lo * sc 0 <= Zpos m * sc e <= hi * sc 0.
Proof.
  intros Hex Hlo Hhi [L U]. unfold binary_round. rewrite fexp_eq.
  destruct (shl_align_spec mx ex (Z.max (Zpos (digits2_pos mx) + ex - 53) (-1074)))
    as (mz & ez & E & Hez & Hmz & Hdz).
  rewrite E.
  assert (Hez' : -2148 <= ez) by lia.
  assert (V : Zpos mz * sc ez = Zpos mx * sc ex).
  { rewrite Hmz. replace ex with (ez + (ex - ez)) at 2 by lia.
    rewrite sc_shift by lia. ring. }
  assert (S0 : sc 0 = sc (-1) * 2) by reflexivity.
  pose proof (sc_gt0 0 ltac:(lia)) as Hs0.
  assert (H53 : 2 ^ 53 = 2 ^ 52 * 2) by reflexivity.
  assert (Hlohi : lo <= hi) by nia.
  destruct (binary_round_aux_upper s mz ez (2 * hi) (-1) Hez' ltac:(lia) ltac:(lia)
              ltac:(rewrite V; lia))
    as [Z0 | (m & e & Em & He & Um & Hal)];
    destruct (binary_round_aux_lower s mz ez lo 0 Hez' ltac:(lia) ltac:(lia)
                ltac:(rewrite V; lia))
      as [I0 | (m' & e' & Em' & He' & Lm)]; try congruence.
  rewrite Em in Em'. inversion Em'. subst m' e'.
  exists m, e. split; [exact Em|]. split; [|lia].
  split; [exact He|]. apply Hal. lia.
Qed.

(** *** Sums, differences and products of positive numbers *)

Lemma add_pos_between mx ex my ey lo hi :
  -1074 <= ex -> -1074 <= ey -> 0 < lo -> hi < 2 ^ 52 ->
  lo * sc 0 <= Zpos mx * sc ex + Zpos my * sc ey <= hi * sc 0 ->
  valueBetween lo hi (add (S754_finite false mx ex) (S754_finite false my ey)).
Proof.
  intros Hex Hey Hlo Hhi H. unfold add, SFadd. cbn [cond_Zopp].
  destruct (shl_align_spec mx ex (Z.min ex ey)) as (mx' & ex' & Ex & Hex' & Hmx & _).
  destruct (shl_align_spec my ey (Z.min ex ey)) as (my' & ey' & Ey & Hey' & Hmy & _).
  rewrite Ex, Ey. cbn [fst]. change (Zpos mx' + Zpos my') with (Zpos (mx' + my')).
  cbn [binary_normalize].
  set (ez := Z.min ex ey) in *.
  assert (V : Zpos (mx' + my') * sc ez = Zpos mx * sc ex + Zpos my * sc ey).
  { rewrite Pos2Z.inj_add, Hmx, Hmy.
    replace ex with (ez + (ex - ez)) at 2 by lia.
    replace ey with (ez + (ey - ez)) at 2 by lia.
    rewrite !sc_shift by lia. replace ex' with ez by lia. replace ey' with ez by lia. ring. }
  destruct (binary_round_between false (mx' + my') ez lo hi ltac:(lia) Hlo Hhi
              ltac:(rewrite V; exact H)) as (m & e & -> & He & Hv).
  apply valueBetween_sc. split; assumption.
Qed.

Lemma sub_pos_between mx ex my ey lo hi :
  -1074 <= ex -> -1074 <= ey -> 0 < lo -> hi < 2 ^ 52 ->
  lo * sc 0 <= Zpos mx * sc ex - Zpos my * sc ey <= hi * sc 0 ->
  valueBetween lo hi (sub (S754_finite false mx ex) (S754_finite false my ey)).
Proof.
  intros Hex Hey Hlo Hhi H. unfold sub, SFsub. cbn [cond_Zopp].
  destruct (shl_align_spec mx ex (Z.min ex ey)) as (mx' & ex' & Ex & Hex' & Hmx & _).
  destruct (shl_align_spec my ey (Z.min ex ey)) as (my' & ey' & Ey & Hey' & Hmy & _).
  rewrite Ex, Ey. cbn [fst].
  set (ez := Z.min ex ey) in *.
  assert (V : (Zpos mx' - Zpos my') * sc ez = Zpos mx * sc ex - Zpos my * sc ey).
  { rewrite Hmx, Hmy.
    replace ex with (ez + (ex - ez)) at 2 by lia.
    replace ey with (ez + (ey - ez)) at 2 by lia.
    rewrite !sc_shift by lia. replace ex' with ez by lia. replace ey' with ez by lia. ring. }
  pose proof (sc_gt0 0 ltac:(lia)) as Hs0.
  pose proof (sc_gt0 ez ltac:(lia)) as Hsz.
  destruct (Zpos mx' - Zpos my') as [|d|d] eqn:D; [nia | | nia].
  cbn [binary_normalize].
  destruct (binary_round_between false d ez lo hi ltac:(lia) Hlo Hhi
              ltac:(rewrite V; exact H)) as (m & e & -> & He & Hv).
  apply valueBetween_sc. split; assumption.
Qed.

Lemma unitInterval_finite m e :
  unitInterval (S754_finite false m e) = true -> -1074 <= e /\ Zpos m * sc e < sc 0.
Proof.
  unfold unitInterval. intros H.
  apply andb_prop in H. destruct H as [H Hm]. apply andb_prop in H. destruct H as [Hv He].
  apply Z.ltb_lt in Hm, He.
  unfold valid_binary, bounded, canonical_mantissa in Hv.
  apply andb_prop in Hv. destruct Hv as [Hc _]. apply Z.eqb_eq in Hc. rewrite fexp_eq in Hc.
  split; [lia|].
  assert (S0 : sc 0 = sc e * 2 ^ (- e)).
  { replace 0 with (e + (- e)) at 1 by lia. apply sc_shift; lia. }
  rewrite S0. pose proof (sc_gt0 e ltac:(lia)). nia.
Qed.

(** The product of a draw in [0, 1) and a positive constant of value [C]. *)
Lemma mul_unit_const r mc ec C :
  unitInterval r = true ->
  -1074 <= ec <= 0 -> 0 <= C < 2 ^ 53 -> Zpos mc * sc ec = C * sc 0 ->
  mul r (S754_finite false mc ec) = S754_zero false
  \/ exists m e,
       mul r (S754_finite false mc ec) = S754_finite false m e
       /\ -1074 <= e /\ Zpos m * sc e <= C * sc 0.
Proof.
  intros Hr Hec HC Hc.
  destruct r as [[]|[]| |[] m e]; try discriminate; [left; reflexivity|].
  destruct (unitInterval_finite m e Hr) as [He Hm].
  unfold mul, SFmul. cbn [xorb].
  assert (V : Zpos (m * mc) * sc (e + ec) = C * (Zpos m * sc e)).
  { rewrite Pos2Z.inj_mul.
    assert (S1 : sc e = sc (e + ec) * 2 ^ (- ec)).
    { replace e with ((e + ec) + (- ec)) at 1 by lia. apply sc_shift; lia. }
    assert (S2 : sc 0 = sc ec * 2 ^ (- ec)).
    { replace 0 with (ec + (- ec)) at 1 by lia. apply sc_shift; lia. }
    pose proof (sc_gt0 ec ltac:(lia)) as Hsec.
    assert (Zpos mc = C * 2 ^ (- ec)) by nia.
    rewrite S1. nia. }
  pose proof (sc_gt0 e ltac:(lia)) as Hse.
  destruct (binary_round_aux_upper false (m * mc) (e + ec) C 0 ltac:(lia) ltac:(lia) HC
              ltac:(rewrite V; nia))
    as [Z0 | (m' & e' & Em & He' & Um & _)].
  - left. exact Z0.
  - right. exists m', e'. auto.
Qed.

(** [Math.round] of a positive number between two positive integers. *)
Lemma round_between x lo hi :
  0 < lo -> valueBetween lo hi x ->
  exists n, JS.round x = ofZ n /\ lo <= n <= hi.
Proof.
  intros Hlo. destruct x as [| | |[] m e]; try contradiction.
  intros Hx. apply valueBetween_sc in Hx. destruct Hx as [He [L U]]. unfold JS.round.
  assert (E0 : (0 <=? e) = false) by (apply Z.leb_gt; lia). rewrite E0.
  cbn [cond_Zopp].
  set (K := 2 ^ (- e)).
  assert (HK : 0 < K) by (apply pow2_gt0; lia).
  assert (S0 : sc 0 = sc e * K).
  { replace 0 with (e + (- e)) at 1 by lia. apply sc_shift; lia. }
  pose proof (sc_gt0 e ltac:(lia)) as Hse.
  rewrite S0 in L, U.
  assert (HL : lo * K <= Zpos m) by nia.
  assert (HU : Zpos m <= hi * K) by nia.
  replace (- e + 1) with (Z.succ (- e)) by lia. rewrite Z.pow_succ_r by lia. fold K.
  set (n := (2 * Zpos m + K) / (2 * K)).
  assert (Hn1 : lo <= n) by (apply Z.div_le_lower_bound; nia).
  assert (Hn2 : n < hi + 1) by (apply Z.div_lt_upper_bound; nia).
  exists n. split; [|lia].
  unfold withSign. destruct (n =? 0) eqn:E; [apply Z.eqb_eq in E; lia | reflexivity].
Qed.

(** ** Fatigue thresholds *)

Lemma determineFatigueLevel_average l r avg :
  classifierAverage l r = Some avg ->
  determineFatigueLevel l r =
    if lt avg (lit 2.2) then high else if gt avg (lit 2.6) then low else moderate.
Proof.
  destruct l as [ls|], r as [rs|]; cbn -[lit lt gt div add ofNat];
    intros H; inversion H; reflexivity.
Qed.

Lemma thresholds_apart x : lt x (lit 2.2) = true -> gt x (lit 2.6) = true -> False.
Proof.
  intros H1 H2.
  assert (H : le (lit 2.6) (lit 2.2) = true).
  { apply le_trans with x; apply lt_le; assumption. }
  vm_compute in H. discriminate.
Qed.

Lemma gt_zero_cases x :
  gt x zero = true ->
  (exists m e, x = S754_finite false m e) \/ x = S754_infinity false.
Proof.
  destruct x as [[]|[]| |[] m e]; cbn; try discriminate; eauto.
Qed.

Lemma add_positive_not_NaN x y :
  gt x zero = true -> gt y zero = true -> isNaN (add x y) = false.
Proof.
  intros Hx Hy.
  destruct (gt_zero_cases x Hx) as [(mx & ex & ->) | ->];
    destruct (gt_zero_cases y Hy) as [(my & ey & ->) | ->]; try reflexivity.
  unfold add, SFadd. cbn [cond_Zopp].
  change (Zpos ?a + Zpos ?b) with (Zpos (a + b)).
  match goal with
  | |- context [binary_normalize _ _ (Zpos (?a + ?b)) ?e _] =>
      change (binary_normalize prec emax (Zpos (a + b)) e false)
        with (binary_round prec emax false (a + b) e)
  end.
  apply binary_round_not_NaN.
Qed.

Lemma div_finite_not_NaN x m e :
  isNaN x = false -> isNaN (div x (S754_finite false m e)) = false.
Proof.
  destruct x as [sx|sx| |sx mx ex]; try discriminate; try reflexivity.
  intros _. unfold div, SFdiv, SFdiv_core_binary.
  set (e' := Z.min _ _).
  set (m' := match (ex - e - e') with Z0 => Zpos mx | Zpos _ => _ | Zneg _ => 0 end).
  assert (Hm : 0 <= m').
  { unfold m'. destruct (ex - e - e'); [lia | | lia].
    rewrite Z.shiftl_mul_pow2 by lia. apply Z.mul_nonneg_nonneg; [lia|].
    apply Z.pow_nonneg. lia. }
  pose proof (Z.div_pos m' (Zpos m) Hm ltac:(lia)) as Hq.
  unfold Z.div in Hq. destruct (Z.div_eucl m' (Zpos m)) as [q r].
  apply binary_round_aux_not_NaN. exact Hq.
Qed.

(** The average of eligible statistics is a number. *)
Lemma eligible_average_number l r avg :
  classifierAverage l r = Some avg -> eligible l -> eligible r -> isNaN avg = false.
Proof.
  assert (Z1 : forall x, gt x zero = true -> add zero x = x).
  { intros x Hx. destruct (gt_zero_cases x Hx) as [(m & e & ->) | ->]; reflexivity. }
  assert (N : forall x, gt x zero = true -> isNaN x = false).
  { intros x Hx. destruct (gt_zero_cases x Hx) as [(m & e & ->) | ->]; reflexivity. }
  unfold eligible.
  destruct l as [ls|], r as [rs|]; intros H Hl Hr; try discriminate.
  - assert (E : avg = div (add (add zero (mean ls)) (mean rs)) (ofNat 2))
      by (change (classifierAverage (Some ls) (Some rs))
            with (Some (div (add (add zero (mean ls)) (mean rs)) (ofNat 2))) in H;
          congruence).
    rewrite E, (Z1 _ Hl).
    change (ofNat 2) with (S754_finite false 4503599627370496 (-51)).
    apply div_finite_not_NaN, add_positive_not_NaN; assumption.
  - assert (E : avg = div (add zero (mean ls)) (ofNat 1))
      by (change (classifierAverage (Some ls) None)
            with (Some (div (add zero (mean ls)) (ofNat 1))) in H;
          congruence).
    rewrite E, (Z1 _ Hl).
    change (ofNat 1) with (S754_finite false 4503599627370496 (-52)).
    apply div_finite_not_NaN, N, Hl.
  - assert (E : avg = div (add zero (mean rs)) (ofNat 1))
      by (change (classifierAverage None (Some rs))
            with (Some (div (add zero (mean rs)) (ofNat 1))) in H;
          congruence).
    rewrite E, (Z1 _ Hr).
    change (ofNat 1) with (S754_finite false 4503599627370496 (-52)).
    apply div_finite_not_NaN, N, Hr.
Qed.

(** C4.  Whatever statistics are present, with [avg] the average the
    classifier forms from them (a number, not NaN): the level is [high]
    exactly when [avg < 2.2], [low] exactly when [avg > 2.6], and [moderate]
    exactly when [2.2 <= avg <= 2.6].  The average of eligible statistics
    (means above 0) is always such a number.  The boundary averages 2.2 and
    2.6 give [moderate], 2.19 gives [high] and 2.61 gives [low]. *)
Theorem C4_thresholds :
  (forall l r avg,
      classifierAverage l r = Some avg -> eligible l -> eligible r -> isNaN avg = false)
  /\ (forall l r avg,
      classifierAverage l r = Some avg ->
      isNaN avg = false ->
      (determineFatigueLevel l r = high <-> lt avg (lit 2.2) = true)
      /\ (determineFatigueLevel l r = low <-> gt avg (lit 2.6) = true)
      /\ (determineFatigueLevel l r = moderate <->
          le (lit 2.2) avg = true /\ le avg (lit 2.6) = true))
  /\ (classifierAverage (Some (statsWithMean (lit 2.2))) (Some (statsWithMean (lit 2.2)))
        = Some (lit 2.2)
      /\ determineFatigueLevel (Some (statsWithMean (lit 2.2))) (Some (statsWithMean (lit 2.2)))
        = moderate)
  /\ (classifierAverage (Some (statsWithMean (lit 2.6))) (Some (statsWithMean (lit 2.6)))
        = Some (lit 2.6)
      /\ determineFatigueLevel (Some (statsWithMean (lit 2.6))) (Some (statsWithMean (lit 2.6)))
        = moderate)
  /\ (classifierAverage (Some (statsWithMean (lit 2.19))) (Some (statsWithMean (lit 2.19)))
        = Some (lit 2.19)
      /\ determineFatigueLevel (Some (statsWithMean (lit 2.19))) (Some (statsWithMean (lit 2.19)))
        = high)
  /\ (classifierAverage (Some (statsWithMean (lit 2.61))) (Some (statsWithMean (lit 2.61)))
        = Some (lit 2.61)
      /\ determineFatigueLevel (Some (statsWithMean (lit 2.61))) (Some (statsWithMean (lit 2.61)))
        = low).
Proof.
  split; [exact eligible_average_number|].
  split; [|vm_compute; repeat split; reflexivity].
  intros l r avg Havg Hnan.
  rewrite (determineFatigueLevel_average l r avg Havg).
  assert (N22 : isNaN (lit 2.2) = false) by reflexivity.
  assert (N26 : isNaN (lit 2.6) = false) by reflexivity.
  destruct (lt avg (lit 2.2)) eqn:H1; [|destruct (gt avg (lit 2.6)) eqn:H2].
  - repeat split; try discriminate; try reflexivity.
    + intros H2. exfalso. apply (thresholds_apart avg H1 H2).
    + intros [H _]. rewrite (lt_not_le _ _ H1) in H. discriminate.
  - repeat split; try discriminate; try reflexivity.
    intros [_ H]. unfold gt in H2. rewrite (lt_not_le _ _ H2) in H. discriminate.
  - repeat split; try discriminate; try reflexivity.
    + apply not_lt_le; assumption.
    + apply not_lt_le; assumption.
Qed.

Lemma C4_thresholds_witness :
  let l := Some (statsWithMean (lit 2.4)) in
  let r := Some (statsWithMean (lit 2.5)) in
  classifierAverage l r = Some (lit 2.45)
  /\ (determineFatigueLevel l r = moderate <->
      le (lit 2.2) (lit 2.45) = true /\ le (lit 2.45) (lit 2.6) = true).
Proof.
  split; [vm_compute; reflexivity|].
  apply (proj1 (proj2 C4_thresholds)
           (Some (statsWithMean (lit 2.4))) (Some (statsWithMean (lit 2.5)))).
  - vm_compute. reflexivity.
  - apply (proj1 C4_thresholds
             (Some (statsWithMean (lit 2.4))) (Some (statsWithMean (lit 2.5)))).
    + vm_compute. reflexivity.
    + reflexivity.
    + reflexivity.
Defined.

(** ** The assembly pipeline *)

Lemma generateMockReactionTime_world level avg w :
  snd (generateMockReactionTime level avg w)
  = mkWorld (randoms w) (S (draws w)) (clock w) (ticks w) (toISOString w)
            (setError w) (writes w).
Proof. destruct avg as [a|]; [destruct (JS.truthy a) eqn:E|]; cbv [generateMockReactionTime bind ret Math_random]; rewrite ?E; reflexivity. Qed.

Lemma eyeTest_writes text url md tt td st w :
  pupilData (parseResultData text) <> [] ->
  exists d,
    writes (snd (EyeTestService.processEyeTestResult text url md tt td st w))
    = writes w ++ [mkWrite eyeTestPath (clock w (ticks w)) (EyeTestDoc d)].
Proof.
  intros Hne. unfold EyeTestService.processEyeTestResult.
  destruct (pupilData (parseResultData text)) as [|p ps] eqn:Hp; [congruence|].
  set (pd := p :: ps).
  set (lv := determineFatigueLevel _ _).
  cbv [bind].
  destruct (EyeTestService.generateMockReactionTime lv _ w) as [rt w1] eqn:E1.
  assert (W1 : (clock w1, ticks w1, setError w1, writes w1)
               = (clock w, ticks w, setError w, writes w)).
  { revert E1. unfold EyeTestService.generateMockReactionTime.
    destruct lv; cbv [bind ret Math_random]; intros E1; inversion E1; reflexivity. }
  destruct (EyeTestService.calculateBlinkStats pd td) as [bc br].
  destruct (EyeTestService.generateEyeMovementPattern lv w1) as [pat w2] eqn:E2.
  assert (W2 : (clock w2, ticks w2, setError w2, writes w2)
               = (clock w, ticks w, setError w, writes w)).
  { revert E2. cbv [EyeTestService.generateEyeMovementPattern bind ret Math_random].
    intros E2; inversion E2; subst; simpl; exact W1. }
  destruct (EyeTestService.generateFocusAccuracy lv w2) as [fa w3] eqn:E3.
  assert (W3 : (clock w3, ticks w3, setError w3, writes w3)
               = (clock w, ticks w, setError w, writes w)).
  { revert E3. unfold EyeTestService.generateFocusAccuracy.
    destruct lv; cbv [bind ret Math_random]; intros E3; inversion E3; subst; simpl; exact W2. }
  match goal with
  | |- context [let '(a, w') := ?c w3 in _] => destruct (c w3) as [cs w4] eqn:E4
  end.
  assert (W4 : (clock w4, ticks w4, setError w4, writes w4)
               = (clock w, ticks w, setError w, writes w)).
  { revert E4. destruct lv; cbv [bind ret Math_random]; intros E4; inversion E4; subst;
      simpl; exact W3. }
  inversion W4 as [[Hc Ht He Hw]].
  eexists.
  cbv [saveEyeTestResult bind ret Date_now set]. cbn [clock ticks setError writes].
  rewrite Hc, Ht, He, Hw.
  destruct (setError w _); cbn [ret fst snd writes]; reflexivity.
Qed.

(** What a run on a report with at least one sample does to the store: one
    write of the assembled record, then one write of the eye-test record;
    on success the assembled record is the one returned. *)
Lemma processAndSaveAnalysis_run text url md st w :
  pupilData (parseResultData text) <> [] ->
  exists rt d',
    let run := processAndSaveAnalysis text url md st w in
    let d := assembledRecord text url md st rt in
    writes (snd run)
    = writes w ++ [mkWrite analysesPath (clock w (ticks w)) (AnalysisDoc d);
                   mkWrite eyeTestPath (clock w (S (ticks w))) (EyeTestDoc d')]
    /\ (success (fst run) = true -> data (fst run) = Some d)
    /\ (success (fst run) = true <-> setError w (List.length (writes w)) = None).
Proof.
  intros Hne. unfold processAndSaveAnalysis, assembledRecord.
  destruct (pupilData (parseResultData text)) as [|p ps] eqn:Hp; [congruence|].
  set (pd := p :: ps).
  set (lv := determineFatigueLevel _ _).
  set (avg := averagePupilSize _ _).
  cbv [bind].
  pose proof (generateMockReactionTime_world lv avg w) as W1.
  destruct (generateMockReactionTime lv avg w) as [rt w1]. simpl in W1. subst w1.
  exists rt.
  cbv [saveAnalysisResult bind ret Date_now set]. cbn [clock ticks setError writes randoms draws toISOString].
  destruct (setError w (List.length (writes w))) eqn:Es;
    match goal with
    | |- context [EyeTestService.processEyeTestResult text url ?m ?tt ?td st ?w2] =>
        destruct (eyeTest_writes text url m tt td st w2) as [d' Hd'];
        [rewrite Hp; discriminate|];
        destruct (EyeTestService.processEyeTestResult text url m tt td st w2) as [er w3] eqn:E
    end;
    exists d'; cbn [snd writes clock ticks] in Hd';
    cbn [ret fst snd save_success save_error success data];
    rewrite Hd', <- app_assoc; repeat split;
    try reflexivity; try discriminate; intros; try discriminate; reflexivity.
Qed.

Lemma assembledRecord_level text url md st rt :
  AnalysisData.fatigueLevel (assembledRecord text url md st rt)
  = determineFatigueLevel
      (Some (calculateEyeStats (pupilData (parseResultData text)) left_eye))
      (Some (calculateEyeStats (pupilData (parseResultData text)) right_eye)).
Proof. reflexivity. Qed.

Lemma assembledRecord_left text url md st rt :
  AnalysisData.leftEyeStats (assembledRecord text url md st rt)
  = presentStats (calculateEyeStats (pupilData (parseResultData text)) left_eye).
Proof. reflexivity. Qed.

Lemma assembledRecord_right text url md st rt :
  AnalysisData.rightEyeStats (assembledRecord text url md st rt)
  = presentStats (calculateEyeStats (pupilData (parseResultData text)) right_eye).
Proof. reflexivity. Qed.

(** C1 (the code departs from the claim).  [determineFatigueLevel] has no
    [mean > 0] test: statistics that are present with mean 0 are summed and
    counted.  With a zero-filled left eye and a right eye of mean 3 the
    average is 1.5 and the level [high], where the right eye alone gives
    [low]; two zero-filled eyes give [high], not [moderate].  The pipeline
    always passes both statistics, so the report ["0,right_eye,3.0"] is
    stored with level [high] and no left-eye statistics. *)
Theorem C1_zero_mean_eye_is_averaged :
  determineFatigueLevel (Some zeroStats) (Some (statsWithMean (lit 3))) = high
  /\ classifierAverage (Some zeroStats) (Some (statsWithMean (lit 3))) = Some (lit 1.5)
  /\ determineFatigueLevel None (Some (statsWithMean (lit 3))) = low
  /\ determineFatigueLevel (Some zeroStats) (Some zeroStats) = high
  /\ calculateEyeStats (pupilData (parseResultData "0,right_eye,3.0")) left_eye = zeroStats
  /\ mean (calculateEyeStats (pupilData (parseResultData "0,right_eye,3.0")) right_eye) = lit 3
  /\ forall w, exists d,
       In (mkWrite analysesPath (clock w (ticks w)) (AnalysisDoc d))
          (writes (snd (processAndSaveAnalysis "0,right_eye,3.0" None None None w)))
       /\ AnalysisData.leftEyeStats d = None
       /\ option_map mean (AnalysisData.rightEyeStats d) = Some (lit 3)
       /\ AnalysisData.fatigueLevel d = high.
Proof.
  do 6 (split; [vm_compute; reflexivity|]).
  intros w.
  destruct (processAndSaveAnalysis_run "0,right_eye,3.0" None None None w)
    as (rt & d' & Hw & _); [vm_compute; discriminate|].
  exists (assembledRecord "0,right_eye,3.0" None None None rt).
  cbv zeta in Hw. rewrite Hw.
  split; [apply in_or_app; right; left; reflexivity|].
  rewrite assembledRecord_left, assembledRecord_right, assembledRecord_level.
  repeat split; vm_compute; reflexivity.
Qed.

Lemma sample_parsed : pupilData (parseResultData sampleResultText) <> [].
Proof. vm_compute. discriminate. Qed.

(** C2, against the claim as stated: a run on the bundled report whose
    returned record does not have level [high]. *)
Lemma C2_sample_not_high :
  ~ (forall w d, data (fst (loadSampleAnalysisData w)) = Some d ->
                 AnalysisData.fatigueLevel d = high).
Proof.
  intros H. pose proof (H sampleWorld) as H'.
  vm_compute in H'. specialize (H' _ eq_refl). discriminate.
Qed.

(** C2 (amended).  The bundled report has 14 + 6 left-eye rows and 15
    right-eye rows; the means are about 2.311 and 2.305, their average lies
    between the thresholds, and in every world the record assembled from it
    has level [moderate] and both statistics present.  That record is the
    one written to the analysis path and the one returned on success. *)
Theorem C2_sample_record :
  let samples := pupilData (parseResultData sampleResultText) in
  List.length (filter (fun d => Eye_eqb (eye d) left_eye) samples) = 20%nat
  /\ List.length (filter (fun d => Eye_eqb (eye d) right_eye) samples) = 15%nat
  /\ mean (calculateEyeStats samples left_eye) = lit 2.3111239552497862
  /\ mean (calculateEyeStats samples right_eye) = lit 2.3048184394836424
  /\ forall w, exists d,
       let run := loadSampleAnalysisData w in
       In (mkWrite analysesPath (clock w (S (ticks w))) (AnalysisDoc d)) (writes (snd run))
       /\ (success (fst run) = true <-> setError w (List.length (writes w)) = None)
       /\ (success (fst run) = true -> data (fst run) = Some d)
       /\ AnalysisData.fatigueLevel d = moderate
       /\ AnalysisData.leftEyeStats d = Some (calculateEyeStats samples left_eye)
       /\ AnalysisData.rightEyeStats d = Some (calculateEyeStats samples right_eye).
Proof.
  cbv zeta. do 4 (split; [vm_compute; reflexivity|]).
  intros w. unfold loadSampleAnalysisData, bind, Date_toISOString, Date_now.
  match goal with
  | |- context [processAndSaveAnalysis ?t ?u ?m ?s ?w'] =>
      destruct (processAndSaveAnalysis_run t u m s w' sample_parsed)
        as (rt & d' & Hw & Hd & Hs);
      exists (assembledRecord t u m s rt)
  end.
  cbv zeta in Hw, Hd, Hs. cbn [clock ticks writes setError] in Hw, Hs.
  rewrite Hw.
  split; [apply in_or_app; right; left; reflexivity|].
  split; [exact Hs|]. split; [exact Hd|].
  rewrite assembledRecord_left, assembledRecord_right, assembledRecord_level.
  repeat split; vm_compute; reflexivity.
Qed.

Lemma C2_sample_record_witness :
  exists d,
    data (fst (loadSampleAnalysisData sampleWorld)) = Some d
    /\ AnalysisData.fatigueLevel d = moderate
    /\ AnalysisData.leftEyeStats d <> None
    /\ AnalysisData.rightEyeStats d <> None.
Proof.
  destruct (proj2 (proj2 (proj2 (proj2 C2_sample_record))) sampleWorld)
    as (d & _ & Hs & Hd & Hl & Hle & Hri).
  exists d. split; [apply Hd, Hs; reflexivity|].
  split; [exact Hl|]. rewrite Hle, Hri. split; discriminate.
Defined.

(** C8.  When the parse of a report yields no sample, both
    [processAndSaveAnalysis] and [processEyeTestResult] return the failure
    ["No valid pupil data found in results"] and leave the world as it was:
    no [set] call on either path, no draw, no clock reading. *)
Theorem C8_no_valid_data text url md st tt td w :
  pupilData (parseResultData text) = [] ->
  processAndSaveAnalysis text url md st w
  = (mkResult false None (Some noValidData) None, w)
  /\ EyeTestService.processEyeTestResult text url md tt td st w
     = (EyeTestService.mkResult false None (Some noValidData), w)
  /\ writes (snd (processAndSaveAnalysis text url md st w)) = writes w
  /\ writes (snd (EyeTestService.processEyeTestResult text url md tt td st w)) = writes w.
Proof.
  intros H.
  unfold processAndSaveAnalysis, EyeTestService.processEyeTestResult.
  rewrite H. repeat split; reflexivity.
Qed.

Lemma C8_no_valid_data_witness :
  processAndSaveAnalysis "abc,left_eye,2.3" None None None sampleWorld
  = (mkResult false None (Some noValidData) None, sampleWorld)
  /\ writes (snd (processAndSaveAnalysis "abc,left_eye,2.3" None None None sampleWorld)) = [].
Proof.
  destruct (C8_no_valid_data "abc,left_eye,2.3" None None None pupil_analysis (lit 30) sampleWorld)
    as (H1 & _ & H3 & _).
  - vm_compute. reflexivity.
  - split; [exact H1 | exact H3].
Defined.

(** C10.  The frame field goes through [parseInt], which reads a signed
    integer prefix: the row ["-5,left_eye,2.3"] is accepted with frame -5
    and the row ["3.7,left_eye,2.3"] with frame 3. *)
Theorem C10_frame_prefix_parsing :
  pupilData (parseResultData "-5,left_eye,2.3")
  = [mkPupilData (lit (-5)) left_eye (lit 2.3)]
  /\ pupilData (parseResultData "3.7,left_eye,2.3")
     = [mkPupilData (lit 3) left_eye (lit 2.3)]
  /\ lt (lit (-5)) zero = true
  /\ parseInt "3.7" = lit 3.
Proof. vm_compute. repeat split; reflexivity. Qed.

(** ** Statistics *)

Lemma fold_left_add_map (f : number -> number) xs z :
  fold_left (fun sum val => add sum (f val)) xs z = fold_left add (map f xs) z.
Proof. revert z. induction xs as [|x xs IH]; intros z; simpl; [reflexivity|apply IH]. Qed.

Lemma calculateEyeStats_nonempty data e :
  diametersOf data e <> [] ->
  calculateEyeStats data e
  = mkEyeStats (arithmeticMean (diametersOf data e))
               (populationStdDev (diametersOf data e))
               (Math_min (diametersOf data e))
               (Math_max (diametersOf data e)).
Proof.
  unfold calculateEyeStats, diametersOf.
  destruct (map diameter (filter _ data)) as [|x xs] eqn:E; [congruence|].
  intros _. unfold populationStdDev, populationVariance, arithmeticMean, sumOf.
  rewrite <- (fold_left_add_map (fun x0 => pow2 (sub x0 _))). reflexivity.
Qed.

Lemma min2_choice acc x :
  isNaN acc = false -> isNaN x = false ->
  (min2 acc x = acc \/ min2 acc x = x)
  /\ le (min2 acc x) acc = true /\ le (min2 acc x) x = true.
Proof.
  intros Ha Hx. unfold min2. rewrite Ha, Hx. simpl.
  assert (G : (if lt x acc then x else acc) = acc \/ (if lt x acc then x else acc) = x)
    by (destruct (lt x acc); auto).
  assert (L : le (if lt x acc then x else acc) acc = true
              /\ le (if lt x acc then x else acc) x = true).
  { destruct (lt x acc) eqn:E.
    - split; [apply lt_le; exact E | apply le_refl; exact Hx].
    - split; [apply le_refl; exact Ha | apply not_lt_le; assumption]. }
  destruct acc as [[]| | |], x as [[]| | |]; try discriminate; auto.
Qed.

Lemma max2_choice acc x :
  isNaN acc = false -> isNaN x = false ->
  (max2 acc x = acc \/ max2 acc x = x)
  /\ le acc (max2 acc x) = true /\ le x (max2 acc x) = true.
Proof.
  intros Ha Hx. unfold max2. rewrite Ha, Hx. simpl.
  assert (G : (if gt x acc then x else acc) = acc \/ (if gt x acc then x else acc) = x)
    by (destruct (gt x acc); auto).
  assert (L : le acc (if gt x acc then x else acc) = true
              /\ le x (if gt x acc then x else acc) = true).
  { unfold gt. destruct (lt acc x) eqn:E; fold (lt acc x); rewrite ?E.
    - split; [apply lt_le; exact E | apply le_refl; exact Hx].
    - split; [apply le_refl; exact Ha | apply not_lt_le; assumption]. }
  destruct acc as [[]| | |], x as [[]| | |]; try discriminate; auto.
Qed.

Lemma fold_min2 xs : forall acc,
  noNaN xs -> isNaN acc = false ->
  (fold_left min2 xs acc = acc \/ In (fold_left min2 xs acc) xs)
  /\ le (fold_left min2 xs acc) acc = true
  /\ forall x, In x xs -> le (fold_left min2 xs acc) x = true.
Proof.
  induction xs as [|y ys IH]; intros acc Hxs Ha; simpl.
  - repeat split; [left; reflexivity | apply le_refl; exact Ha | intros x []].
  - assert (Hy : isNaN y = false) by (apply Hxs; left; reflexivity).
    destruct (min2_choice acc y Ha Hy) as (Hc & Hla & Hly).
    assert (Hm : isNaN (min2 acc y) = false) by (destruct Hc as [-> | ->]; assumption).
    destruct (IH (min2 acc y) (fun x Hx => Hxs x (or_intror Hx)) Hm) as (Hin & Hle & Hall).
    repeat split.
    + destruct Hin as [Hin | Hin]; [|right; right; exact Hin].
      rewrite Hin. destruct Hc as [-> | ->]; [left; reflexivity | right; left; reflexivity].
    + apply le_trans with (min2 acc y); assumption.
    + intros x [<- | Hx]; [apply le_trans with (min2 acc y); assumption | apply Hall; exact Hx].
Qed.

Lemma fold_max2 xs : forall acc,
  noNaN xs -> isNaN acc = false ->
  (fold_left max2 xs acc = acc \/ In (fold_left max2 xs acc) xs)
  /\ le acc (fold_left max2 xs acc) = true
  /\ forall x, In x xs -> le x (fold_left max2 xs acc) = true.
Proof.
  induction xs as [|y ys IH]; intros acc Hxs Ha; simpl.
  - repeat split; [left; reflexivity | apply le_refl; exact Ha | intros x []].
  - assert (Hy : isNaN y = false) by (apply Hxs; left; reflexivity).
    destruct (max2_choice acc y Ha Hy) as (Hc & Hla & Hly).
    assert (Hm : isNaN (max2 acc y) = false) by (destruct Hc as [-> | ->]; assumption).
    destruct (IH (max2 acc y) (fun x Hx => Hxs x (or_intror Hx)) Hm) as (Hin & Hle & Hall).
    repeat split.
    + destruct Hin as [Hin | Hin]; [|right; right; exact Hin].
      rewrite Hin. destruct Hc as [-> | ->]; [left; reflexivity | right; left; reflexivity].
    + apply le_trans with (max2 acc y); assumption.
    + intros x [<- | Hx]; [apply le_trans with (max2 acc y); assumption | apply Hall; exact Hx].
Qed.

Lemma le_Infinity x : le Infinity x = true -> x = Infinity.
Proof. destruct x as [[]|[]| |[]]; simpl; try discriminate; reflexivity. Qed.

Lemma le_minus_Infinity x : le x (S754_infinity true) = true -> x = S754_infinity true.
Proof. destruct x as [[]|[]| |[]]; simpl; try discriminate; reflexivity. Qed.

(** [Math.min] of a non-empty list without NaN is an element of the list
    below all the others; [Math.max] is an element above all the others. *)
Lemma Math_min_literal xs :
  xs <> [] -> noNaN xs ->
  In (Math_min xs) xs /\ forall x, In x xs -> le (Math_min xs) x = true.
Proof.
  intros Hne Hxs. unfold Math_min.
  destruct (fold_min2 xs (S754_infinity false) Hxs eq_refl) as (Hin & _ & Hall).
  split; [|exact Hall].
  destruct Hin as [Hin | Hin]; [|exact Hin].
  destruct xs as [|y ys]; [congruence|].
  assert (Hy := Hall y (or_introl eq_refl)).
  rewrite Hin in Hy |- *. apply le_Infinity in Hy. left. exact Hy.
Qed.

Lemma Math_max_literal xs :
  xs <> [] -> noNaN xs ->
  In (Math_max xs) xs /\ forall x, In x xs -> le x (Math_max xs) = true.
Proof.
  intros Hne Hxs. unfold Math_max.
  destruct (fold_max2 xs (S754_infinity true) Hxs eq_refl) as (Hin & _ & Hall).
  split; [|exact Hall].
  destruct Hin as [Hin | Hin]; [|exact Hin].
  destruct xs as [|y ys]; [congruence|].
  assert (Hy := Hall y (or_introl eq_refl)).
  rewrite Hin in Hy |- *. apply le_minus_Infinity in Hy. left. exact Hy.
Qed.

(** C3.  [calculateEyeStats] keeps the diameters of the requested eye.  If
    there is none the result is exactly the zero-filled record; otherwise
    the mean is the sum over the count, the standard deviation the square
    root of the population variance, and [min]/[max] are [Math.min] and
    [Math.max] of the diameters, which (when no diameter is NaN) are
    elements of the list bounding all the others.  For diameters
    2, 2, 4, 4 of one eye the mean is 3 and the standard deviation 1. *)
Theorem C3_computeStats data e :
  (diametersOf data e = [] -> calculateEyeStats data e = mkEyeStats zero zero zero zero)
  /\ (diametersOf data e <> [] ->
      mean (calculateEyeStats data e) = arithmeticMean (diametersOf data e)
      /\ std (calculateEyeStats data e) = sqrt (populationVariance (diametersOf data e))
      /\ min (calculateEyeStats data e) = Math_min (diametersOf data e)
      /\ max (calculateEyeStats data e) = Math_max (diametersOf data e)
      /\ (noNaN (diametersOf data e) ->
          In (min (calculateEyeStats data e)) (diametersOf data e)
          /\ In (max (calculateEyeStats data e)) (diametersOf data e)
          /\ forall x, In x (diametersOf data e) ->
               le (min (calculateEyeStats data e)) x = true
               /\ le x (max (calculateEyeStats data e)) = true))
  /\ calculateEyeStats (samplesOf e [lit 2.0; lit 2.0; lit 4.0; lit 4.0]) e
     = mkEyeStats (lit 3.0) (lit 1.0) (lit 2.0) (lit 4.0)
  /\ calculateEyeStats (samplesOf right_eye [lit 2.0; lit 2.0; lit 4.0; lit 4.0]) left_eye
     = mkEyeStats zero zero zero zero.
Proof.
  split; [|split; [|split]].
  - unfold calculateEyeStats, diametersOf. intros ->. reflexivity.
  - intros Hne. rewrite (calculateEyeStats_nonempty data e Hne). cbn [mean std min max].
    repeat split; try reflexivity.
    + apply Math_min_literal; assumption.
    + apply Math_max_literal; assumption.
    + apply Math_min_literal; assumption.
    + apply Math_max_literal; assumption.
  - destruct e; vm_compute; reflexivity.
  - vm_compute. reflexivity.
Qed.

Lemma C3_computeStats_witness :
  calculateEyeStats (samplesOf right_eye [lit 2.5]) left_eye = mkEyeStats zero zero zero zero
  /\ mean (calculateEyeStats (samplesOf left_eye [lit 2.0; lit 3.0]) left_eye) = lit 2.5
  /\ le (min (calculateEyeStats (samplesOf left_eye [lit 2.0; lit 3.0]) left_eye)) (lit 3.0) = true.
Proof.
  split; [|split].
  - apply (proj1 (C3_computeStats (samplesOf right_eye [lit 2.5]) left_eye)). reflexivity.
  - destruct (proj1 (proj2 (C3_computeStats (samplesOf left_eye [lit 2.0; lit 3.0]) left_eye)))
      as (Hm & _); [discriminate|].
    rewrite Hm. vm_compute. reflexivity.
  - destruct (proj1 (proj2 (C3_computeStats (samplesOf left_eye [lit 2.0; lit 3.0]) left_eye)))
      as (_ & _ & _ & _ & Hlit); [discriminate|].
    destruct Hlit as (_ & _ & Hall).
    + intros x [<- | [<- | []]]; reflexivity.
    + exact (proj1 (Hall (lit 3.0) (or_intror (or_introl eq_refl)))).
Defined.

(** ** Trend *)

Lemma ceilHalf_spec n : (n <= 2 * ceilHalf n <= n + 1)%nat.
Proof.
  unfold ceilHalf. pose proof (Nat.div2_odd (S n)) as H.
  destruct (Nat.odd (S n)); cbn [Nat.b2n] in H; lia.
Qed.

Lemma generateConclusions_trend data :
  trend (generateConclusions data)
  = let pupilSizes := map pupilDiameter data in
    let n := List.length pupilSizes in
    if (List.length data <? 2)%nat then insufficient
    else if lt (sub (div (fold_left (fun sum val => add sum val)
                                    (skipn (ceilHalf n) pupilSizes) zero)
                         (ofNat (List.length (skipn (ceilHalf n) pupilSizes))))
                    (div (fold_left (fun sum val => add sum val)
                                    (firstn (ceilHalf n) pupilSizes) zero)
                         (ofNat (List.length (firstn (ceilHalf n) pupilSizes)))))
               (lit (-0.1)) then declining
    else if gt (sub (div (fold_left (fun sum val => add sum val)
                                    (skipn (ceilHalf n) pupilSizes) zero)
                         (ofNat (List.length (skipn (ceilHalf n) pupilSizes))))
                    (div (fold_left (fun sum val => add sum val)
                                    (firstn (ceilHalf n) pupilSizes) zero)
                         (ofNat (List.length (firstn (ceilHalf n) pupilSizes)))))
               (lit 0.1) then improving
    else if gt (sqrt (div (fold_left
                             (fun sum val =>
                                add sum (pow2 (sub val
                                   (div (fold_left (fun s v => add s v) pupilSizes zero)
                                        (ofNat (List.length pupilSizes))))))
                             pupilSizes zero)
                          (ofNat (List.length pupilSizes))))
               (lit 0.15) then variable
    else stable.
Proof.
  unfold generateConclusions. cbv zeta.
  repeat match goal with |- context [if ?c then _ else _] => destruct c end; reflexivity.
Qed.

(** C7.  The trend of [generateConclusions] is the rule of the
    specification applied to the series of pupil diameters:
    [insufficient] below two points; otherwise the first [ceil(n/2)] points
    against the rest, [delta] the difference of the two means and the
    population standard deviation of the whole series, tested in the order
    [delta < -0.1], [delta > 0.1], [variability > 0.15].  The two halves
    partition the series and the first has [ceil(n/2)] points. *)
Theorem C7_trend data :
  let series := map pupilDiameter data in
  let n := List.length series in
  trend (generateConclusions data) = analyzeTrend series
  /\ trend (generateConclusions data)
     = (if (n <? 2)%nat then insufficient
        else
          let delta := sub (arithmeticMean (skipn (ceilHalf n) series))
                           (arithmeticMean (firstn (ceilHalf n) series)) in
          if lt delta (lit (-0.1)) then declining
          else if gt delta (lit 0.1) then improving
          else if gt (populationStdDev series) (lit 0.15) then variable
          else stable)
  /\ firstn (ceilHalf n) series ++ skipn (ceilHalf n) series = series
  /\ List.length (firstn (ceilHalf n) series) = ceilHalf n
  /\ (n <= 2 * ceilHalf n <= n + 1)%nat
  /\ trend (generateConclusions (pointsOf [lit 2.0; lit 2.0; lit 2.5; lit 2.5])) = improving
  /\ trend (generateConclusions (pointsOf [lit 2.0; lit 2.0; lit 2.0; lit 2.0])) = stable
  /\ trend (generateConclusions (pointsOf [lit 2.5; lit 2.5; lit 2.0; lit 2.0])) = declining
  /\ trend (generateConclusions (pointsOf [lit 2.0; lit 2.4; lit 2.4; lit 2.0])) = variable
  /\ trend (generateConclusions (pointsOf [lit 2.0])) = insufficient.
Proof.
  cbv zeta.
  assert (E : trend (generateConclusions data) = analyzeTrend (map pupilDiameter data)).
  { rewrite generateConclusions_trend. unfold analyzeTrend.
    rewrite length_map.
    destruct (List.length data <? 2)%nat; [reflexivity|].
    unfold populationStdDev, populationVariance, arithmeticMean, sumOf.
    rewrite <- (fold_left_add_map (fun x0 => pow2 (sub x0 _))).
    rewrite !length_map. reflexivity. }
  split; [exact E|]. split; [rewrite E; reflexivity|].
  split; [apply firstn_skipn|].
  split; [apply firstn_length_le; pose proof (ceilHalf_spec (List.length (map pupilDiameter data))); lia|].
  split; [apply ceilHalf_spec|].
  vm_compute. repeat split; reflexivity.
Qed.

(** ** Strings *)

Lemma allChars_app p a b : allChars p (a ++ b)%string = allChars p a && allChars p b.
Proof.
  induction a as [|c a IH]; simpl; [reflexivity|].
  rewrite IH. apply andb_assoc.
Qed.

Lemma allChars_mono (p q : ascii -> bool) s :
  (forall c, p c = true -> q c = true) -> allChars p s = true -> allChars q s = true.
Proof.
  intros Hpq. induction s as [|c s IH]; simpl; [reflexivity|].
  intros H. apply andb_prop in H. destruct H as [Hc Hs].
  rewrite (Hpq c Hc), (IH Hs). reflexivity.
Qed.

Ltac ascii_cases c :=
  destruct c as [[] [] [] [] [] [] [] []]; try reflexivity; try discriminate.

Lemma isDigit_plain c : isDigit c = true -> plainChar c = true.
Proof. unfold plainChar. intros ->. reflexivity. Qed.

Lemma plain_not_space c : plainChar c = true -> isWhiteSpace c = false.
Proof. ascii_cases c. Qed.

Lemma plain_not_LF c : plainChar c = true -> negb (Ascii.eqb c LF) = true.
Proof. ascii_cases c. Qed.

Lemma plain_not_P c : plainChar c = true -> negb (Ascii.eqb c "P") = true.
Proof. ascii_cases c. Qed.

Lemma plain_not_dash c : plainChar c = true -> negb (Ascii.eqb c "-") = true.
Proof. ascii_cases c. Qed.

Lemma plain_not_F c : plainChar c = true -> negb (Ascii.eqb c "F") = true.
Proof. ascii_cases c. Qed.

Lemma digit_not_comma c : isDigit c = true -> negb (Ascii.eqb c ",") = true.
Proof. ascii_cases c. Qed.

Lemma digit_not_dot c : isDigit c = true -> negb (Ascii.eqb c ".") = true.
Proof. ascii_cases c. Qed.

Lemma digit_facts c :
  isDigit c = true ->
  isWhiteSpace c = false /\ Ascii.eqb c "-" = false /\ Ascii.eqb c "+" = false
  /\ digitIn 10 c = Some (Z.of_nat (nat_of_ascii c) - 48)
  /\ (if ascii_dec "I" c then true else false) = false
  /\ (if ascii_dec "x" c then true else false) = false
  /\ (if ascii_dec "X" c then true else false) = false.
Proof. ascii_cases c; intros _; repeat split; reflexivity. Qed.

(** *** [split] and [join] *)

Lemma split_not_nil sep s : split sep s <> [].
Proof.
  destruct s as [|c r]; simpl; [discriminate|].
  destruct (Ascii.eqb c sep); [discriminate|].
  destruct (split sep r); discriminate.
Qed.

Lemma join_split sep s : join sep (split sep s) = s.
Proof.
  induction s as [|c r IH]; simpl; [reflexivity|].
  destruct (Ascii.eqb_spec c sep) as [-> | Hc].
  - pose proof (split_not_nil sep r) as Hn.
    destruct (split sep r) as [|h t]; [congruence|].
    change (join sep ("" :: h :: t)) with (String sep (join sep (h :: t))).
    rewrite IH. reflexivity.
  - pose proof (split_not_nil sep r) as Hn.
    destruct (split sep r) as [|h [|h' t]]; [congruence| |].
    + simpl in *. rewrite IH. reflexivity.
    + change (join sep (String c h :: h' :: t))
        with (String c (h ++ String sep (join sep (h' :: t))))%string.
      change (join sep (h :: h' :: t)) with (h ++ String sep (join sep (h' :: t)))%string in IH.
      rewrite IH. reflexivity.
Qed.

Lemma split_no_sep sep s :
  allChars (fun c => negb (Ascii.eqb c sep)) s = true -> split sep s = [s].
Proof.
  induction s as [|c r IH]; simpl; [reflexivity|].
  intros H. apply andb_prop in H. destruct H as [Hc Hr].
  apply negb_true_iff in Hc. rewrite Hc, (IH Hr). reflexivity.
Qed.

Lemma split_app sep a b :
  allChars (fun c => negb (Ascii.eqb c sep)) a = true ->
  split sep (a ++ String sep b) = a :: split sep b.
Proof.
  induction a as [|c r IH]; simpl.
  - intros _. rewrite Ascii.eqb_refl. reflexivity.
  - intros H. apply andb_prop in H. destruct H as [Hc Hr].
    apply negb_true_iff in Hc. rewrite Hc, (IH Hr). reflexivity.
Qed.

Lemma split_join sep lines :
  lines <> [] ->
  Forall (fun l => allChars (fun c => negb (Ascii.eqb c sep)) l = true) lines ->
  split sep (join sep lines) = lines.
Proof.
  induction lines as [|l [|l' t] IH]; intros Hne Hall.
  - congruence.
  - simpl. apply split_no_sep. inversion Hall; assumption.
  - change (join sep (l :: l' :: t)) with (l ++ String sep (join sep (l' :: t)))%string.
    inversion Hall as [|? ? Hl Ht]; subst.
    rewrite (split_app sep l _ Hl), IH; [reflexivity | discriminate | exact Ht].
Qed.

(** *** [trim], [includes] and equality on plain lines *)

Lemma trimEnd_plain s :
  allChars (fun c => negb (isWhiteSpace c)) s = true -> trimEnd s = s.
Proof.
  induction s as [|c r IH]; simpl; [reflexivity|].
  intros H. apply andb_prop in H. destruct H as [Hc Hr].
  apply negb_true_iff in Hc. rewrite (IH Hr), Hc.
  destruct r; reflexivity.
Qed.

Lemma trim_plain s :
  allChars (fun c => negb (isWhiteSpace c)) s = true -> trim s = s.
Proof.
  intros H. unfold trim.
  assert (E : trimStart s = s).
  { destruct s as [|c r]; simpl; [reflexivity|].
    simpl in H. apply andb_prop in H. destruct H as [Hc _].
    apply negb_true_iff in Hc. rewrite Hc. reflexivity. }
  rewrite E. apply trimEnd_plain. exact H.
Qed.

Lemma includes_absent s c sub :
  allChars (fun a => negb (Ascii.eqb a c)) s = true -> includes s (String c sub) = false.
Proof.
  induction s as [|a r IH]; simpl; [reflexivity|].
  intros H. apply andb_prop in H. destruct H as [Ha Hr].
  apply negb_true_iff in Ha.
  destruct (ascii_dec c a) as [-> | _].
  - rewrite Ascii.eqb_refl in Ha. discriminate.
  - simpl. apply IH. exact Hr.
Qed.

Lemma includes_present a c b : includes (a ++ String c b) (String c "") = true.
Proof.
  induction a as [|x a IH].
  - simpl. destruct (ascii_dec c c); [|congruence]. destruct b; reflexivity.
  - cbn [append includes]. rewrite IH. apply orb_true_r.
Qed.

Lemma eqb_absent s c r :
  allChars (fun a => negb (Ascii.eqb a c)) s = true -> (s =? String c r)%string = false.
Proof.
  destruct s as [|a s]; simpl; [reflexivity|].
  intros H. apply andb_prop in H. destruct H as [Ha _].
  apply negb_true_iff in Ha. rewrite Ha. reflexivity.
Qed.

(** ** [parseInt] and [parseFloat] on digit strings *)

Lemma digitValue_nonneg c d : digitValue c = Some d -> 0 <= d.
Proof.
  unfold digitValue.
  repeat match goal with
         | |- context [if ?b then _ else _] => destruct b eqn:?
         end; intros H; inversion H; lia.
Qed.

Lemma digitIn_nonneg R c d : digitIn R c = Some d -> 0 <= d.
Proof.
  unfold digitIn. destruct (digitValue c) as [d'|] eqn:E; [|discriminate].
  destruct (d' <? R); [|discriminate].
  intros H. inversion H. subst. exact (digitValue_nonneg c d E).
Qed.

Lemma spanDigits_bounds R s : forall acc n,
  0 <= R -> 0 <= acc ->
  0 <= fst (fst (spanDigits R s acc n)) /\ (n <= snd (fst (spanDigits R s acc n)))%nat.
Proof.
  induction s as [|c r IH]; intros acc n HR Hacc; simpl; [split; [exact Hacc | lia]|].
  destruct (digitIn R c) as [d|] eqn:E; simpl; [|split; [exact Hacc | lia]].
  pose proof (digitIn_nonneg R c d E) as Hd.
  destruct (IH (R * acc + d) (S n) HR) as [H1 H2]; [nia|].
  split; [exact H1 | lia].
Qed.

Lemma spanDigits_digits s : forall acc n,
  allChars isDigit s = true ->
  spanDigits 10 s acc n = (digitsValueFrom acc s, (n + String.length s)%nat, "").
Proof.
  induction s as [|c r IH]; intros acc n H; simpl.
  - rewrite Nat.add_0_r. reflexivity.
  - simpl in H. apply andb_prop in H. destruct H as [Hc Hr].
    destruct (digit_facts c Hc) as (_ & _ & _ & Hd & _).
    rewrite Hd, (IH _ _ Hr). f_equal. f_equal. lia.
Qed.

Lemma prefix_cons a s1 b s2 :
  String.prefix (String a s1) (String b s2)
  = if ascii_dec a b then String.prefix s1 s2 else false.
Proof. reflexivity. Qed.

Lemma prefix_0x_digits c r :
  isDigit c = true -> allChars isDigit r = true ->
  String.prefix "0x" (String c r) || String.prefix "0X" (String c r) = false.
Proof.
  intros Hc Hr. rewrite !prefix_cons.
  destruct (ascii_dec "0" c) as [_ | _]; [|reflexivity].
  destruct r as [|c2 r2]; [reflexivity|].
  cbn [allChars] in Hr. apply andb_prop in Hr. destruct Hr as [Hc2 _].
  destruct (digit_facts c2 Hc2) as (_ & _ & _ & _ & _ & Hx & HX).
  rewrite !prefix_cons.
  destruct (ascii_dec "x" c2); [discriminate|].
  destruct (ascii_dec "X" c2); [discriminate|]. reflexivity.
Qed.

(** On a non-empty string of decimal digits [parseInt] is the Number value
    of the integer written. *)
Lemma parseInt_digitString f :
  digitString f = true -> parseInt f = ofZ (digitsValue f).
Proof.
  unfold digitString. destruct f as [|c r]; [discriminate|].
  cbn [Str.truthy andb allChars]. intros H.
  pose proof H as H0. apply andb_prop in H. destruct H as [Hc Hr].
  destruct (digit_facts c Hc) as (Hws & Hminus & Hplus & _).
  unfold parseInt. cbn [trimStart]. rewrite Hws.
  cbn [takeSign]. rewrite Hminus, Hplus.
  rewrite (prefix_0x_digits c r Hc Hr).
  rewrite (spanDigits_digits (String c r) 0 0 H0).
  cbn [String.length Nat.add]. unfold digitsValue.
  destruct (digitsValueFrom 0 (String c r) =? 0) eqn:E; [|reflexivity].
  apply Z.eqb_eq in E. rewrite E. reflexivity.
Qed.

(** A string that starts with a decimal digit is never read as NaN. *)
Lemma parseFloat_leading_digit c r :
  isDigit c = true -> isNaN (parseFloat (String c r)) = false.
Proof.
  intros Hc.
  destruct (digit_facts c Hc) as (Hws & Hminus & Hplus & Hd & HI & _).
  unfold parseFloat. cbn [trimStart]. rewrite Hws.
  cbn [takeSign]. rewrite Hminus, Hplus.
  rewrite prefix_cons. destruct (ascii_dec "I" c); [discriminate|].
  cbn [spanDigits]. rewrite Hd.
  assert (Hd0 : 0 <= 10 * 0 + (Z.of_nat (nat_of_ascii c) - 48)).
  { unfold isDigit in Hc. apply andb_prop in Hc. destruct Hc as [Hc _].
    apply Nat.leb_le in Hc. lia. }
  destruct (spanDigits_bounds 10 r _ 1%nat ltac:(lia) Hd0) as [Hip Hni].
  destruct (spanDigits 10 r _ 1%nat) as [[ip ni] r1]. cbn [fst snd] in Hip, Hni.
  assert (Hfrac : forall r', 0 <= fst (fst (spanDigits 10 r' ip 0))).
  { intros r'. apply spanDigits_bounds; lia. }
  destruct r1 as [|c1 r1'].
  - destruct ni as [|ni']; [lia|]. cbn [Nat.add].
    apply decimalToNumber_not_NaN. exact Hip.
  - destruct (Ascii.eqb c1 ".").
    + specialize (Hfrac r1'). destruct (spanDigits 10 r1' ip 0) as [[m nf] r2].
      cbn [fst] in Hfrac. destruct ni as [|ni']; [lia|]. cbn [Nat.add].
      apply decimalToNumber_not_NaN. exact Hfrac.
    + destruct ni as [|ni']; [lia|]. cbn [Nat.add].
      apply decimalToNumber_not_NaN. exact Hip.
Qed.

Lemma decimalString_leading_digit d :
  decimalString d = true ->
  (exists c r, d = String c r /\ isDigit c = true)
  /\ allChars plainChar d = true
  /\ allChars (fun c => negb (Ascii.eqb c ",")) d = true.
Proof.
  unfold decimalString. intros H.
  pose proof (join_split "." d) as J.
  assert (D : forall i, digitString i = true ->
                (exists c r, i = String c r /\ isDigit c = true /\ allChars isDigit r = true)).
  { intros [|c r]; [discriminate|]. unfold digitString. cbn [Str.truthy andb allChars].
    intros Hi. apply andb_prop in Hi. destruct Hi. exists c, r. auto. }
  destruct (split "." d) as [|i [|f [|x t]]]; try discriminate.
  - simpl in J. subst i. destruct (D d H) as (c & r & -> & Hc & Hr).
    split; [exists c, r; auto|].
    assert (Hall : allChars isDigit (String c r) = true) by (simpl; rewrite Hc, Hr; reflexivity).
    split; [exact (allChars_mono _ _ _ isDigit_plain Hall)
           | exact (allChars_mono _ _ _ digit_not_comma Hall)].
  - apply andb_prop in H. destruct H as [Hi Hf].
    destruct (D i Hi) as (c & r & -> & Hc & Hr).
    destruct (D f Hf) as (c' & r' & -> & Hc' & Hr').
    change (join "." [String c r; String c' r'])
      with (String c (r ++ String "." (String c' r')))%string in J.
    subst d. split; [eexists _, _; split; [reflexivity | exact Hc]|].
    assert (Hall : forall q : ascii -> bool,
               (forall a, isDigit a = true -> q a = true) -> q "."%char = true ->
               allChars q (String c (r ++ String "." (String c' r'))) = true).
    { intros q Hq Hdot. cbn [allChars]. rewrite allChars_app. cbn [allChars].
      rewrite (Hq c Hc), (Hq c' Hc'), Hdot.
      rewrite (allChars_mono _ q r Hq Hr), (allChars_mono _ q r' Hq Hr'). reflexivity. }
    split; apply Hall; auto using isDigit_plain, digit_not_comma.
Qed.

(** ** Rows *)

Lemma eyeLabel_cases e :
  isEyeLabel e = true ->
  e = "left_eye" \/ e = "right_eye" \/ e = "left" \/ e = "Left" \/ e = "right" \/ e = "Right".
Proof.
  unfold isEyeLabel. cbn [existsb]. intros H.
  repeat (apply orb_prop in H; destruct H as [H | H]);
    try (apply String.eqb_eq in H; subst; tauto); discriminate.
Qed.

Lemma normalize_recognized e :
  recognizedEye (normalizeEye e) = normalizedEye e.
Proof.
  unfold recognizedEye, normalizeEye, normalizedEye. cbn [existsb].
  destruct (String.eqb_spec e "left_eye") as [-> | H1]; [reflexivity|].
  destruct (String.eqb_spec e "right_eye") as [-> | H2]; [reflexivity|].
  cbn [orb].
  destruct (String.eqb_spec e "left") as [-> | H3]; [reflexivity|].
  destruct (String.eqb_spec e "Left") as [-> | H4]; [reflexivity|].
  cbn [orb].
  destruct (String.eqb_spec e "right") as [-> | H5]; [reflexivity|].
  destruct (String.eqb_spec e "Right") as [-> | H6]; [reflexivity|].
  cbn [orb].
  destruct (String.eqb_spec e "left_eye"); [congruence|].
  destruct (String.eqb_spec e "right_eye"); [congruence|]. reflexivity.
Qed.

Lemma split_rowLine r :
  wellFormedRow r = true ->
  split "," (rowLine r) = [frameField r; eyeField r; diameterField r].
Proof.
  unfold wellFormedRow, rowLine. intros H.
  apply andb_prop in H. destruct H as [H Hd]. apply andb_prop in H. destruct H as [Hf He].
  assert (Nf : allChars (fun c => negb (Ascii.eqb c ",")) (frameField r) = true).
  { unfold digitString in Hf. apply andb_prop in Hf. destruct Hf as [_ Hf].
    exact (allChars_mono _ _ _ digit_not_comma Hf). }
  assert (Ne : allChars (fun c => negb (Ascii.eqb c ",")) (eyeField r) = true).
  { destruct (eyeLabel_cases _ He) as [-> | [-> | [-> | [-> | [-> | ->]]]]]; reflexivity. }
  destruct (decimalString_leading_digit _ Hd) as (_ & _ & Nd).
  change (frameField r ++ "," ++ eyeField r ++ "," ++ diameterField r)%string
    with (frameField r ++ String "," (eyeField r ++ String "," (diameterField r)))%string.
  rewrite (split_app "," _ _ Nf), (split_app "," _ _ Ne), (split_no_sep "," _ Nd).
  reflexivity.
Qed.

Lemma rowLine_plain r :
  wellFormedRow r = true -> allChars plainChar (rowLine r) = true.
Proof.
  unfold wellFormedRow, rowLine. intros H.
  apply andb_prop in H. destruct H as [H Hd]. apply andb_prop in H. destruct H as [Hf He].
  unfold digitString in Hf. apply andb_prop in Hf. destruct Hf as [_ Hf].
  destruct (decimalString_leading_digit _ Hd) as (_ & Pd & _).
  change (frameField r ++ "," ++ eyeField r ++ "," ++ diameterField r)%string
    with (frameField r ++ String "," (eyeField r ++ String "," (diameterField r)))%string.
  rewrite allChars_app. cbn [allChars]. rewrite allChars_app. cbn [allChars].
  rewrite (allChars_mono _ _ _ isDigit_plain Hf), Pd.
  destruct (eyeLabel_cases _ He) as [-> | [-> | [-> | [-> | [-> | ->]]]]]; reflexivity.
Qed.

Lemma parseRow_wellFormed r :
  wellFormedRow r = true -> parseRow (rowLine r) = Some (rowSample r).
Proof.
  intros H. unfold parseRow. rewrite (split_rowLine r H).
  cbn [List.length Nat.leb nth].
  unfold wellFormedRow in H.
  apply andb_prop in H. destruct H as [H Hd]. apply andb_prop in H. destruct H as [Hf He].
  rewrite (parseInt_digitString _ Hf), ofZ_not_NaN.
  destruct (decimalString_leading_digit _ Hd) as ((c & d' & Ed & Hc) & _).
  assert (Hn : isNaN (parseFloat (diameterField r)) = false)
    by (rewrite Ed; apply parseFloat_leading_digit; exact Hc).
  rewrite Hn. cbn [negb andb].
  assert (Ht : trim (eyeField r) = eyeField r).
  { destruct (eyeLabel_cases _ He) as [-> | [-> | [-> | [-> | [-> | ->]]]]]; reflexivity. }
  rewrite Ht, normalize_recognized. unfold rowSample.
  destruct (eyeLabel_cases _ He) as [E | [E | [E | [E | [E | E]]]]]; rewrite E; reflexivity.
Qed.

Lemma parseLine_wellFormed st r :
  wellFormedRow r = true ->
  inSummarySection st && negb (inCSVSection st) = false ->
  parseLine st (rowLine r) = pushSample st (rowSample r).
Proof.
  intros H Hst. pose proof (rowLine_plain r H) as P.
  unfold parseLine.
  rewrite (trim_plain (rowLine r)
             (allChars_mono _ _ _ (fun c Hc => proj2 (negb_true_iff _) (plain_not_space c Hc)) P)).
  rewrite (includes_absent (rowLine r) "P" "rocessed" (allChars_mono _ _ _ plain_not_P P)).
  cbn [andb].
  rewrite (eqb_absent (rowLine r) "-" "-- CSV Data ---" (allChars_mono _ _ _ plain_not_dash P)).
  rewrite (eqb_absent (rowLine r) "F" "rame,Eye_Type,Diameter_mm"
             (allChars_mono _ _ _ plain_not_F P)).
  rewrite Hst.
  assert (Hc : includes (rowLine r) "," = true) by apply includes_present.
  rewrite Hc, (parseRow_wellFormed r H). reflexivity.
Qed.

Lemma parseLines_wellFormed rows : forall st,
  forallb wellFormedRow rows = true ->
  inSummarySection st && negb (inCSVSection st) = false ->
  fold_left parseLine (map rowLine rows) st
  = mkParseState (st_pupilData st ++ map rowSample rows) (st_summary st)
                 (inSummarySection st) (inCSVSection st).
Proof.
  induction rows as [|r rows IH]; intros st H Hst; simpl.
  - rewrite app_nil_r. destruct st; reflexivity.
  - simpl in H. apply andb_prop in H. destruct H as [Hr Hrows].
    rewrite (parseLine_wellFormed st r Hr Hst), (IH _ Hrows); [|exact Hst].
    cbn [pushSample st_pupilData st_summary inSummarySection inCSVSection].
    rewrite <- app_assoc. reflexivity.
Qed.

Lemma filter_all {A} (f : A -> bool) l : forallb f l = true -> filter f l = l.
Proof.
  induction l as [|x l IH]; simpl; [reflexivity|].
  intros H. apply andb_prop in H. destruct H as [Hx Hl]. rewrite Hx, (IH Hl). reflexivity.
Qed.

Lemma rowLine_kept r :
  wellFormedRow r = true -> Str.truthy (trim (rowLine r)) = true.
Proof.
  intros H. pose proof (rowLine_plain r H) as P.
  rewrite (trim_plain (rowLine r)
             (allChars_mono _ _ _ (fun c Hc => proj2 (negb_true_iff _) (plain_not_space c Hc)) P)).
  unfold rowLine. unfold wellFormedRow in H.
  apply andb_prop in H. destruct H as [H _]. apply andb_prop in H. destruct H as [Hf _].
  destruct (frameField r); [discriminate | reflexivity].
Qed.

(** C5.  A report made only of N well-formed rows, one per line, parses to
    exactly N samples in line order; the sample of a row has the frame
    written in the row, the eye given by the normalisation of the label
    ([left_eye], [left], [Left] to the left eye; [right_eye], [right],
    [Right] to the right eye) and the diameter read by [parseFloat], which
    is a number; the summary is empty. *)
Theorem C5_well_formed_rows rows :
  forallb wellFormedRow rows = true ->
  pupilData (parseResultData (reportOf rows)) = map rowSample rows
  /\ List.length (pupilData (parseResultData (reportOf rows))) = List.length rows
  /\ summary (parseResultData (reportOf rows)) = ""
  /\ forall r, In r rows ->
       normalizedEye (eyeField r) = Some (eye (rowSample r))
       /\ frame (rowSample r) = ofZ (digitsValue (frameField r))
       /\ frame (rowSample r) = parseInt (frameField r)
       /\ isNaN (diameter (rowSample r)) = false.
Proof.
  intros H.
  assert (E : pupilData (parseResultData (reportOf rows)) = map rowSample rows
              /\ summary (parseResultData (reportOf rows)) = "").
  { destruct rows as [|r0 rows0]; [split; reflexivity|].
    set (rows := r0 :: rows0) in *.
    unfold parseResultData, reportOf.
    assert (S : split LF (join LF (map rowLine rows)) = map rowLine rows).
    { apply split_join; [discriminate|].
      apply Forall_forall. intros l Hl. apply in_map_iff in Hl. destruct Hl as (r & <- & Hr).
      apply (allChars_mono _ _ _ plain_not_LF). apply rowLine_plain.
      exact (proj1 (forallb_forall _ _) H r Hr). }
    rewrite S.
    assert (F : filter (fun line => Str.truthy (trim line)) (map rowLine rows) = map rowLine rows).
    { apply filter_all. apply forallb_forall. intros l Hl.
      apply in_map_iff in Hl. destruct Hl as (r & <- & Hr).
      apply rowLine_kept. exact (proj1 (forallb_forall _ _) H r Hr). }
    rewrite F. unfold parseLines.
    rewrite (parseLines_wellFormed rows initialState H eq_refl).
    split; reflexivity. }
  destruct E as [E1 E2].
  split; [exact E1|]. split; [rewrite E1; apply length_map|]. split; [exact E2|].
  intros r Hr. pose proof (proj1 (forallb_forall _ _) H r Hr) as Hw.
  unfold wellFormedRow in Hw.
  apply andb_prop in Hw. destruct Hw as [Hw Hd]. apply andb_prop in Hw. destruct Hw as [Hf He].
  split; [|split; [reflexivity|split]].
  - unfold rowSample. cbn [eye].
    destruct (eyeLabel_cases _ He) as [E | [E | [E | [E | [E | E]]]]]; rewrite E; reflexivity.
  - unfold rowSample. cbn [frame]. symmetry. apply parseInt_digitString. exact Hf.
  - unfold rowSample. cbn [diameter].
    destruct (decimalString_leading_digit _ Hd) as ((c & d' & Ed & Hc) & _).
    rewrite Ed. apply parseFloat_leading_digit. exact Hc.
Qed.

Lemma C5_well_formed_rows_witness :
  pupilData (parseResultData (reportOf exampleRows))
  = [mkPupilData (lit 37) left_eye (lit 2.300457715988159);
     mkPupilData zero right_eye (lit 2.25);
     mkPupilData (lit 12) left_eye (lit 3)].
Proof.
  destruct (C5_well_formed_rows exampleRows) as [E _]; [reflexivity|].
  rewrite E. vm_compute. reflexivity.
Defined.

(** ** Row acceptance *)

Lemma parseRow_accepts t d : parseRow t = Some d <-> rowAccepted t d.
Proof.
  unfold parseRow, rowAccepted. cbv zeta.
  rewrite normalize_recognized.
  destruct (3 <=? List.length (split "," t))%nat eqn:L.
  - apply Nat.leb_le in L.
    destruct (normalizedEye (trim (nth 1 (split "," t) ""))) as [e|];
      destruct (isNaN (parseInt (nth 0 (split "," t) ""))) eqn:Nf;
      destruct (isNaN (parseFloat (nth 2 (split "," t) ""))) eqn:Nd;
      cbn [negb andb]; split;
      try (intros H; discriminate H);
      try (intros (_ & H1 & H2 & H3 & _); discriminate);
      try (intros (_ & H1 & H2 & H3 & _); congruence).
    + intros H. inversion H. subst d. cbn [eye frame diameter]. repeat split. exact L.
    + intros (_ & _ & _ & He & Hf & Hd). destruct d as [f e' dm]. cbn in *.
      inversion He. subst. reflexivity.
  - apply Nat.leb_gt in L. split; [discriminate|]. intros (H & _). lia.
Qed.

Lemma parseLine_row st line :
  reachesRowBranch st (trim line) = true ->
  parseLine st line
  = match parseRow (trim line) with
    | Some d => pushSample st d
    | None => st
    end.
Proof.
  unfold reachesRowBranch, parseLine. intros H.
  repeat (apply andb_prop in H; destruct H as [H ?]).
  repeat match goal with
         | H : negb _ = true |- _ => apply negb_true_iff in H
         end.
  repeat match goal with
         | H : ?b = _ |- context [if ?b then _ else _] => rewrite H
         end.
  reflexivity.
Qed.

(** C6, against the claim as stated: a row whose diameter is not finite is
    accepted. *)
Lemma C6_infinite_diameter_accepted :
  ~ (forall text d, In d (pupilData (parseResultData text)) -> isFinite (diameter d) = true).
Proof.
  intros H.
  specialize (H "1,left_eye,Infinity" (mkPupilData (lit 1) left_eye Infinity)).
  assert (Hin : In (mkPupilData (lit 1) left_eye Infinity)
                   (pupilData (parseResultData "1,left_eye,Infinity")))
    by (vm_compute; left; reflexivity).
  specialize (H Hin). discriminate.
Qed.

(** C6 (amended).  A comma-containing line that reaches the row branch
    adds a sample exactly when it has at least three fields, [parseInt] of
    the first and [parseFloat] of the third are not NaN (an infinite
    diameter passes), and the trimmed second field is one of the six labels;
    the sample carries these values.  Otherwise the line leaves the parser
    state unchanged, so the rows before and after it are parsed as if it
    were absent.  The parser is a total function: no input makes it fail.
    Of the rows of [mixedReport] only ["7,right,2.5"] and
    ["9, Left ,2.75,extra"] are kept. *)
Theorem C6_row_acceptance :
  (forall t d, parseRow t = Some d <-> rowAccepted t d)
  /\ (forall st line,
        reachesRowBranch st (trim line) = true ->
        (forall d, rowAccepted (trim line) d -> parseLine st line = pushSample st d)
        /\ ((forall d, ~ rowAccepted (trim line) d) -> parseLine st line = st))
  /\ (forall before line after,
        reachesRowBranch (parseLines before) (trim line) = true ->
        (forall d, ~ rowAccepted (trim line) d) ->
        fold_left parseLine (before ++ line :: after) initialState
        = fold_left parseLine (before ++ after) initialState)
  /\ pupilData (parseResultData mixedReport)
     = [mkPupilData (lit 7) right_eye (lit 2.5); mkPupilData (lit 9) left_eye (lit 2.75)]
  /\ pupilData (parseResultData "1,left_eye,Infinity")
     = [mkPupilData (lit 1) left_eye Infinity]
  /\ pupilData (parseResultData "1,left_eye,1e999")
     = [mkPupilData (lit 1) left_eye Infinity].
Proof.
  assert (Step : forall st line,
        reachesRowBranch st (trim line) = true ->
        (forall d, rowAccepted (trim line) d -> parseLine st line = pushSample st d)
        /\ ((forall d, ~ rowAccepted (trim line) d) -> parseLine st line = st)).
  { intros st line Hr. rewrite (parseLine_row st line Hr). split.
    - intros d Hd. apply parseRow_accepts in Hd. rewrite Hd. reflexivity.
    - intros Hno. destruct (parseRow (trim line)) as [d|] eqn:E; [|reflexivity].
      exfalso. apply (Hno d). apply parseRow_accepts. exact E. }
  split; [exact parseRow_accepts|]. split; [exact Step|]. split.
  - intros before line after Hr Hno.
    rewrite !fold_left_app. cbn [fold_left].
    unfold parseLines in Hr.
    rewrite (proj2 (Step _ line Hr) Hno). reflexivity.
  - vm_compute. repeat split; reflexivity.
Qed.

Lemma C6_row_acceptance_witness :
  fold_left parseLine (["1,left_eye,2.5"] ++ "abc,left_eye,2.3" :: ["2,right_eye,2.6"]) initialState
  = fold_left parseLine (["1,left_eye,2.5"] ++ ["2,right_eye,2.6"]) initialState.
Proof.
  apply (proj1 (proj2 (proj2 C6_row_acceptance))).
  - vm_compute. reflexivity.
  - intros d Hd. apply (proj2 (proj1 C6_row_acceptance _ _)) in Hd.
    vm_compute in Hd. discriminate.
Defined.

(** ** Reaction-time estimates *)

Ltac prove_constOf :=
  eexists _, _; split; [reflexivity|];
  split; [split; apply Z.leb_le; vm_compute; reflexivity | vm_compute; reflexivity].

Lemma constOf_lit250 : constOf (lit 250) 250.
Proof. prove_constOf. Qed.
Lemma constOf_lit50 : constOf (lit 50) 50.
Proof. prove_constOf. Qed.
Lemma constOf_lit100 : constOf (lit 100) 100.
Proof. prove_constOf. Qed.
Lemma constOf_lit150 : constOf (lit 150) 150.
Proof. prove_constOf. Qed.
Lemma constOf_lit25 : constOf (lit 25) 25.
Proof. prove_constOf. Qed.

Lemma sc0_pos : 0 < sc 0.
Proof. apply sc_gt0. lia. Qed.

Lemma mul_unit_constOf r c C :
  unitInterval r = true -> constOf c C -> 0 <= C < 2 ^ 53 ->
  mul r c = S754_zero false
  \/ exists m e, mul r c = S754_finite false m e /\ -1074 <= e /\ Zpos m * sc e <= C * sc 0.
Proof.
  intros Hr (mc & ec & -> & Hec & Hc) HC.
  apply (mul_unit_const r mc ec C Hr); auto; lia.
Qed.

(** A constant plus a product with a draw. *)
Lemma add_const_small c C y Y :
  constOf c C -> 0 < C -> 0 <= Y -> C + Y < 2 ^ 52 ->
  (y = S754_zero false
   \/ exists m e, y = S754_finite false m e /\ -1074 <= e /\ Zpos m * sc e <= Y * sc 0) ->
  valueBetween C (C + Y) (add c y).
Proof.
  intros (mc & ec & -> & Hec & Hc) HC HY0 HY [-> | (m & e & -> & He & Hm)].
  - change (add (S754_finite false mc ec) (S754_zero false)) with (S754_finite false mc ec).
    pose proof sc0_pos. apply valueBetween_sc. split; [exact Hec|]. nia.
  - apply add_pos_between; try lia.
    pose proof (sc_gt0 e ltac:(lia)). pose proof sc0_pos. nia.
Qed.

Lemma add_const_between c C y lo hi :
  constOf c C -> 0 < C -> 0 < lo -> C + hi < 2 ^ 52 ->
  valueBetween lo hi y -> valueBetween (C + lo) (C + hi) (add c y).
Proof.
  intros (mc & ec & -> & Hec & Hc) HC Hlo Hhi Hy.
  destruct y as [| | |[] m e]; try contradiction.
  apply valueBetween_sc in Hy. destruct Hy as [He Hy].
  apply add_pos_between; try lia.
Qed.

Lemma add_between_const c C y lo hi :
  constOf c C -> 0 < C -> 0 < lo -> hi + C < 2 ^ 52 ->
  valueBetween lo hi y -> valueBetween (lo + C) (hi + C) (add y c).
Proof.
  intros (mc & ec & -> & Hec & Hc) HC Hlo Hhi Hy.
  destruct y as [| | |[] m e]; try contradiction.
  apply valueBetween_sc in Hy. destruct Hy as [He Hy].
  apply add_pos_between; try lia.
Qed.

Lemma sub_between_const c C y lo hi :
  constOf c C -> 0 < C < lo -> hi < 2 ^ 52 ->
  valueBetween lo hi y -> valueBetween (lo - C) (hi - C) (sub y c).
Proof.
  intros (mc & ec & -> & Hec & Hc) HC Hhi Hy.
  destruct y as [| | |[] m e]; try contradiction.
  apply valueBetween_sc in Hy. destruct Hy as [He Hy].
  apply sub_pos_between; try lia.
Qed.

(** The base time lies in the range of the level. *)
Lemma eyeTestBaseTime_range level r :
  unitInterval r = true ->
  valueBetween (fst (baseRange level)) (snd (baseRange level)) (eyeTestBaseTime level r).
Proof.
  intros Hr. assert (P52 : 2 ^ 52 = 4503599627370496) by reflexivity.
  assert (P53 : 2 ^ 53 = 9007199254740992) by reflexivity.
  destruct level; cbn [baseRange fst snd eyeTestBaseTime].
  - apply (add_const_small (lit 250) 250 _ 50 constOf_lit250); try lia.
    apply (mul_unit_constOf r (lit 50) 50 Hr constOf_lit50). lia.
  - apply (add_const_between (lit 250) 250 _ 50 150 constOf_lit250); try lia.
    apply (add_const_small (lit 50) 50 _ 100 constOf_lit50); try lia.
    apply (mul_unit_constOf r (lit 100) 100 Hr constOf_lit100). lia.
  - apply (add_const_between (lit 250) 250 _ 150 300 constOf_lit250); try lia.
    apply (add_const_small (lit 150) 150 _ 150 constOf_lit150); try lia.
    apply (mul_unit_constOf r (lit 150) 150 Hr constOf_lit150). lia.
Qed.

Lemma eyeTest_estimate level avg w :
  fst (EyeTestService.generateMockReactionTime level avg w)
  = JS.round (adjust (pupilAdjustment avg) (eyeTestBaseTime level (nextDraw w))).
Proof.
  unfold EyeTestService.generateMockReactionTime, pupilAdjustment, adjust, eyeTestBaseTime,
    nextDraw.
  destruct level; cbv [bind ret Math_random]; cbn [fst];
    (destruct avg as [a|]; [|reflexivity]);
    destruct (JS.truthy a); try reflexivity;
    destruct (lt a (lit 2.0)); try reflexivity;
    destruct (gt a (lit 3.0)); reflexivity.
Qed.

Lemma adjust_range a base lo hi :
  250 <= lo -> hi <= 550 -> valueBetween lo hi base ->
  valueBetween (lo + amount a) (hi + amount a) (adjust a base).
Proof.
  intros Hlo Hhi Hb. assert (P52 : 2 ^ 52 = 4503599627370496) by reflexivity.
  destruct a; cbn [adjust amount].
  - apply (add_between_const (lit 50) 50 base lo hi constOf_lit50); try lia. exact Hb.
  - apply (sub_between_const (lit 25) 25 base lo hi constOf_lit25); try lia. exact Hb.
  - rewrite !Z.add_0_r. exact Hb.
Qed.

(** ** The estimate of [analysisService.ts] *)

Lemma analysis_estimate level avg w :
  fst (generateMockReactionTime level avg w)
  = max2 (lit 200) (analysisEstimate level avg (nextDraw w)).
Proof.
  unfold generateMockReactionTime, analysisEstimate, nextDraw.
  cbv [bind ret Math_random]. cbn [fst].
  destruct avg as [a|]; [destruct (JS.truthy a)|]; reflexivity.
Qed.

Lemma max2_200_not_below y : lt (max2 (lit 200) y) (lit 200) = false.
Proof.
  unfold max2. destruct (isNaN (lit 200) || isNaN y) eqn:N; [reflexivity|].
  assert (E : match lit 200, y with
              | S754_zero true, S754_zero false => y
              | _, _ => if gt y (lit 200) then y else lit 200
              end = if gt y (lit 200) then y else lit 200) by reflexivity.
  rewrite E. destruct (gt y (lit 200)) eqn:G; [|reflexivity].
  unfold gt in G. pose proof (lt_not_le _ _ G) as H.
  destruct (lt y (lit 200)) eqn:L; [|reflexivity].
  apply lt_le in L. congruence.
Qed.

Lemma binary_round_upper s mx ex A g :
  -2148 <= ex -> -1074 <= g <= 0 -> 0 <= A < 2 ^ 53 ->
  Zpos mx * sc ex <= A * sc g ->
  binary_round prec emax s mx ex = S754_zero s
  \/ exists m e,
       binary_round prec emax s mx ex = S754_finite s m e
       /\ -1074 <= e /\ Zpos m * sc e <= A * sc g.
Proof.
  intros Hex Hg HA U. unfold binary_round. rewrite fexp_eq.
  destruct (shl_align_spec mx ex (Z.max (Zpos (digits2_pos mx) + ex - 53) (-1074)))
    as (mz & ez & E & Hez & Hmz & Hdz).
  rewrite E.
  assert (Hez' : -2148 <= ez) by lia.
  assert (V : Zpos mz * sc ez = Zpos mx * sc ex).
  { rewrite Hmz. replace ex with (ez + (ex - ez)) at 2 by lia.
    rewrite sc_shift by lia. ring. }
  destruct (binary_round_aux_upper s mz ez A g Hez' Hg HA ltac:(rewrite V; exact U))
    as [Z0 | (m & e & Em & He & Um & _)]; [left; exact Z0|].
  right. exists m, e. auto.
Qed.

Lemma half_value :
  exists mh eh,
    lit 0.5 = S754_finite false mh eh /\ -1074 <= eh <= -1 /\ 2 * (Zpos mh * sc eh) = sc 0.
Proof.
  eexists _, _. split; [reflexivity|].
  split; [split; apply Z.leb_le; vm_compute; reflexivity | vm_compute; reflexivity].
Qed.

(** A draw minus 0.5 has magnitude at most 1/2. *)
Lemma sub_unit_half r :
  unitInterval r = true -> magnitudeAtMostHalf (sub r (lit 0.5)).
Proof.
  intros Hr. destruct half_value as (mh & eh & -> & Heh & Hh).
  destruct r as [[]|[]| |[] m e]; try discriminate.
  - change (sub (S754_zero false) (S754_finite false mh eh)) with (S754_finite true mh eh).
    split; lia.
  - destruct (unitInterval_finite m e Hr) as [He Hm].
    unfold sub, SFsub. cbn [cond_Zopp].
    destruct (shl_align_spec m e (Z.min e eh)) as (mx' & ex' & Ex & Hex' & Hmx & _).
    destruct (shl_align_spec mh eh (Z.min e eh)) as (my' & ey' & Ey & Hey' & Hmy & _).
    rewrite Ex, Ey. cbn [fst].
    set (ez := Z.min e eh) in *.
    assert (V : (Zpos mx' - Zpos my') * sc ez = Zpos m * sc e - Zpos mh * sc eh).
    { rewrite Hmx, Hmy.
      replace e with (ez + (e - ez)) at 2 by lia.
      replace eh with (ez + (eh - ez)) at 2 by lia.
      rewrite !sc_shift by lia. replace ex' with ez by lia. replace ey' with ez by lia. ring. }
    assert (S0 : sc 0 = sc (-1) * 2) by reflexivity.
    pose proof (sc_gt0 ez ltac:(lia)) as Hsz.
    pose proof (sc_gt0 e ltac:(lia)) as Hse.
    assert (P53 : 2 ^ 53 = 9007199254740992) by reflexivity.
    destruct (Zpos mx' - Zpos my') as [|d|d] eqn:D; cbn [binary_normalize].
    + exact I.
    + destruct (binary_round_upper false d ez 1 (-1) ltac:(lia) ltac:(lia) ltac:(lia)
                  ltac:(lia)) as [-> | (m' & e' & -> & He' & U)]; [exact I|].
      split; lia.
    + assert (Vn : Zpos d * sc ez = Zpos mh * sc eh - Zpos m * sc e) by lia.
      destruct (binary_round_upper true d ez 1 (-1) ltac:(lia) ltac:(lia) ltac:(lia)
                  ltac:(nia)) as [-> | (m' & e' & -> & He' & U)]; [exact I|].
      split; lia.
Qed.

(** ... and times an even positive constant [2 * H] it has magnitude at most
    [H]. *)
Lemma mul_half_const t c H :
  magnitudeAtMostHalf t -> constOf c (2 * H) -> 0 < H < 2 ^ 52 ->
  magnitudeAtMost H (mul t c).
Proof.
  intros Ht (mc & ec & -> & Hec & Hc) HH.
  destruct t as [s| | |s m e]; try contradiction; [exact I|].
  destruct Ht as [He Hm].
  unfold mul, SFmul. rewrite xorb_false_r.
  assert (V : Zpos (m * mc) * sc (e + ec) = 2 * H * (Zpos m * sc e)).
  { rewrite Pos2Z.inj_mul.
    assert (S1 : sc e = sc (e + ec) * 2 ^ (- ec)).
    { replace e with ((e + ec) + (- ec)) at 1 by lia. apply sc_shift; lia. }
    assert (S2 : sc 0 = sc ec * 2 ^ (- ec)).
    { replace 0 with (ec + (- ec)) at 1 by lia. apply sc_shift; lia. }
    pose proof (sc_gt0 ec ltac:(lia)) as Hsec.
    assert (Zpos mc = 2 * H * 2 ^ (- ec)) by nia.
    rewrite S1. nia. }
  pose proof (sc_gt0 e ltac:(lia)) as Hse.
  assert (P53 : 2 ^ 53 = 2 ^ 52 * 2) by reflexivity.
  destruct (binary_round_aux_upper s (m * mc) (e + ec) H 0 ltac:(lia) ltac:(lia) ltac:(lia)
              ltac:(rewrite V; nia))
    as [-> | (m' & e' & -> & He' & Um & _)]; [exact I|].
  split; assumption.
Qed.

(** A positive constant plus a number of magnitude at most [H]. *)
Lemma add_const_signed c C v H :
  constOf c C -> 0 <= H -> H < C -> C + H < 2 ^ 52 ->
  magnitudeAtMost H v -> valueBetween (C - H) (C + H) (add c v).
Proof.
  intros (mc & ec & -> & Hec & Hc) HH HC HCH Hv.
  pose proof sc0_pos as Hs0.
  destruct v as [s| | |s m e]; try contradiction.
  - change (add (S754_finite false mc ec) (S754_zero s)) with (S754_finite false mc ec).
    apply valueBetween_sc. split; [exact Hec|]. nia.
  - destruct Hv as [He Hm]. pose proof (sc_gt0 e ltac:(lia)) as Hse.
    destruct s.
    + unfold add, SFadd. cbn [cond_Zopp].
      destruct (shl_align_spec mc ec (Z.min ec e)) as (mx' & ex' & Ex & Hex' & Hmx & _).
      destruct (shl_align_spec m e (Z.min ec e)) as (my' & ey' & Ey & Hey' & Hmy & _).
      rewrite Ex, Ey. cbn [fst].
      set (ez := Z.min ec e) in *.
      assert (V : (Zpos mx' + - Zpos my') * sc ez = Zpos mc * sc ec - Zpos m * sc e).
      { rewrite Hmx, Hmy.
        replace ec with (ez + (ec - ez)) at 2 by lia.
        replace e with (ez + (e - ez)) at 2 by lia.
        rewrite !sc_shift by lia. replace ex' with ez by lia. replace ey' with ez by lia. ring. }
      pose proof (sc_gt0 ez ltac:(lia)) as Hsz.
      change (Z.neg my') with (- Zpos my').
      destruct (Zpos mx' + - Zpos my') as [|d|d] eqn:D; [nia | | nia].
      cbn [binary_normalize].
      destruct (binary_round_between false d ez (C - H) (C + H) ltac:(lia) ltac:(lia) HCH
                  ltac:(rewrite V; nia)) as (m' & e' & -> & He' & Hv').
      apply valueBetween_sc. split; assumption.
    + apply add_pos_between; lia.
Qed.

Lemma constOf_base level : constOf (baseReactionTimes level) (baseValue level).
Proof. destruct level; cbn [baseReactionTimes baseValue]; prove_constOf. Qed.

Lemma constOf_lit40 : constOf (lit 40) (2 * 20).
Proof. prove_constOf. Qed.

Lemma integersFrom_all (P : Z -> bool) lo count :
  forallb P (integersFrom lo count) = true ->
  forall n, lo <= n < lo + Z.of_nat count -> P n = true.
Proof.
  intros H n Hn. rewrite forallb_forall in H. apply H.
  unfold integersFrom. apply in_map_iff. exists (Z.to_nat (n - lo)).
  split; [lia|]. apply in_seq. lia.
Qed.

Lemma clamp_above_200 n : 201 <= n <= 600 -> max2 (lit 200) (ofZ n) = ofZ n.
Proof.
  intros Hn.
  pose proof (integersFrom_all
           (fun k => match max2 (lit 200) (ofZ k), ofZ k with
                     | S754_finite s1 m1 e1, S754_finite s2 m2 e2 =>
                         Bool.eqb s1 s2 && Pos.eqb m1 m2 && Z.eqb e1 e2
                     | _, _ => false
                     end) 201 400 ltac:(vm_compute; reflexivity) n ltac:(lia)) as Hc.
  clear Hn. rename Hc into Hn. cbv beta in Hn.
  destruct (max2 (lit 200) (ofZ n)) as [| | |s1 m1 e1]; try discriminate.
  destruct (ofZ n) as [| | |s2 m2 e2]; try discriminate.
  apply andb_prop in Hn. destruct Hn as [Hn He]. apply andb_prop in Hn. destruct Hn as [Hs Hm].
  apply Bool.eqb_prop in Hs. apply Pos.eqb_eq in Hm. apply Z.eqb_eq in He. congruence.
Qed.

(** C9, against the claim as stated.  In [analysisService.ts] an average
    between 2.0 and 3.0 changes the estimate (2.5 adds 25 ms at the same
    level and draw), and in [eyeTestService.ts] an average of 0, though
    below 2.0, adds nothing. *)
Lemma C9_adjustment_differs :
  ~ (forall level a w,
       ge a (lit 2.0) = true -> le a (lit 3.0) = true ->
       fst (generateMockReactionTime level (Some a) w)
       = fst (generateMockReactionTime level None w))
  /\ ~ (forall level a w,
          lt a (lit 2.0) = true ->
          fst (EyeTestService.generateMockReactionTime level (Some a) w)
          = JS.round (add (eyeTestBaseTime level (nextDraw w)) (lit 50))).
Proof.
  split; intros H.
  - specialize (H moderate (lit 2.5) sampleWorld eq_refl eq_refl).
    vm_compute in H. discriminate.
  - specialize (H low zero sampleWorld eq_refl).
    vm_compute in H. discriminate.
Qed.

(** C9 (amended).  For a draw in [0, 1):

    - the eye-test estimate is [Math.round] of the base time after the pupil
      adjustment; the base time lies in the range of the level (low
      250..300, moderate 300..400, high 400..550); the adjustment adds
      exactly 50 when the average is a non-zero number below 2.0, subtracts
      exactly 25 when it is above 3.0 and leaves the base time unchanged
      otherwise (absent, zero, NaN, or between 2.0 and 3.0); the result is
      an integer within the range shifted by the adjustment, hence at least
      225 and never below 200, although this variant has no clamp;

    - the analysis estimate is [Math.max(200, n)], never below 200, where
      [n] rounds the fixed base (280, 350, 450) plus the continuous pupil
      term [(3.0 - avg) * 50] (present when the average is a non-zero
      number) plus the variation [(r - 0.5) * 40]; without a pupil term it
      is an integer within 20 of the base, inside the range of the
      level. *)
Theorem C9_reaction_time :
  (forall level avg w,
      unitInterval (nextDraw w) = true ->
      exists base n,
        valueBetween (fst (baseRange level)) (snd (baseRange level)) base
        /\ fst (EyeTestService.generateMockReactionTime level avg w)
           = JS.round (adjust (pupilAdjustment avg) base)
        /\ fst (EyeTestService.generateMockReactionTime level avg w) = ofZ n
        /\ fst (baseRange level) + amount (pupilAdjustment avg) <= n
           <= snd (baseRange level) + amount (pupilAdjustment avg)
        /\ 200 <= n)
  /\ (forall level avg w,
        fst (generateMockReactionTime level avg w)
        = max2 (lit 200) (analysisEstimate level avg (nextDraw w))
        /\ lt (fst (generateMockReactionTime level avg w)) (lit 200) = false)
  /\ (forall level w,
        unitInterval (nextDraw w) = true ->
        exists n,
          fst (generateMockReactionTime level None w) = ofZ n
          /\ baseValue level - 20 <= n <= baseValue level + 20
          /\ fst (baseRange level) <= n <= snd (baseRange level)).
Proof.
  split; [|split].
  - intros level avg w Hr.
    pose proof (eyeTestBaseTime_range level (nextDraw w) Hr) as Hb.
    assert (Hlo : 250 <= fst (baseRange level)) by (destruct level; cbn; lia).
    assert (Hhi : snd (baseRange level) <= 550) by (destruct level; cbn; lia).
    pose proof (adjust_range (pupilAdjustment avg) _ _ _ Hlo Hhi Hb) as Ha.
    assert (Hamt : -25 <= amount (pupilAdjustment avg)) by (destruct (pupilAdjustment avg); cbn; lia).
    assert (Hpos : 0 < fst (baseRange level) + amount (pupilAdjustment avg)) by lia.
    destruct (round_between _ _ _ Hpos Ha) as (n & En & Hn).
    exists (eyeTestBaseTime level (nextDraw w)), n.
    rewrite eyeTest_estimate. repeat split; try assumption; try lia.
  - intros level avg w. rewrite analysis_estimate.
    split; [reflexivity | apply max2_200_not_below].
  - intros level w Hr. rewrite analysis_estimate.
    assert (P52 : 2 ^ 52 = 4503599627370496) by reflexivity.
    assert (Hv : valueBetween (baseValue level - 20) (baseValue level + 20)
                   (add (baseReactionTimes level) (mul (sub (nextDraw w) (lit 0.5)) (lit 40)))).
    { apply (add_const_signed _ _ _ 20 (constOf_base level)); try (destruct level; cbn; lia).
      apply (mul_half_const _ (lit 40) 20 (sub_unit_half _ Hr) constOf_lit40). lia. }
    assert (Hpos : 0 < baseValue level - 20) by (destruct level; cbn; lia).
    destruct (round_between _ _ _ Hpos Hv) as (n & En & Hn).
    exists n. unfold analysisEstimate. rewrite En.
    split; [apply clamp_above_200; destruct level; cbn in *; lia|].
    split; [exact Hn | destruct level; cbn in *; lia].
Qed.

Lemma C9_reaction_time_witness :
  exists base n,
    valueBetween 250 300 base
    /\ fst (EyeTestService.generateMockReactionTime low (Some (lit 1.5)) sampleWorld)
       = JS.round (add base (lit 50))
    /\ fst (EyeTestService.generateMockReactionTime low (Some (lit 1.5)) sampleWorld) = ofZ n
    /\ 300 <= n <= 350.
Proof.
  destruct (proj1 C9_reaction_time low (Some (lit 1.5)) sampleWorld)
    as (base & n & Hb & E1 & E2 & Hn & _).
  - vm_compute. reflexivity.
  - exists base, n. repeat split; try assumption; apply Hn.
Defined.

(** * Further properties of the parser *)

Lemma parseLine_samples st line :
  st_pupilData (parseLine st line) = st_pupilData st
  \/ exists d, parseRow (trim line) = Some d
               /\ st_pupilData (parseLine st line) = st_pupilData st ++ [d].
Proof.
  unfold parseLine.
  repeat match goal with
         | |- context [if ?b then _ else _] => destruct b
         end; cbn [st_pupilData]; auto.
  destruct (parseRow (trim line)) as [d|]; cbn [st_pupilData]; eauto.
Qed.

Lemma fold_parseLine_samples lines : forall st d,
  In d (st_pupilData (fold_left parseLine lines st)) ->
  In d (st_pupilData st) \/ exists line, In line lines /\ parseRow (trim line) = Some d.
Proof.
  induction lines as [|l ls IH]; intros st d H; cbn [fold_left] in H; [left; exact H|].
  apply IH in H. destruct H as [H|(line & Hin & Hrow)].
  - destruct (parseLine_samples st l) as [E|(d' & Hrow & E)]; rewrite E in H.
    + left; exact H.
    + apply in_app_or in H. destruct H as [H|[H|[]]]; [left; exact H|].
      subst d'. right. exists l. split; [left; reflexivity|exact Hrow].
  - right. exists line. split; [right; exact Hin|exact Hrow].
Qed.

Lemma fold_parseLine_count lines : forall st,
  (List.length (st_pupilData (fold_left parseLine lines st))
   <= List.length (st_pupilData st) + List.length lines)%nat.
Proof.
  induction lines as [|l ls IH]; intros st; cbn [fold_left List.length]; [lia|].
  specialize (IH (parseLine st l)).
  destruct (parseLine_samples st l) as [E|(d' & _ & E)]; rewrite E in IH;
    rewrite ?length_app in IH; cbn [List.length] in IH; lia.
Qed.

Lemma filter_length_le {A} (f : A -> bool) l :
  (List.length (filter f l) <= List.length l)%nat.
Proof. induction l as [|x xs IH]; simpl; [lia|]. destruct (f x); simpl; lia. Qed.

(** X1.  Every sample of a parsed report is the row read from one line of
    the text that contains a comma; its frame and its diameter are numbers
    (not NaN).  There are at most as many samples as lines. *)
Theorem parsed_samples_come_from_rows text :
  (List.length (pupilData (parseResultData text)) <= List.length (split LF text))%nat
  /\ forall d, In d (pupilData (parseResultData text)) ->
       exists line,
         In line (split LF text)
         /\ parseRow (trim line) = Some d
         /\ frame d = parseInt (nth 0 (split "," (trim line)) "")
         /\ diameter d = parseFloat (nth 2 (split "," (trim line)) "")
         /\ isNaN (frame d) = false
         /\ isNaN (diameter d) = false.
Proof.
  unfold parseResultData, parseLines. cbn [pupilData]. split.
  - etransitivity; [apply fold_parseLine_count|]. cbn [initialState st_pupilData List.length].
    apply filter_length_le.
  - intros d H. apply fold_parseLine_samples in H. destruct H as [[]|(line & Hin & Hrow)].
    exists line. apply filter_In in Hin. destruct Hin as [Hin _].
    split; [exact Hin|]. split; [exact Hrow|].
    apply parseRow_accepts in Hrow.
    destruct Hrow as (_ & Nf & Nd & _ & Ef & Ed).
    rewrite Ef, Ed. auto.
Qed.

(** ** Padding of lines *)

Lemma parseLine_trimmed st line : parseLine st line = parseTrimmed st (trim line).
Proof. reflexivity. Qed.

Lemma fold_parseLine_trimmed lines : forall st,
  fold_left parseLine lines st = fold_left parseTrimmed (map trim lines) st.
Proof. induction lines as [|l ls IH]; intros st; simpl; [reflexivity|apply IH]. Qed.

Lemma parseResultData_trimmed text :
  parseResultData text
  = let st := fold_left parseTrimmed (filter Str.truthy (map trim (split LF text)))
                        initialState in
    mkParseResult (st_pupilData st) (trim (st_summary st)).
Proof.
  unfold parseResultData, parseLines. cbv zeta.
  rewrite fold_parseLine_trimmed, filter_map_swap. reflexivity.
Qed.

Lemma trimEnd_snoc c s : isWhiteSpace c = true -> trimEnd (s ++ String c "") = trimEnd s.
Proof.
  intros W. induction s as [|a s IH]; simpl.
  - rewrite W. reflexivity.
  - rewrite IH. reflexivity.
Qed.

Lemma trim_snoc c s : isWhiteSpace c = true -> trim (s ++ String c "") = trim s.
Proof.
  intros W. unfold trim. induction s as [|a s IH]; simpl.
  - rewrite W. reflexivity.
  - destruct (isWhiteSpace a); [exact IH|].
    change (String a (s ++ String c "")) with (String a s ++ String c "")%string.
    apply trimEnd_snoc, W.
Qed.

Lemma split_toCRLF text :
  Forall2 (fun a b => a = b \/ a = (b ++ String CR "")%string)
          (split LF (toCRLF text)) (split LF text).
Proof.
  induction text as [|c r IH]; simpl.
  - constructor; [left; reflexivity|constructor].
  - destruct (Ascii.eqb c LF) eqn:E.
    + cbn [split]. change (Ascii.eqb CR LF) with false. cbn iota.
      change (Ascii.eqb LF LF) with true. cbn iota.
      constructor; [right; reflexivity|exact IH].
    + cbn [split]. rewrite E.
      destruct (split LF (toCRLF r)) as [|h' t'] eqn:E1;
        [exfalso; exact (split_not_nil _ _ E1)|].
      destruct (split LF r) as [|h t] eqn:E2;
        [exfalso; exact (split_not_nil _ _ E2)|].
      apply Forall2_cons_iff in IH. destruct IH as [Hh Ht].
      constructor; [|exact Ht].
      destruct Hh as [->| ->]; [left|right]; reflexivity.
Qed.

Lemma trimmed_lines_toCRLF text :
  map trim (split LF (toCRLF text)) = map trim (split LF text).
Proof.
  pose proof (split_toCRLF text) as H.
  induction H as [|a b la lb Hab _ IH]; simpl; [reflexivity|].
  rewrite IH. f_equal. destruct Hab as [->| ->]; [reflexivity|].
  apply trim_snoc. reflexivity.
Qed.

(** X2.  The parser looks at each line through its trimmed form only: two
    texts whose lines agree after trimming parse to the same result.  In
    particular a report with CRLF line ends parses exactly as the same
    report with LF line ends. *)
Theorem parse_ignores_line_padding :
  (forall t1 t2,
      map trim (split LF t1) = map trim (split LF t2) ->
      parseResultData t1 = parseResultData t2)
  /\ (forall text, parseResultData (toCRLF text) = parseResultData text).
Proof.
  assert (G : forall t1 t2,
             map trim (split LF t1) = map trim (split LF t2) ->
             parseResultData t1 = parseResultData t2).
  { intros t1 t2 H. rewrite !parseResultData_trimmed, H. reflexivity. }
  split; [exact G|].
  intros text. apply G, trimmed_lines_toCRLF.
Qed.

(** ** Composition of reports *)

Lemma string_app_assoc (a b c : string) : ((a ++ b) ++ c = a ++ (b ++ c))%string.
Proof. induction a as [|x a IH]; simpl; [reflexivity|rewrite IH; reflexivity]. Qed.

Lemma string_app_nil_r (a : string) : (a ++ "" = a)%string.
Proof. induction a as [|x a IH]; simpl; [reflexivity|rewrite IH; reflexivity]. Qed.

Lemma split_app_sep sep a b :
  split sep (a ++ String sep b) = split sep a ++ split sep b.
Proof.
  induction a as [|c a IH]; simpl.
  - rewrite Ascii.eqb_refl. reflexivity.
  - destruct (Ascii.eqb c sep); [rewrite IH; reflexivity|].
    rewrite IH. destruct (split sep a) as [|h t] eqn:E; [|reflexivity].
    exfalso. exact (split_not_nil sep a E).
Qed.

Lemma linesOf_app a b : linesOf (a ++ String LF b) = linesOf a ++ linesOf b.
Proof. unfold linesOf. rewrite split_app_sep, filter_app. reflexivity. Qed.

Lemma parseLine_prefixed p q st line :
  parseLine (prefixed p q st) line = prefixed p q (parseLine st line).
Proof.
  unfold parseLine, prefixed. cbn [st_pupilData st_summary inSummarySection inCSVSection].
  repeat match goal with
         | |- context [if ?b then _ else _] => destruct b
         end;
    cbn [st_pupilData st_summary inSummarySection inCSVSection];
    rewrite ?string_app_assoc; try reflexivity.
  destruct (parseRow (trim line));
    cbn [st_pupilData st_summary inSummarySection inCSVSection];
    rewrite ?app_assoc; reflexivity.
Qed.

Lemma fold_parseLine_prefixed p q lines : forall st,
  fold_left parseLine lines (prefixed p q st) = prefixed p q (fold_left parseLine lines st).
Proof.
  induction lines as [|l ls IH]; intros st; simpl; [reflexivity|].
  rewrite parseLine_prefixed. apply IH.
Qed.

Lemma fresh_state_prefixed st :
  inSummarySection st = false -> inCSVSection st = false ->
  st = prefixed (st_pupilData st) (st_summary st) initialState.
Proof.
  destruct st as [p q a b]. cbn. intros -> ->. unfold prefixed. cbn.
  rewrite app_nil_r, string_app_nil_r. reflexivity.
Qed.

(** Lines that neither open the summary block nor are the CSV marker leave
    both flags and the summary text as they are. *)
Lemma plain_lines_keep_flags lines : forall st,
  forallb (fun l => negb (opensSummary l) && negb (isCSVMarker l)) lines = true ->
  inSummarySection st = false ->
  inSummarySection (fold_left parseLine lines st) = false
  /\ inCSVSection (fold_left parseLine lines st) = inCSVSection st
  /\ st_summary (fold_left parseLine lines st) = st_summary st.
Proof.
  induction lines as [|l ls IH]; intros st H S; cbn [fold_left]; [auto|].
  cbn [forallb] in H. apply andb_prop in H. destruct H as [Hl Hls].
  apply andb_prop in Hl. destruct Hl as [H1 H2].
  apply negb_true_iff in H1, H2. unfold opensSummary in H1. unfold isCSVMarker in H2.
  assert (E : inSummarySection (parseLine st l) = false
              /\ inCSVSection (parseLine st l) = inCSVSection st
              /\ st_summary (parseLine st l) = st_summary st).
  { unfold parseLine. rewrite H1, H2, S. cbn [andb].
    repeat match goal with
           | |- context [if ?b then _ else _] => destruct b
           end; auto.
    destruct (parseRow (trim l)); auto. }
  destruct E as (E1 & E2 & E3).
  destruct (IH (parseLine st l) Hls E1) as (I1 & I2 & I3).
  rewrite I1, I2, I3, E2, E3. auto.
Qed.

(** X3.  Reports without summary block concatenate: when no line of the
    first text opens the summary block or is the CSV marker, the text made
    of the first, a line feed and the second parses to the samples of the
    first followed by the samples of the second, with the summary of the
    second. *)
Theorem parse_of_concatenation t1 t2 :
  forallb (fun l => negb (opensSummary l) && negb (isCSVMarker l)) (split LF t1) = true ->
  parseResultData (t1 ++ String LF t2)
  = mkParseResult (pupilData (parseResultData t1) ++ pupilData (parseResultData t2))
                  (summary (parseResultData t2)).
Proof.
  intros H.
  assert (H' : forallb (fun l => negb (opensSummary l) && negb (isCSVMarker l)) (linesOf t1)
               = true).
  { apply forallb_forall. intros l Hl. apply filter_In in Hl.
    rewrite forallb_forall in H. apply H, Hl. }
  unfold parseResultData at 1. fold (linesOf (t1 ++ String LF t2)).
  rewrite linesOf_app. unfold parseLines. rewrite fold_left_app.
  destruct (plain_lines_keep_flags (linesOf t1) initialState H' eq_refl) as (F1 & F2 & F3).
  rewrite (fresh_state_prefixed (fold_left parseLine (linesOf t1) initialState) F1 F2).
  rewrite fold_parseLine_prefixed, F3.
  unfold prefixed. cbn [st_pupilData st_summary initialState].
  reflexivity.
Qed.

Lemma parse_of_concatenation_witness :
  parseResultData ("1,left_eye,2.5" ++ String LF "Processed 2 frames")
  = mkParseResult ([mkPupilData (lit 1) left_eye (lit 2.5)] ++ []) "Processed 2 frames".
Proof.
  apply (parse_of_concatenation "1,left_eye,2.5" "Processed 2 frames").
  vm_compute. reflexivity.
Defined.

(** ** The summary block *)

Lemma summary_line_kept s : opensSummary s = true -> Str.truthy (trim s) = true.
Proof.
  unfold opensSummary. destruct (trim s); [intros H; discriminate H|reflexivity].
Qed.

Lemma parseLine_opens st s :
  opensSummary s = true ->
  st_pupilData (parseLine st s) = st_pupilData st
  /\ inSummarySection (parseLine st s) = true
  /\ inCSVSection (parseLine st s) = inCSVSection st.
Proof. unfold opensSummary, parseLine. intros ->. auto. Qed.

Lemma no_marker_keeps_csv lines : forall st,
  forallb (fun l => negb (isCSVMarker l)) lines = true ->
  inCSVSection (fold_left parseLine lines st) = inCSVSection st.
Proof.
  induction lines as [|l ls IH]; intros st H; cbn [fold_left]; [reflexivity|].
  cbn [forallb] in H. apply andb_prop in H. destruct H as [Hl Hls].
  apply negb_true_iff in Hl. unfold isCSVMarker in Hl.
  rewrite (IH _ Hls). unfold parseLine. rewrite Hl.
  repeat match goal with
         | |- context [if ?b then _ else _] => destruct b
         end; try reflexivity.
  destruct (parseRow (trim l)); reflexivity.
Qed.

Lemma inside_block_no_sample lines : forall st,
  forallb (fun l => negb (isCSVMarker l)) lines = true ->
  inSummarySection st = true -> inCSVSection st = false ->
  st_pupilData (fold_left parseLine lines st) = st_pupilData st.
Proof.
  induction lines as [|l ls IH]; intros st H S C; cbn [fold_left]; [reflexivity|].
  cbn [forallb] in H. apply andb_prop in H. destruct H as [Hl Hls].
  apply negb_true_iff in Hl. unfold isCSVMarker in Hl.
  assert (E : st_pupilData (parseLine st l) = st_pupilData st
              /\ inSummarySection (parseLine st l) = true
              /\ inCSVSection (parseLine st l) = false).
  { unfold parseLine. rewrite Hl, S, C. cbn [andb negb].
    repeat match goal with
           | |- context [if ?b then _ else _] => destruct b
           end; auto. }
  destruct E as (E1 & E2 & E3). rewrite (IH _ Hls E2 E3). exact E1.
Qed.

Lemma no_opening_no_summary lines : forall st,
  forallb (fun l => negb (opensSummary l)) lines = true ->
  inSummarySection st = false ->
  st_summary (fold_left parseLine lines st) = st_summary st.
Proof.
  induction lines as [|l ls IH]; intros st H S; cbn [fold_left]; [reflexivity|].
  cbn [forallb] in H. apply andb_prop in H. destruct H as [Hl Hls].
  apply negb_true_iff in Hl. unfold opensSummary in Hl.
  assert (E : st_summary (parseLine st l) = st_summary st
              /\ inSummarySection (parseLine st l) = false).
  { unfold parseLine. rewrite Hl, S. cbn [andb].
    repeat match goal with
           | |- context [if ?b then _ else _] => destruct b
           end; auto.
    destruct (parseRow (trim l)); auto. }
  destruct E as (E1 & E2). rewrite (IH _ Hls E2). exact E1.
Qed.

Lemma forallb_filter {A} (p f : A -> bool) l :
  forallb p l = true -> forallb p (filter f l) = true.
Proof.
  rewrite !forallb_forall. intros H x Hx. apply filter_In in Hx. apply H, Hx.
Qed.

(** X4.  Rows between a line that contains both ["Processed"] and
    ["frames"] and the ["--- CSV Data ---"] marker are never read: when the
    text has no such marker, everything after the first such line adds no
    sample.  And the returned summary is empty unless some line opens the
    summary block. *)
Theorem summary_block_hides_rows :
  (forall t1 s t2,
      allChars (fun c => negb (Ascii.eqb c LF)) s = true ->
      opensSummary s = true ->
      forallb (fun l => negb (isCSVMarker l)) (split LF t1) = true ->
      forallb (fun l => negb (isCSVMarker l)) (split LF t2) = true ->
      pupilData (parseResultData (t1 ++ String LF (s ++ String LF t2)))
      = pupilData (parseResultData t1))
  /\ (forall text,
        forallb (fun l => negb (opensSummary l)) (split LF text) = true ->
        summary (parseResultData text) = "").
Proof.
  split.
  - intros t1 s t2 Hs Ho H1 H2.
    unfold parseResultData. cbn [pupilData]. fold (linesOf (t1 ++ String LF (s ++ String LF t2))).
    fold (linesOf t1).
    rewrite !linesOf_app. unfold parseLines. rewrite !fold_left_app.
    assert (Ls : linesOf s = [s]).
    { unfold linesOf. rewrite (split_no_sep LF s Hs). cbn [filter].
      rewrite (summary_line_kept s Ho). reflexivity. }
    rewrite Ls. cbn [fold_left].
    set (st1 := fold_left parseLine (linesOf t1) initialState).
    assert (C1 : inCSVSection st1 = false).
    { unfold st1. rewrite no_marker_keeps_csv; [reflexivity|].
      apply forallb_filter, H1. }
    destruct (parseLine_opens st1 s Ho) as (P1 & P2 & P3).
    rewrite inside_block_no_sample;
      [exact P1 | apply forallb_filter, H2 | exact P2 | rewrite P3; exact C1].
  - intros text H. unfold parseResultData, parseLines. cbn [summary].
    rewrite no_opening_no_summary; [reflexivity| |reflexivity].
    apply forallb_filter, H.
Qed.

Lemma summary_block_hides_rows_witness :
  pupilData (parseResultData
               ("1,left_eye,2.5" ++ String LF ("Processed 2 frames" ++ String LF "2,left_eye,2.6")))
  = pupilData (parseResultData "1,left_eye,2.5")
  /\ summary (parseResultData "1,left_eye,2.5") = "".
Proof.
  split.
  - apply (proj1 summary_block_hides_rows); vm_compute; reflexivity.
  - apply (proj2 summary_block_hides_rows). vm_compute. reflexivity.
Defined.

(** ** Texts without a readable row *)

Lemma split_allChars p sep s :
  allChars p s = true -> Forall (fun l => allChars p l = true) (split sep s).
Proof.
  induction s as [|c r IH]; simpl; intros H.
  - constructor; [reflexivity|constructor].
  - apply andb_prop in H. destruct H as [Hc Hr]. specialize (IH Hr).
    destruct (Ascii.eqb c sep).
    + constructor; [reflexivity|exact IH].
    + destruct (split sep r) as [|h t]; [constructor; [simpl; rewrite Hc; reflexivity|constructor]|].
      apply Forall_cons_iff in IH. destruct IH as [Hh Ht].
      constructor; [simpl; rewrite Hc, Hh; reflexivity|exact Ht].
Qed.

Lemma trimStart_allChars p s : allChars p s = true -> allChars p (trimStart s) = true.
Proof.
  induction s as [|c r IH]; simpl; intros H; [reflexivity|].
  apply andb_prop in H. destruct H as [Hc Hr].
  destruct (isWhiteSpace c); [apply IH, Hr|]. simpl. rewrite Hc, Hr. reflexivity.
Qed.

Lemma trimEnd_allChars p s : allChars p s = true -> allChars p (trimEnd s) = true.
Proof.
  induction s as [|c r IH]; simpl; intros H; [reflexivity|].
  apply andb_prop in H. destruct H as [Hc Hr]. specialize (IH Hr).
  destruct (trimEnd r) as [|c' r'].
  - destruct (isWhiteSpace c); simpl; [reflexivity|rewrite Hc; reflexivity].
  - change (allChars p (String c (String c' r')) = true). simpl.
    simpl in IH. rewrite Hc, IH. reflexivity.
Qed.

Lemma trim_allChars p s : allChars p s = true -> allChars p (trim s) = true.
Proof. intros H. apply trimEnd_allChars, trimStart_allChars, H. Qed.

Lemma parseLine_no_row st line :
  includes (trim line) "," = false \/ parseRow (trim line) = None ->
  st_pupilData (parseLine st line) = st_pupilData st.
Proof.
  intros H. unfold parseLine.
  repeat match goal with
         | |- context [if ?b then _ else _] => destruct b eqn:?
         end; try reflexivity.
  destruct H as [H|H]; [congruence|]. rewrite H. reflexivity.
Qed.

Lemma fold_parseLine_no_row lines : forall st,
  Forall (fun line => includes (trim line) "," = false \/ parseRow (trim line) = None) lines ->
  st_pupilData (fold_left parseLine lines st) = st_pupilData st.
Proof.
  induction lines as [|l ls IH]; intros st H; cbn [fold_left]; [reflexivity|].
  apply Forall_cons_iff in H. destruct H as [Hl Hls].
  rewrite (IH _ Hls). apply parseLine_no_row, Hl.
Qed.

Lemma Forall_filter {A} (P : A -> Prop) (f : A -> bool) l :
  Forall P l -> Forall P (filter f l).
Proof.
  rewrite !Forall_forall. intros H x Hx. apply filter_In in Hx. apply H, Hx.
Qed.

Lemma no_row_no_sample text :
  Forall (fun line => includes (trim line) "," = false \/ parseRow (trim line) = None)
         (split LF text) ->
  pupilData (parseResultData text) = [].
Proof.
  intros H. unfold parseResultData, parseLines. cbn [pupilData].
  rewrite fold_parseLine_no_row; [reflexivity|]. apply Forall_filter, H.
Qed.

Lemma empty_parse_fails text url md st w :
  pupilData (parseResultData text) = [] ->
  processAndSaveAnalysis text url md st w = (mkResult false None (Some noValidData) None, w).
Proof. intros H. unfold processAndSaveAnalysis. rewrite H. reflexivity. Qed.

(** X5.  A text without a comma holds no sample, whatever else it holds;
    handed to the pipeline it gives the failure
    ["No valid pupil data found in results"] and nothing is written, drawn
    or read from the clock. *)
Theorem text_without_comma_is_rejected text url md st w :
  allChars (fun c => negb (Ascii.eqb c ",")) text = true ->
  pupilData (parseResultData text) = []
  /\ processAndSaveAnalysis text url md st w
     = (mkResult false None (Some noValidData) None, w).
Proof.
  intros H.
  assert (E : pupilData (parseResultData text) = []).
  { apply no_row_no_sample.
    pose proof (split_allChars _ LF text H) as F.
    rewrite Forall_forall in F. apply Forall_forall. intros line Hl. left.
    apply includes_absent, trim_allChars, F, Hl. }
  split; [exact E|apply empty_parse_fails, E].
Qed.

Lemma text_without_comma_is_rejected_witness :
  pupilData (parseResultData "Left Eye: Mean 2.40 mm") = []
  /\ processAndSaveAnalysis "Left Eye: Mean 2.40 mm" None None None sampleWorld
     = (mkResult false None (Some noValidData) None, sampleWorld).
Proof.
  apply (text_without_comma_is_rejected "Left Eye: Mean 2.40 mm" None None None sampleWorld).
  vm_compute. reflexivity.
Defined.

(** ** Stringified results *)

Lemma parseInt_bad_head c r :
  isWhiteSpace c = false -> Ascii.eqb c "-" = false -> Ascii.eqb c "+" = false ->
  digitIn 10 c = None ->
  parseInt (String c r) = NaN.
Proof.
  intros W M P D. unfold parseInt. cbn [trimStart]. rewrite W.
  unfold takeSign. rewrite M, P.
  assert (X : String.prefix "0x" (String c r) || String.prefix "0X" (String c r) = false).
  { rewrite !prefix_cons. destruct (ascii_dec "0" c) as [<-|_]; [discriminate D|reflexivity]. }
  rewrite X. cbn [spanDigits]. rewrite D. reflexivity.
Qed.

Lemma split_head sep c r :
  Ascii.eqb c sep = false -> exists h t, split sep (String c r) = String c h :: t.
Proof.
  intros E. cbn [split]. rewrite E.
  destruct (split sep r) as [|h t]; eauto.
Qed.

Lemma parseRow_bad_head c x :
  isWhiteSpace c = false -> Ascii.eqb c "-" = false -> Ascii.eqb c "+" = false ->
  digitIn 10 c = None -> Ascii.eqb c "," = false ->
  parseRow (String c x) = None.
Proof.
  intros W M P D C. unfold parseRow.
  destruct (split_head "," c x C) as (h & t & ->). cbn [nth].
  rewrite (parseInt_bad_head c h W M P D). cbn [isNaN negb andb].
  destruct (3 <=? _)%nat; [|reflexivity].
  destruct (recognizedEye _); reflexivity.
Qed.

Lemma trim_head c r : isWhiteSpace c = false -> exists x, trim (String c r) = String c x.
Proof.
  intros W. unfold trim. cbn [trimStart]. rewrite W. cbn [trimEnd].
  destruct (trimEnd r); [rewrite W|]; eauto.
Qed.

Lemma quoteChar_no_LF c : allChars (fun a => negb (Ascii.eqb a LF)) (quoteChar c) = true.
Proof. ascii_cases c. Qed.

Lemma quoteBody_no_LF s : allChars (fun a => negb (Ascii.eqb a LF)) (quoteBody s) = true.
Proof.
  induction s as [|c r IH]; [reflexivity|].
  cbn [quoteBody]. rewrite allChars_app, quoteChar_no_LF, IH. reflexivity.
Qed.

Lemma JSON_stringify_one_line s : split LF (JSON_stringify s) = [JSON_stringify s].
Proof.
  apply split_no_sep. unfold JSON_stringify. cbn [allChars].
  rewrite allChars_app, quoteBody_no_LF. reflexivity.
Qed.

(** X6.  When the analysis screen has results to hand over (a non-empty
    string), the text it passes to the pipeline is their JSON quotation: a
    single line that starts with a double quote.  No sample is read from
    such a text, whatever rows the results hold, so the pipeline answers
    with the failure ["No valid pupil data found in results"] and writes
    nothing. *)
Theorem stringified_results_are_rejected summary results url md st w :
  Str.truthy results = true ->
  resultTextOf summary (Some results) = JSON_stringify results
  /\ split LF (JSON_stringify results) = [JSON_stringify results]
  /\ pupilData (parseResultData (resultTextOf summary (Some results))) = []
  /\ processAndSaveAnalysis (resultTextOf summary (Some results)) url md st w
     = (mkResult false None (Some noValidData) None, w).
Proof.
  intros T.
  assert (E : resultTextOf summary (Some results) = JSON_stringify results).
  { unfold resultTextOf. rewrite T. reflexivity. }
  assert (P : pupilData (parseResultData (JSON_stringify results)) = []).
  { apply no_row_no_sample. rewrite JSON_stringify_one_line.
    constructor; [|constructor]. right.
    unfold JSON_stringify.
    destruct (trim_head DQUOTE (quoteBody results ++ String DQUOTE "") eq_refl) as (x & ->).
    apply parseRow_bad_head; reflexivity. }
  rewrite E. repeat split.
  - apply JSON_stringify_one_line.
  - exact P.
  - apply empty_parse_fails, P.
Qed.

Lemma stringified_results_are_rejected_witness :
  let results := ("0,left_eye,2.3" ++ String LF "1,left_eye,2.4")%string in
  List.length (pupilData (parseResultData results)) = 2%nat
  /\ resultTextOf None (Some results)
     = String DQUOTE ("0,left_eye,2.3\n1,left_eye,2.4" ++ String DQUOTE "")
  /\ pupilData (parseResultData (resultTextOf None (Some results))) = [].
Proof.
  cbv zeta. split; [vm_compute; reflexivity|].
  split; [vm_compute; reflexivity|].
  apply (stringified_results_are_rejected None
           ("0,left_eye,2.3" ++ String LF "1,left_eye,2.4")%string None None None sampleWorld).
  reflexivity.
Defined.

(** ** Fields after the third *)

Lemma trimEnd_keeps_prefix a c b :
  isWhiteSpace c = false -> exists x, trimEnd (a ++ String c b) = (a ++ String c x)%string.
Proof.
  intros W. induction a as [|a0 a IH]; cbn [String.append trimEnd].
  - destruct (trimEnd b) as [|b0 b']; [rewrite W|]; eauto.
  - destruct IH as (x & ->). exists x.
    destruct a; reflexivity.
Qed.

Lemma parseRow_first_three t t' a b c rest rest' :
  split "," t = a :: b :: c :: rest ->
  split "," t' = a :: b :: c :: rest' ->
  parseRow t = parseRow t'.
Proof. unfold parseRow. intros -> ->. reflexivity. Qed.

Lemma rowLine_head r :
  wellFormedRow r = true ->
  exists c x, rowLine r = String c x /\ isDigit c = true.
Proof.
  intros H. unfold wellFormedRow in H.
  apply andb_prop in H. destruct H as [H _]. apply andb_prop in H. destruct H as [Hf _].
  unfold digitString in Hf. apply andb_prop in Hf. destruct Hf as [Hn Hd].
  unfold rowLine. destruct (frameField r) as [|c f]; [discriminate|].
  cbn in Hd. apply andb_prop in Hd. destruct Hd as [Hc _].
  exists c. eexists. split; [reflexivity|exact Hc].
Qed.

(** X18.  Fields after the third are ignored: a well-formed row followed
    by a comma and anything else on the same line gives the same sample as
    the row alone, provided the line does not contain both ["Processed"]
    and ["frames"] and the parser is not inside the summary block. *)
Theorem extra_fields_are_ignored st r extra :
  wellFormedRow r = true ->
  opensSummary (rowLine r ++ String "," extra) = false ->
  inSummarySection st && negb (inCSVSection st) = false ->
  parseRow (trim (rowLine r ++ String "," extra)) = Some (rowSample r)
  /\ parseLine st (rowLine r ++ String "," extra) = pushSample st (rowSample r).
Proof.
  intros Hr Ho Hst.
  destruct (rowLine_head r Hr) as (c & x & Ec & Hc).
  destruct (digit_facts c Hc) as (Wc & _).
  assert (T : exists y, trim (rowLine r ++ String "," extra)
                        = (rowLine r ++ String "," y)%string).
  { unfold trim. rewrite Ec. cbn [String.append trimStart]. rewrite Wc.
    change (String c (x ++ String "," extra)) with (String c x ++ String "," extra)%string.
    apply trimEnd_keeps_prefix. reflexivity. }
  destruct T as (y & T).
  assert (P : parseRow (trim (rowLine r ++ String "," extra)) = Some (rowSample r)).
  { rewrite T. rewrite <- (parseRow_wellFormed r Hr).
    apply (parseRow_first_three _ _ (frameField r) (eyeField r) (diameterField r)
                                (split "," y) []).
    - rewrite split_app_sep, (split_rowLine r Hr). reflexivity.
    - apply split_rowLine, Hr. }
  split; [exact P|].
  rewrite parseLine_row; [rewrite P; reflexivity|].
  unfold reachesRowBranch. unfold opensSummary in Ho. rewrite Ho, Hst. cbn [negb andb].
  rewrite T, Ec.
  assert (N1 : (String c x ++ String "," y =? "--- CSV Data ---")%string = false).
  { cbn [String.append String.eqb]. destruct (Ascii.eqb c "-") eqn:E; [|reflexivity].
    apply Ascii.eqb_eq in E. subst c. discriminate Hc. }
  assert (N2 : (String c x ++ String "," y =? "Frame,Eye_Type,Diameter_mm")%string = false).
  { cbn [String.append String.eqb]. destruct (Ascii.eqb c "F") eqn:E; [|reflexivity].
    apply Ascii.eqb_eq in E. subst c. discriminate Hc. }
  rewrite N1, N2. cbn [negb andb].
  change (String c x ++ String "," y)%string with ((String c x) ++ String "," y)%string.
  apply includes_present.
Qed.

Lemma extra_fields_are_ignored_witness :
  parseLine initialState "9,Left,2.75,extra, fields"
  = pushSample initialState (mkPupilData (lit 9) left_eye (lit 2.75)).
Proof.
  apply (extra_fields_are_ignored initialState (mkRow "9" "Left" "2.75") "extra, fields");
    reflexivity.
Defined.

(** ** A report in full *)

Lemma linesOf_reportOf rows :
  forallb wellFormedRow rows = true -> linesOf (reportOf rows) = map rowLine rows.
Proof.
  intros H. destruct rows as [|r0 rows0]; [reflexivity|].
  set (rows := r0 :: rows0) in *.
  unfold linesOf, reportOf.
  assert (S : split LF (join LF (map rowLine rows)) = map rowLine rows).
  { apply split_join; [discriminate|].
    apply Forall_forall. intros l Hl. apply in_map_iff in Hl. destruct Hl as (r & <- & Hr).
    apply (allChars_mono _ _ _ plain_not_LF). apply rowLine_plain.
    exact (proj1 (forallb_forall _ _) H r Hr). }
  rewrite S. apply filter_all. apply forallb_forall. intros l Hl.
  apply in_map_iff in Hl. destruct Hl as (r & <- & Hr).
  apply rowLine_kept. exact (proj1 (forallb_forall _ _) H r Hr).
Qed.

Lemma inside_block_state lines : forall st,
  forallb (fun l => negb (isCSVMarker l)) lines = true ->
  inSummarySection st = true -> inCSVSection st = false ->
  st_pupilData (fold_left parseLine lines st) = st_pupilData st
  /\ inSummarySection (fold_left parseLine lines st) = true
  /\ inCSVSection (fold_left parseLine lines st) = false.
Proof.
  induction lines as [|l ls IH]; intros st H S C; cbn [fold_left]; [auto|].
  cbn [forallb] in H. apply andb_prop in H. destruct H as [Hl Hls].
  apply negb_true_iff in Hl. unfold isCSVMarker in Hl.
  assert (E : st_pupilData (parseLine st l) = st_pupilData st
              /\ inSummarySection (parseLine st l) = true
              /\ inCSVSection (parseLine st l) = false).
  { unfold parseLine. rewrite Hl, S, C. cbn [andb negb].
    repeat match goal with
           | |- context [if ?b then _ else _] => destruct b
           end; auto. }
  destruct E as (E1 & E2 & E3).
  destruct (IH _ Hls E2 E3) as (I1 & I2 & I3). rewrite I1, I2, I3. auto.
Qed.

(** X22.  A report laid out like the bundled sample (direct rows, then a
    line that opens the summary block, the block, the CSV marker, the
    header and the rows of the CSV section) parses to the direct rows
    followed by the rows of the CSV section: both groups are kept, in this
    order, rows that occur in both are kept twice, and nothing of the
    summary block becomes a sample. *)
Theorem full_report_keeps_both_groups direct opening block csv :
  forallb wellFormedRow direct = true ->
  forallb wellFormedRow csv = true ->
  allChars (fun c => negb (Ascii.eqb c LF)) opening = true ->
  opensSummary opening = true ->
  forallb (fun l => negb (isCSVMarker l)) (split LF block) = true ->
  pupilData (parseResultData (fullReport direct opening block csv))
  = map rowSample direct ++ map rowSample csv.
Proof.
  intros Hd Hc Ho1 Ho2 Hb.
  unfold parseResultData, fullReport. cbn [pupilData].
  fold (linesOf (reportOf direct ++ String LF
                   (opening ++ String LF
                      (block ++ String LF
                         ("--- CSV Data ---" ++ String LF
                            ("Frame,Eye_Type,Diameter_mm" ++ String LF (reportOf csv))))))).
  rewrite !linesOf_app, !linesOf_reportOf by assumption.
  assert (Lo : linesOf opening = [opening]).
  { unfold linesOf. rewrite (split_no_sep LF opening Ho1). cbn [filter].
    rewrite (summary_line_kept opening Ho2). reflexivity. }
  rewrite Lo.
  change (linesOf "--- CSV Data ---") with ["--- CSV Data ---"].
  change (linesOf "Frame,Eye_Type,Diameter_mm") with ["Frame,Eye_Type,Diameter_mm"].
  unfold parseLines. rewrite !fold_left_app.
  rewrite (parseLines_wellFormed direct initialState Hd eq_refl).
  cbn [initialState st_pupilData st_summary inSummarySection inCSVSection app].
  set (st1 := mkParseState (map rowSample direct) "" false false).
  cbn [fold_left].
  destruct (parseLine_opens st1 opening Ho2) as (P1 & P2 & P3).
  destruct (inside_block_state (linesOf block) (parseLine st1 opening)
              (forallb_filter _ _ _ Hb) P2 P3) as (B1 & B2 & B3).
  set (st3 := fold_left parseLine (linesOf block) (parseLine st1 opening)) in *.
  assert (M : parseLine st3 "--- CSV Data ---"
              = mkParseState (st_pupilData st3) (st_summary st3) (inSummarySection st3) true)
    by reflexivity.
  rewrite M.
  set (st4 := mkParseState (st_pupilData st3) (st_summary st3) (inSummarySection st3) true).
  assert (Hh : parseLine st4 "Frame,Eye_Type,Diameter_mm" = st4) by reflexivity.
  rewrite Hh.
  rewrite (parseLines_wellFormed csv st4 Hc);
    [|cbn [st4 inSummarySection inCSVSection]; apply andb_false_r].
  cbn [st_pupilData st4]. rewrite B1, P1. reflexivity.
Qed.

Lemma full_report_keeps_both_groups_witness :
  pupilData (parseResultData
               (fullReport [mkRow "37" "left_eye" "2.30"] "Processed 255 frames"
                           ("Left Eye:" ++ String LF "  Mean: 2.40 mm")
                           [mkRow "0" "left_eye" "2.35"; mkRow "37" "left_eye" "2.30"]))
  = [mkPupilData (lit 37) left_eye (lit 2.30)]
    ++ [mkPupilData zero left_eye (lit 2.35); mkPupilData (lit 37) left_eye (lit 2.30)].
Proof.
  apply (full_report_keeps_both_groups
           [mkRow "37" "left_eye" "2.30"] "Processed 255 frames"
           ("Left Eye:" ++ String LF "  Mean: 2.40 mm")
           [mkRow "0" "left_eye" "2.35"; mkRow "37" "left_eye" "2.30"]);
    vm_compute; reflexivity.
Defined.

(** * Further properties of the classifier *)

Lemma add_comm (x y : number) : add x y = add y x.
Proof.
  destruct x as [[]|[]| |sx mx ex], y as [[]|[]| |sy my ey]; try reflexivity.
  unfold add, SFadd. rewrite (Z.min_comm ex ey), Z.add_comm. reflexivity.
Qed.

Lemma sum_of_two_means (a b : number) : add (add zero a) b = add (add zero b) a.
Proof.
  rewrite (add_comm (add zero b) a).
  destruct a as [[]|[]| |sx mx ex], b as [[]|[]| |sy my ey]; reflexivity.
Qed.

(** X7.  The fatigue level does not depend on which statistics are given as
    the left eye and which as the right eye. *)
Theorem classifier_is_symmetric leftStats rightStats :
  determineFatigueLevel leftStats rightStats = determineFatigueLevel rightStats leftStats.
Proof.
  destruct leftStats as [l|], rightStats as [r|]; try reflexivity.
  unfold determineFatigueLevel. cbv zeta. cbn iota.
  rewrite (sum_of_two_means (mean l) (mean r)). reflexivity.
Qed.

(** X8.  The copy of the classifier in the test script leaves out an eye
    whose mean is not above 0 and answers [moderate] when no eye is left;
    it agrees with the classifier of the service whenever every statistics
    object given has a mean above 0. *)
Theorem test_script_classifier_skips_empty_eyes :
  (forall l r, eligible l -> eligible r ->
     TestScript.determineFatigueLevel l r = determineFatigueLevel l r)
  /\ (forall s r, gt (mean s) zero = false ->
        TestScript.determineFatigueLevel (Some s) r
        = TestScript.determineFatigueLevel None r)
  /\ (forall l s, gt (mean s) zero = false ->
        TestScript.determineFatigueLevel l (Some s)
        = TestScript.determineFatigueLevel l None)
  /\ (forall l r,
        match l with Some s => gt (mean s) zero = false | None => True end ->
        match r with Some s => gt (mean s) zero = false | None => True end ->
        TestScript.determineFatigueLevel l r = moderate)
  /\ TestScript.determineFatigueLevel (Some zeroStats) (Some (statsWithMean (lit 3))) = low
  /\ determineFatigueLevel (Some zeroStats) (Some (statsWithMean (lit 3))) = high.
Proof.
  split; [|split; [|split; [|split; [|split; reflexivity]]]].
  - intros [l|] [r|] Hl Hr; cbn [eligible] in Hl, Hr;
      unfold TestScript.determineFatigueLevel, determineFatigueLevel;
      rewrite ?Hl, ?Hr; reflexivity.
  - intros s [r|] H; unfold TestScript.determineFatigueLevel; rewrite H; [|reflexivity].
    destruct (gt (mean r) zero); reflexivity.
  - intros [l|] s H; unfold TestScript.determineFatigueLevel; rewrite H; [|reflexivity].
    destruct (gt (mean l) zero); reflexivity.
  - intros [l|] [r|] Hl Hr; unfold TestScript.determineFatigueLevel;
      rewrite ?Hl, ?Hr; reflexivity.
Qed.

Lemma test_script_classifier_skips_empty_eyes_witness :
  TestScript.determineFatigueLevel (Some (statsWithMean (lit 2.4))) (Some (statsWithMean (lit 2.5)))
  = determineFatigueLevel (Some (statsWithMean (lit 2.4))) (Some (statsWithMean (lit 2.5)))
  /\ TestScript.determineFatigueLevel (Some zeroStats) (Some (statsWithMean (lit 2.5)))
     = TestScript.determineFatigueLevel None (Some (statsWithMean (lit 2.5))).
Proof.
  split.
  - apply (proj1 test_script_classifier_skips_empty_eyes); reflexivity.
  - apply (proj1 (proj2 test_script_classifier_skips_empty_eyes)). reflexivity.
Defined.

(** * Further properties of the pipeline *)

Lemma eyeTest_run text url md tt td st w :
  pupilData (parseResultData text) <> [] ->
  exists rt pattern focus contrast,
    let d := assembledEyeTest text url md tt td st rt pattern focus contrast in
    EyeTestService.processEyeTestResult text url md tt td st w
    = (match setError w (List.length (writes w)) with
       | None => EyeTestService.mkResult true (Some d) None
       | Some message => EyeTestService.mkResult false None (Some message)
       end,
       worldAfter w 4 1 [mkWrite eyeTestPath (clock w (ticks w)) (EyeTestDoc d)]).
Proof.
  intros Hne. unfold EyeTestService.processEyeTestResult, assembledEyeTest.
  destruct (pupilData (parseResultData text)) as [|p ps] eqn:Hp; [congruence|].
  set (pd := p :: ps).
  set (lv := determineFatigueLevel _ _).
  destruct (EyeTestService.calculateBlinkStats pd td) as [bc br] eqn:Eb.
  cbn [fst snd].
  destruct lv;
    cbv [bind ret Math_random Date_now set saveEyeTestResult
         EyeTestService.generateMockReactionTime EyeTestService.generateEyeMovementPattern
         EyeTestService.generateFocusAccuracy];
    cbn [draws randoms clock ticks toISOString setError writes];
    do 4 eexists; unfold worldAfter; cbv zeta;
    destruct (setError w (List.length (writes w)));
    cbn [save_success save_error]; reflexivity.
Qed.

Lemma analysis_run text url md st w :
  pupilData (parseResultData text) <> [] ->
  exists rt' pattern focus contrast,
    let samples := pupilData (parseResultData text) in
    let leftEyeStats := calculateEyeStats samples left_eye in
    let rightEyeStats := calculateEyeStats samples right_eye in
    let rt := fst (generateMockReactionTime
                     (determineFatigueLevel (Some leftEyeStats) (Some rightEyeStats))
                     (averagePupilSize leftEyeStats rightEyeStats) w) in
    let d := assembledRecord text url md st rt in
    let d' := assembledEyeTest text url (Some (eyeTestMetadata md)) pupil_analysis (lit 30) st
                               rt' pattern focus contrast in
    processAndSaveAnalysis text url md st w
    = (match setError w (List.length (writes w)) with
       | None => mkResult true (Some d) None (Some (accepted w (S (List.length (writes w)))))
       | Some message => mkResult false None (Some message) None
       end,
       worldAfter w 5 2
         [mkWrite analysesPath (clock w (ticks w)) (AnalysisDoc d);
          mkWrite eyeTestPath (clock w (S (ticks w))) (EyeTestDoc d')]).
Proof.
  intros Hne. unfold processAndSaveAnalysis, assembledRecord. cbv zeta.
  destruct (pupilData (parseResultData text)) as [|p ps] eqn:Hp; [congruence|].
  set (pd := p :: ps).
  set (lv := determineFatigueLevel _ _).
  set (avg := averagePupilSize _ _).
  cbv [bind].
  pose proof (generateMockReactionTime_world lv avg w) as W1.
  destruct (generateMockReactionTime lv avg w) as [rt w1]. simpl in W1. subst w1.
  cbn [fst].
  cbv [saveAnalysisResult bind ret Date_now set].
  cbn [clock ticks setError writes randoms draws toISOString].
  assert (L : forall a : StoreWrite, List.length (writes w ++ [a]) = S (List.length (writes w)))
    by (intros a; rewrite length_app; cbn [List.length]; apply Nat.add_1_r).
  destruct (setError w (List.length (writes w))) eqn:Es; cbv beta iota;
    match goal with
    | |- context [EyeTestService.processEyeTestResult text url ?m ?tt ?td st ?w2] =>
        destruct (eyeTest_run text url m tt td st w2) as (rt' & pattern & focus & contrast & E);
        [rewrite Hp; discriminate|];
        exists rt', pattern, focus, contrast
    end;
    cbv zeta in E; cbv zeta; rewrite E; fold (eyeTestMetadata md); unfold worldAfter, accepted;
    cbn [clock ticks setError writes randoms draws toISOString Nat.add];
    rewrite <- app_assoc; cbn [app]; rewrite L;
    destruct (setError w (S (List.length (writes w))));
    cbn [save_success save_error EyeTestService.success]; reflexivity.
Qed.







(** ** Frame count *)

Lemma parsed_frames_noNaN text : noNaN (map frame (pupilData (parseResultData text))).
Proof.
  intros x Hx. apply in_map_iff in Hx. destruct Hx as (d & <- & Hd).
  unfold parseResultData, parseLines in Hd. cbn [pupilData] in Hd.
  apply fold_parseLine_samples in Hd. destruct Hd as [[]|(line & _ & Hrow)].
  apply parseRow_accepts in Hrow. destruct Hrow as (_ & Nf & _ & _ & Ef & _).
  rewrite Ef. exact Nf.
Qed.

(** X11.  The frame count of an assembled record is one more than the
    largest frame number among the samples, not the number of samples or of
    frames read. *)
Theorem frame_count_is_last_frame_plus_one text url md st rt :
  pupilData (parseResultData text) <> [] ->
  exists d,
    In d (pupilData (parseResultData text))
    /\ AnalysisData.frameCount (assembledRecord text url md st rt) = add (frame d) (lit 1)
    /\ forall d', In d' (pupilData (parseResultData text)) -> le (frame d') (frame d) = true.
Proof.
  intros Hne.
  destruct (Math_max_literal (map frame (pupilData (parseResultData text)))) as [Hin Hmax].
  - intros E. apply map_eq_nil in E. exact (Hne E).
  - apply parsed_frames_noNaN.
  - apply in_map_iff in Hin. destruct Hin as (d & Ed & Hd).
    exists d. split; [exact Hd|]. split.
    + unfold assembledRecord. cbn [AnalysisData.frameCount]. unfold computeFrameCount.
      rewrite Ed. reflexivity.
    + intros d' Hd'. rewrite Ed. apply Hmax, in_map, Hd'.
Qed.

Lemma frame_count_is_last_frame_plus_one_witness :
  let text := ("7,left_eye,2.5" ++ String LF "100,left_eye,2.5")%string in
  List.length (pupilData (parseResultData text)) = 2%nat
  /\ AnalysisData.frameCount (assembledRecord text None None None (lit 300)) = lit 101
  /\ exists d,
       In d (pupilData (parseResultData text))
       /\ AnalysisData.frameCount (assembledRecord text None None None (lit 300))
          = add (frame d) (lit 1).
Proof.
  cbv zeta. split; [vm_compute; reflexivity|]. split; [vm_compute; reflexivity|].
  destruct (frame_count_is_last_frame_plus_one
              ("7,left_eye,2.5" ++ String LF "100,left_eye,2.5") None None None (lit 300))
    as (d & Hd & Hc & _); [vm_compute; discriminate|].
  exists d. split; [exact Hd|exact Hc].
Defined.

(** ** Recommendations *)




(** ** The eye-test service on its own *)



(** * Chart and dashboard *)

(** X12.  For an analysis that carries the statistics of an assembled
    record (each eye present when its mean is above 0), the diameter plotted
    by the chart is the average pupil size the pipeline used for the
    reaction-time estimate, and 0 when the pipeline had none. *)
Theorem chart_average_matches_pipeline (analysis : Chart.Analysis) (l r : EyeStats) :
  Chart.leftEyeStats analysis = presentStats l ->
  Chart.rightEyeStats analysis = presentStats r ->
  Chart.averagePupilDiameter analysis
  = match averagePupilSize l r with
    | Some avg => avg
    | None => zero
    end.
Proof.
  intros Hl Hr. unfold Chart.averagePupilDiameter, averagePupilSize, presentStats in *.
  rewrite Hl, Hr.
  destruct (gt (mean l) zero) eqn:El; destruct (gt (mean r) zero) eqn:Er;
    rewrite ?El, ?Er; reflexivity.
Qed.

Lemma chart_average_matches_pipeline_witness :
  let l := calculateEyeStats (pupilData (parseResultData "0,right_eye,3.0")) left_eye in
  let r := calculateEyeStats (pupilData (parseResultData "0,right_eye,3.0")) right_eye in
  averagePupilSize l r = Some (lit 3)
  /\ Chart.averagePupilDiameter
       (Chart.mkAnalysis "1700000000000" 1700000000000 "2025-01-01"
          (presentStats l) (presentStats r) (Some (lit 300)))
     = match averagePupilSize l r with
       | Some avg => avg
       | None => zero
       end.
Proof.
  cbv zeta. split; [vm_compute; reflexivity|].
  apply (chart_average_matches_pipeline
           (Chart.mkAnalysis "1700000000000" 1700000000000 "2025-01-01"
              (presentStats (calculateEyeStats (pupilData (parseResultData "0,right_eye,3.0"))
                                               left_eye))
              (presentStats (calculateEyeStats (pupilData (parseResultData "0,right_eye,3.0"))
                                               right_eye))
              (Some (lit 300))));
    reflexivity.
Defined.

(** ** A day without usable statistics *)

Lemma binary_round_lower s mx ex A g :
  -2148 <= ex -> -1074 <= g -> 0 < A < 2 ^ 53 ->
  A * sc g <= Zpos mx * sc ex ->
  binary_round prec emax s mx ex = S754_infinity s
  \/ exists m e,
       binary_round prec emax s mx ex = S754_finite s m e
       /\ -1074 <= e /\ A * sc g <= Zpos m * sc e.
Proof.
  intros Hex Hg HA U. unfold binary_round. rewrite fexp_eq.
  destruct (shl_align_spec mx ex (Z.max (Zpos (digits2_pos mx) + ex - 53) (-1074)))
    as (mz & ez & E & Hez & Hmz & Hdz).
  rewrite E.
  assert (Hez' : -2148 <= ez) by lia.
  assert (V : Zpos mz * sc ez = Zpos mx * sc ex).
  { rewrite Hmz. replace ex with (ez + (ex - ez)) at 2 by lia.
    rewrite sc_shift by lia. ring. }
  apply binary_round_aux_lower; try assumption. rewrite V. exact U.
Qed.

Lemma ofNat_positive k :
  (1 <= k)%nat ->
  ofNat k = S754_infinity false \/ exists m e, ofNat k = S754_finite false m e.
Proof.
  intros Hk. unfold ofNat, ofZ.
  destruct (Z.of_nat k) as [|p|p] eqn:E; try lia.
  cbn [binary_normalize].
  destruct (binary_round_lower false p 0 1 0) as [I|(m & e & F & _)];
    try lia; [|left; exact I|right; eauto].
  pose proof sc0_pos. nia.
Qed.

Lemma div_zero_count k : (1 <= k)%nat -> div zero (ofNat k) = zero.
Proof.
  intros Hk. destruct (ofNat_positive k Hk) as [->|(m & e & ->)]; reflexivity.
Qed.

Lemma sum_of_zeros k : fold_left add (repeat zero k) zero = zero.
Proof. induction k as [|k IH]; [reflexivity|exact IH]. Qed.

Lemma squares_of_zeros k :
  fold_left (fun sum val => add sum (pow2 (sub val zero))) (repeat zero k) zero = zero.
Proof. induction k as [|k IH]; [reflexivity|exact IH]. Qed.

Lemma firstn_repeat {A} (x : A) k n : (k <= n)%nat -> firstn k (repeat x n) = repeat x k.
Proof.
  revert n. induction k as [|k IH]; intros n H; [reflexivity|].
  destruct n as [|n]; [lia|]. cbn. rewrite IH by lia. reflexivity.
Qed.

Lemma skipn_repeat {A} (x : A) k n : skipn k (repeat x n) = repeat x (n - k).
Proof.
  revert n. induction k as [|k IH]; intros n; [rewrite Nat.sub_0_r; reflexivity|].
  destruct n as [|n]; [reflexivity|]. cbn. apply IH.
Qed.

Lemma zero_series_is_stable data :
  (2 <= List.length data)%nat ->
  map pupilDiameter data = repeat zero (List.length data) ->
  trend (generateConclusions data) = stable.
Proof.
  intros Hn Hz. rewrite generateConclusions_trend. cbv zeta.
  rewrite Hz, repeat_length.
  set (n := List.length data) in *.
  pose proof (ceilHalf_spec n) as Hc.
  destruct (n <? 2)%nat eqn:L; [apply Nat.ltb_lt in L; lia|].
  rewrite firstn_repeat, skipn_repeat by lia.
  rewrite !repeat_length.
  change (fun sum val : number => add sum val) with add.
  rewrite !sum_of_zeros.
  rewrite !div_zero_count by lia.
  rewrite squares_of_zeros, div_zero_count by lia.
  reflexivity.
Qed.

Lemma chartData_diameters f analyses : forall w,
  map pupilDiameter (fst (Chart.chartData f analyses w))
  = map Chart.averagePupilDiameter analyses.
Proof.
  induction analyses as [|a rest IH]; intros w; [reflexivity|].
  cbn [Chart.chartData]. unfold bind at 1.
  destruct (Chart.chartPoint f a w) as [p w1] eqn:Ep.
  unfold bind at 1. specialize (IH w1).
  destruct (Chart.chartData f rest w1) as [ps w2]. cbn [ret fst map] in *.
  rewrite IH. f_equal.
  unfold Chart.chartPoint, bind in Ep.
  destruct (Chart.reactionTime a) as [rt|]; [destruct (JS.truthy rt)|];
    cbn [ret Math_random] in Ep; inversion Ep; reflexivity.
Qed.

Lemma no_usable_stats_zero a :
  match Chart.leftEyeStats a with Some s => gt (mean s) zero = false | None => True end ->
  match Chart.rightEyeStats a with Some s => gt (mean s) zero = false | None => True end ->
  Chart.averagePupilDiameter a = zero.
Proof.
  unfold Chart.averagePupilDiameter.
  destruct (Chart.leftEyeStats a) as [l|]; destruct (Chart.rightEyeStats a) as [r|];
    intros Hl Hr; rewrite ?Hl, ?Hr; reflexivity.
Qed.

(** X13.  When none of the day's analyses (two or more) has statistics
    with a mean above 0, every plotted diameter is 0 and the trend shown is
    [stable]. *)
Theorem day_without_statistics_is_stable toLocaleTimeString analyses w :
  (2 <= List.length analyses)%nat ->
  Forall (fun a =>
            match Chart.leftEyeStats a with Some s => gt (mean s) zero = false | None => True end
            /\ match Chart.rightEyeStats a with Some s => gt (mean s) zero = false | None => True end)
         analyses ->
  map pupilDiameter (fst (Chart.chartData toLocaleTimeString analyses w))
  = repeat zero (List.length analyses)
  /\ trend (generateConclusions (fst (Chart.chartData toLocaleTimeString analyses w))) = stable.
Proof.
  intros Hn Hall.
  assert (Z : map pupilDiameter (fst (Chart.chartData toLocaleTimeString analyses w))
              = repeat zero (List.length analyses)).
  { rewrite chartData_diameters. clear Hn.
    induction Hall as [|a rest [Hl Hr] _ IH]; [reflexivity|].
    cbn [map List.length repeat]. rewrite IH, (no_usable_stats_zero a Hl Hr). reflexivity. }
  split; [exact Z|].
  assert (Len : List.length (fst (Chart.chartData toLocaleTimeString analyses w))
                = List.length analyses).
  { rewrite <- (length_map pupilDiameter), Z, repeat_length. reflexivity. }
  apply zero_series_is_stable; rewrite Len; [exact Hn|exact Z].
Qed.

Lemma day_without_statistics_is_stable_witness :
  let a := Chart.mkAnalysis "1" 1 "2025-01-01" None (Some zeroStats) None in
  let b := Chart.mkAnalysis "2" 2 "2025-01-01" None None (Some (lit 300)) in
  trend (generateConclusions (fst (Chart.chartData (fun _ => "09:00") [a; b] sampleWorld)))
  = stable.
Proof.
  cbv zeta.
  apply (day_without_statistics_is_stable (fun _ => "09:00")
           [Chart.mkAnalysis "1" 1 "2025-01-01" None (Some zeroStats) None;
            Chart.mkAnalysis "2" 2 "2025-01-01" None None (Some (lit 300))] sampleWorld).
  - cbn. lia.
  - repeat constructor.
Defined.

(** ** Pattern recommendation *)

Lemma fold_without_focus eyeTests : forall acc,
  Forall withoutFocus eyeTests ->
  fold_left
    (fun '(avgFocusAccuracy, focusCount) eyeTest =>
       match EyeTestData.focusAccuracy eyeTest with
       | Some fa =>
           if JS.truthy fa then (add avgFocusAccuracy fa, S focusCount)
           else (avgFocusAccuracy, focusCount)
       | None => (avgFocusAccuracy, focusCount)
       end)
    eyeTests acc = acc.
Proof.
  induction eyeTests as [|e es IH]; intros [a c] H; [reflexivity|].
  apply Forall_cons_iff in H. destruct H as [He Hes]. cbn [fold_left].
  unfold withoutFocus in He.
  destruct (EyeTestData.focusAccuracy e) as [fa|]; [rewrite He|]; apply IH, Hes.
Qed.

Lemma fold_without_pupil analyses : forall acc,
  Forall withoutPupil analyses ->
  fold_left
    (fun '(avgPupilSize, pupilCount) analysis =>
       let leftMean := Dashboard.meanOrZero (Dashboard.leftEyeStats analysis) in
       let rightMean := Dashboard.meanOrZero (Dashboard.rightEyeStats analysis) in
       if gt leftMean zero || gt rightMean zero
       then (add avgPupilSize (div (add leftMean rightMean) (lit 2)), S pupilCount)
       else (avgPupilSize, pupilCount))
    analyses acc = acc.
Proof.
  induction analyses as [|a rest IH]; intros [s c] H; [reflexivity|].
  apply Forall_cons_iff in H. destruct H as [[Hl Hr] Hrest]. cbn [fold_left].
  cbv zeta. rewrite Hl, Hr. apply IH, Hrest.
Qed.

(** X14.  The pattern recommendation of the dashboard is "Building Your
    Profile" below three assessments.  From three assessments on it is
    "Potential Fatigue Detected" whenever none of the last three eye tests
    has a focus accuracy, in particular when there is no eye test at all,
    whatever the pupil sizes of the analyses are; and likewise when none of
    the last three analyses has a mean above 0. *)
Theorem pattern_recommendation_needs_both_kinds analyses eyeTests :
  ((List.length analyses + List.length eyeTests < 3)%nat ->
   Dashboard.title (Dashboard.getDataPatternRecommendation analyses eyeTests)
   = "Building Your Profile")
  /\ ((3 <= List.length analyses + List.length eyeTests)%nat ->
      Forall withoutFocus (Dashboard.lastThree eyeTests) ->
      Dashboard.getDataPatternRecommendation analyses eyeTests = potentialFatigue)
  /\ ((3 <= List.length analyses + List.length eyeTests)%nat ->
      Forall withoutPupil (Dashboard.lastThree analyses) ->
      Dashboard.getDataPatternRecommendation analyses eyeTests = potentialFatigue).
Proof.
  unfold Dashboard.getDataPatternRecommendation. cbv zeta.
  split; [|split].
  - intros H. apply Nat.ltb_lt in H. rewrite H. reflexivity.
  - intros H F. apply Nat.ltb_ge in H. rewrite H.
    rewrite (fold_without_focus _ (zero, 0%nat) F).
    destruct (fold_left _ (Dashboard.lastThree analyses) (zero, 0%nat)) as [s c].
    cbn [Nat.ltb Nat.leb].
    change (lt zero (lit 70)) with true. rewrite orb_true_r. reflexivity.
  - intros H F. apply Nat.ltb_ge in H. rewrite H.
    pose proof (fold_without_pupil _ (zero, 0%nat) F) as E. cbv zeta in E. rewrite E.
    destruct (fold_left _ (Dashboard.lastThree eyeTests) (zero, 0%nat)) as [s c].
    cbn [Nat.ltb Nat.leb].
    change (lt zero (lit 2.2)) with true. reflexivity.
Qed.

Lemma pattern_recommendation_needs_both_kinds_witness :
  let a := Dashboard.mkAnalysis "1" 1 "2025-01-01"
             (Some (statsWithMean (lit 3.1))) (Some (statsWithMean (lit 3.2))) None (Some low) in
  Dashboard.getDataPatternRecommendation [a; a; a] [] = potentialFatigue
  /\ Dashboard.title (Dashboard.getDataPatternRecommendation [a; a] []) = "Building Your Profile".
Proof.
  cbv zeta. split.
  - apply (proj1 (proj2 (pattern_recommendation_needs_both_kinds _ []))).
    + cbn. lia.
    + constructor.
  - apply (proj1 (pattern_recommendation_needs_both_kinds _ [])). cbn. lia.
Defined.

(** ** Reaction time on the chart *)







(** ** The analyses of the day *)

Lemma insertSorted_permutation {A} (compare : A -> A -> Z) a l :
  Permutation (Chart.insertSorted compare a l) (a :: l).
Proof.
  induction l as [|b rest IH]; cbn [Chart.insertSorted]; [reflexivity|].
  destruct (compare a b <=? 0); [reflexivity|].
  rewrite IH. apply perm_swap.
Qed.

Lemma Array_sort_permutation {A} (compare : A -> A -> Z) l :
  Permutation (Chart.Array_sort compare l) l.
Proof.
  induction l as [|a rest IH]; cbn; [reflexivity|].
  rewrite insertSorted_permutation. constructor. exact IH.
Qed.

Lemma insertSorted_by_timestamp a l :
  Sorted (fun x y => Chart.timestamp x <= Chart.timestamp y) l ->
  Sorted (fun x y => Chart.timestamp x <= Chart.timestamp y)
         (Chart.insertSorted (fun x y => Chart.timestamp x - Chart.timestamp y) a l).
Proof.
  intros H. induction H as [|b rest Hs IH Hh]; cbn [Chart.insertSorted].
  - repeat constructor.
  - destruct (Chart.timestamp a - Chart.timestamp b <=? 0) eqn:E.
    + apply Z.leb_le in E. constructor; [constructor; assumption|constructor; lia].
    + apply Z.leb_gt in E. constructor; [exact IH|].
      destruct rest as [|c rest']; cbn [Chart.insertSorted].
      * constructor. lia.
      * destruct (Chart.timestamp a - Chart.timestamp c <=? 0); constructor; [lia|].
        inversion Hh; assumption.
Qed.

Lemma insertSorted_same_timestamp a l t :
  filter (fun x => Chart.timestamp x =? t)
         (Chart.insertSorted (fun x y => Chart.timestamp x - Chart.timestamp y) a l)
  = filter (fun x => Chart.timestamp x =? t) (a :: l).
Proof.
  induction l as [|b rest IH]; cbn [Chart.insertSorted]; [reflexivity|].
  destruct (Chart.timestamp a - Chart.timestamp b <=? 0) eqn:E; [reflexivity|].
  apply Z.leb_gt in E. cbn [filter] in *. rewrite IH.
  destruct (Chart.timestamp a =? t) eqn:Ea; [|reflexivity].
  apply Z.eqb_eq in Ea.
  assert (Eb : (Chart.timestamp b =? t) = false) by (apply Z.eqb_neq; lia).
  rewrite Eb. reflexivity.
Qed.

(** X24.  The analyses the chart works on are exactly those dated today
    (the date part of the clock reading in ISO form), in ascending order of
    their time stamps; analyses with the same time stamp keep the order in
    which they were given. *)
Theorem today_analyses_in_time_order analyses w :
  let today := nth 0 (split "T" (toISOString w (clock w (ticks w)))) "" in
  let ofToday := filter (fun a => (Chart.date a =? today)%string) analyses in
  let result := fst (Chart.todayAnalyses analyses w) in
  StronglySorted (fun a b => Chart.timestamp a <= Chart.timestamp b) result
  /\ Permutation result ofToday
  /\ (forall a, In a result <-> In a analyses /\ Chart.date a = today)
  /\ (forall t, filter (fun a => Chart.timestamp a =? t) result
                = filter (fun a => Chart.timestamp a =? t) ofToday).
Proof.
  cbv zeta.
  set (today := nth 0 (split "T" (toISOString w (clock w (ticks w)))) "").
  set (ofToday := filter (fun a => (Chart.date a =? today)%string) analyses).
  assert (E : fst (Chart.todayAnalyses analyses w)
              = Chart.Array_sort (fun a b => Chart.timestamp a - Chart.timestamp b) ofToday)
    by reflexivity.
  rewrite E. clear E.
  split; [|split; [|split]].
  - apply Sorted_StronglySorted; [intros x y z; lia|].
    induction ofToday as [|a rest IH]; cbn; [constructor|].
    apply insertSorted_by_timestamp, IH.
  - apply Array_sort_permutation.
  - intros a. split.
    + intros H. apply (Permutation_in _ (Array_sort_permutation _ ofToday)) in H.
      unfold ofToday in H. apply filter_In in H. destruct H as [H1 H2].
      apply String.eqb_eq in H2. auto.
    + intros [H1 H2].
      apply (Permutation_in _ (Permutation_sym (Array_sort_permutation _ ofToday))).
      unfold ofToday. apply filter_In. split; [exact H1|]. apply String.eqb_eq, H2.
  - intros t. induction ofToday as [|a rest IH]; [reflexivity|].
    change (Chart.Array_sort (fun a0 b => Chart.timestamp a0 - Chart.timestamp b) (a :: rest))
      with (Chart.insertSorted (fun a0 b => Chart.timestamp a0 - Chart.timestamp b) a
              (Chart.Array_sort (fun a0 b => Chart.timestamp a0 - Chart.timestamp b) rest)).
    rewrite insertSorted_same_timestamp. cbn [filter]. rewrite IH. reflexivity.
Qed.

(** * Eye-test metrics *)

Lemma constOf_lit90 : constOf (lit 90) 90.
Proof. prove_constOf. Qed.
Lemma constOf_lit75 : constOf (lit 75) 75.
Proof. prove_constOf. Qed.
Lemma constOf_lit60 : constOf (lit 60) 60.
Proof. prove_constOf. Qed.
Lemma constOf_lit10 : constOf (lit 10) 10.
Proof. prove_constOf. Qed.
Lemma constOf_lit15 : constOf (lit 15) 15.
Proof. prove_constOf. Qed.

Lemma focusAccuracy_value level w :
  fst (EyeTestService.generateFocusAccuracy level w)
  = JS.round match level with
             | low => add (lit 90) (mul (nextDraw w) (lit 10))
             | moderate => add (lit 75) (mul (nextDraw w) (lit 15))
             | high => add (lit 60) (mul (nextDraw w) (lit 15))
             end.
Proof. destruct level; reflexivity. Qed.

Lemma focusAccuracy_range level r :
  unitInterval r = true ->
  valueBetween (fst (focusRange level)) (snd (focusRange level))
    match level with
    | low => add (lit 90) (mul r (lit 10))
    | moderate => add (lit 75) (mul r (lit 15))
    | high => add (lit 60) (mul r (lit 15))
    end.
Proof.
  intros Hr. destruct level; cbn [focusRange fst snd].
  - apply (add_const_small (lit 90) 90 _ 10 constOf_lit90); try lia.
    apply (mul_unit_constOf r (lit 10) 10 Hr constOf_lit10). lia.
  - apply (add_const_small (lit 75) 75 _ 15 constOf_lit75); try lia.
    apply (mul_unit_constOf r (lit 15) 15 Hr constOf_lit15). lia.
  - apply (add_const_small (lit 60) 60 _ 15 constOf_lit60); try lia.
    apply (mul_unit_constOf r (lit 15) 15 Hr constOf_lit15). lia.
Qed.

(** ** The index of the eye-movement pattern *)

Lemma unitInterval_canonical m e :
  unitInterval (S754_finite false m e) = true ->
  -1074 <= e < 0 /\ Zpos m < 2 ^ 53 /\ Zpos m < 2 ^ (- e).
Proof.
  unfold unitInterval. intros H.
  apply andb_prop in H. destruct H as [H Hm]. apply andb_prop in H. destruct H as [Hv He].
  apply Z.ltb_lt in Hm, He.
  unfold valid_binary, bounded, canonical_mantissa in Hv.
  apply andb_prop in Hv. destruct Hv as [Hc _]. apply Z.eqb_eq in Hc. rewrite fexp_eq in Hc.
  split; [lia|]. split; [|exact Hm].
  pose proof (digits2_bounds m) as [_ D].
  assert (Zpos (digits2_pos m) <= 53) by lia.
  assert (2 ^ Zpos (digits2_pos m) <= 2 ^ 53) by (apply Z.pow_le_mono_r; lia).
  lia.
Qed.

Lemma mul_finite_upper m e mc ec C A g :
  -1074 <= e -> -1074 <= ec <= 0 -> 0 <= C -> Zpos mc * sc ec = C * sc 0 ->
  -1074 <= g <= 0 -> 0 <= A < 2 ^ 53 ->
  C * (Zpos m * sc e) <= A * sc g ->
  mul (S754_finite false m e) (S754_finite false mc ec) = S754_zero false
  \/ exists m' e',
       mul (S754_finite false m e) (S754_finite false mc ec) = S754_finite false m' e'
       /\ -1074 <= e' /\ Zpos m' * sc e' <= A * sc g.
Proof.
  intros He Hec HC Hc Hg HA U.
  unfold mul, SFmul. cbn [xorb].
  assert (V : Zpos (m * mc) * sc (e + ec) = C * (Zpos m * sc e)).
  { rewrite Pos2Z.inj_mul.
    assert (S1 : sc e = sc (e + ec) * 2 ^ (- ec)).
    { replace e with ((e + ec) + (- ec)) at 1 by lia. apply sc_shift; lia. }
    assert (S2 : sc 0 = sc ec * 2 ^ (- ec)).
    { replace 0 with (ec + (- ec)) at 1 by lia. apply sc_shift; lia. }
    pose proof (sc_gt0 ec ltac:(lia)) as Hsec.
    assert (Zpos mc = C * 2 ^ (- ec)) by nia.
    rewrite S1. nia. }
  destruct (binary_round_aux_upper false (m * mc) (e + ec) A g ltac:(lia) Hg HA
              ltac:(rewrite V; exact U))
    as [Z0 | (m' & e' & Em & He' & Um & _)].
  - left. exact Z0.
  - right. exists m', e'. auto.
Qed.

(** A draw in [0, 1) times a count of 3 or 4 stays below the count, also
    after rounding. *)
Lemma draw_times_count r k :
  unitInterval r = true -> (k = 3 \/ k = 4)%nat ->
  mul r (ofNat k) = S754_zero false
  \/ exists m' e',
       mul r (ofNat k) = S754_finite false m' e'
       /\ -1074 <= e' /\ Zpos m' * sc e' < Z.of_nat k * sc 0.
Proof.
  intros Hr Hk.
  destruct r as [[]|[]| |[] m e]; try discriminate; [left; destruct Hk as [->| ->]; reflexivity|].
  destruct (unitInterval_canonical m e Hr) as (He & Hm53 & Hm).
  pose proof sc0_pos as H0.
  assert (E3 : ofNat 3 = S754_finite false 6755399441055744 (-51)) by (vm_compute; reflexivity).
  assert (E4 : ofNat 4 = S754_finite false 4503599627370496 (-50)) by (vm_compute; reflexivity).
  assert (C3 : 6755399441055744 * sc (-51) = 3 * sc 0) by (vm_compute; reflexivity).
  assert (C4 : 4503599627370496 * sc (-50) = 4 * sc 0) by (vm_compute; reflexivity).
  assert (P53 : 2 ^ 53 = 9007199254740992) by reflexivity.
  destruct (Z_lt_le_dec e (-53)) as [Lo|Hi].
  - (* below 1/2 *)
    assert (S1 : sc (-54) = sc e * 2 ^ (-54 - e)).
    { replace (-54) with (e + (-54 - e)) at 1 by lia. apply sc_shift; lia. }
    assert (S2 : sc 0 = sc (-54) * 2 ^ 54).
    { replace 0 with (-54 + 54) at 1 by lia. apply sc_shift; lia. }
    assert (K : 1 <= 2 ^ (-54 - e)) by (pose proof (pow2_gt0 (-54 - e) ltac:(lia)); lia).
    pose proof (sc_gt0 e ltac:(lia)) as Hse.
    assert (B : 4 * (Zpos m * sc e) <= 2 * sc 0).
    { rewrite S2, S1. change (2 ^ 54) with (2 * 2 ^ 53). nia. }
    destruct Hk as [->| ->].
    + rewrite E3.
      destruct (mul_finite_upper m e 6755399441055744 (-51) 3 2 0) as [Z|(m' & e' & F & He' & U)];
        try lia; [left; exact Z|].
      right. exists m', e'. split; [exact F|]. split; [exact He'|]. cbn [Z.of_nat Pos.of_succ_nat Pos.succ]. lia.
    + rewrite E4.
      destruct (mul_finite_upper m e 4503599627370496 (-50) 4 2 0) as [Z|(m' & e' & F & He' & U)];
        try lia; [left; exact Z|].
      right. exists m', e'. split; [exact F|]. split; [exact He'|]. cbn [Z.of_nat Pos.of_succ_nat Pos.succ]. lia.
  - (* a multiple of 2^-53 *)
    set (u := sc (-53)).
    assert (Hu : 0 < u) by (apply sc_gt0; lia).
    assert (S1 : sc e = u * 2 ^ (e + 53)).
    { replace e with (-53 + (e + 53)) at 1 by lia. apply sc_shift; lia. }
    assert (S2 : sc 0 = u * 2 ^ 53).
    { replace 0 with (-53 + 53) at 1 by lia. apply sc_shift; lia. }
    assert (S3 : sc (-51) = u * 4).
    { replace (-51) with (-53 + 2) by lia. unfold u. rewrite sc_shift by lia. reflexivity. }
    set (R := Zpos m * 2 ^ (e + 53)).
    assert (HR : Zpos m * sc e = R * u) by (rewrite S1; unfold R; ring).
    assert (Rlt : R < 2 ^ 53).
    { unfold R.
      assert (2 ^ (- e) * 2 ^ (e + 53) = 2 ^ 53).
      { rewrite <- Z.pow_add_r by lia. f_equal. lia. }
      pose proof (pow2_gt0 (e + 53) ltac:(lia)). nia. }
    destruct Hk as [->| ->].
    + rewrite E3.
      destruct (Z_lt_le_dec R (2 ^ 53 - 1)) as [Rs|Rtop].
      * destruct (mul_finite_upper m e 6755399441055744 (-51) 3 (3 * 2 ^ 51 - 1) (-51))
          as [Z|(m' & e' & F & He' & U)]; try lia.
        { rewrite HR, S3. change (2 ^ 51) with 2251799813685248.
          rewrite P53 in Rs. nia. }
        { left; exact Z. }
        right. exists m', e'. split; [exact F|]. split; [exact He'|].
        cbn [Z.of_nat Pos.of_succ_nat Pos.succ].
        rewrite S3 in U. rewrite S2. change (2 ^ 51) with 2251799813685248 in U.
        rewrite P53. nia.
      * assert (Ee : e = -53).
        { destruct (Z.eq_dec e (-53)) as [|Ne]; [assumption|exfalso].
          assert (X : 2 ^ (e + 53) = 2 * 2 ^ (e + 52)).
          { replace (e + 53) with (1 + (e + 52)) by lia. rewrite Z.pow_add_r by lia. reflexivity. }
          unfold R in Rtop, Rlt. rewrite X in Rtop, Rlt. rewrite P53 in Rtop, Rlt.
          set (Y := Zpos m * 2 ^ (e + 52)) in *.
          assert (Zpos m * (2 * 2 ^ (e + 52)) = 2 * Y) by (unfold Y; ring).
          lia. }
        subst e.
        assert (Em : m = 9007199254740991%positive).
        { unfold R in Rtop, Rlt. change (2 ^ (-53 + 53)) with 1 in Rtop, Rlt.
          rewrite P53 in Rtop, Rlt. lia. }
        subst m. right. eexists _, _. split; [vm_compute; reflexivity|].
        split; [apply Z.leb_le; vm_compute; reflexivity|apply Z.ltb_lt; vm_compute; reflexivity].
    + rewrite E4.
      destruct (mul_finite_upper m e 4503599627370496 (-50) 4 (2 ^ 53 - 1) (-51))
        as [Z|(m' & e' & F & He' & U)]; try lia.
      { rewrite HR, S3. rewrite P53 in *. nia. }
      { left; exact Z. }
      right. exists m', e'. split; [exact F|]. split; [exact He'|].
      cbn [Z.of_nat Pos.of_succ_nat Pos.succ].
      rewrite S3 in U. rewrite S2. rewrite P53 in *. nia.
Qed.

Lemma index_below x k :
  (1 <= k <= 4)%nat ->
  (x = S754_zero false
   \/ exists m e, x = S754_finite false m e /\ -1074 <= e
                  /\ Zpos m * sc e < Z.of_nat k * sc 0) ->
  exists i, EyeTestService.toIndex (JS.floor x) = Some i /\ (i < k)%nat.
Proof.
  intros Hk [->|(m & e & -> & He & U)]; [exists 0%nat; split; [reflexivity|lia]|].
  pose proof sc0_pos as H0.
  unfold JS.floor. destruct (0 <=? e) eqn:E.
  - apply Z.leb_le in E. cbn [EyeTestService.toIndex]. rewrite (proj2 (Z.leb_le 0 e) E).
    eexists. split; [reflexivity|].
    assert (S0 : sc e = sc 0 * 2 ^ e).
    { replace e with (0 + e) at 1 by lia. apply sc_shift; lia. }
    pose proof (pow2_gt0 e E).
    assert (Zpos m * 2 ^ e < Z.of_nat k) by (rewrite S0 in U; nia).
    lia.
  - apply Z.leb_gt in E. cbn [cond_Zopp].
    set (K := 2 ^ (- e)).
    assert (HK : 0 < K) by (apply pow2_gt0; lia).
    assert (S0 : sc 0 = sc e * K).
    { replace 0 with (e + (- e)) at 1 by lia. apply sc_shift; lia. }
    pose proof (sc_gt0 e ltac:(lia)) as Hse.
    set (q := Zpos m / K).
    assert (Hq : 0 <= q) by (apply Z.div_pos; lia).
    assert (Hq' : q * K <= Zpos m) by (unfold q; rewrite Z.mul_comm; apply Z.mul_div_le; lia).
    assert (Hlt : q < Z.of_nat k) by (rewrite S0 in U; nia).
    assert (Q : q = 0 \/ q = 1 \/ q = 2 \/ q = 3) by lia.
    destruct Q as [Q|[Q|[Q|Q]]]; rewrite Q in *;
      [exists 0%nat|exists 1%nat|exists 2%nat|exists 3%nat];
      (split; [vm_compute; reflexivity|lia]).
Qed.

Lemma pattern_value level w :
  fst (EyeTestService.generateEyeMovementPattern level w)
  = match EyeTestService.toIndex
            (JS.floor (mul (nextDraw w)
                           (ofNat (List.length (EyeTestService.patterns level))))) with
    | Some i => nth_error (EyeTestService.patterns level) i
    | None => None
    end.
Proof. reflexivity. Qed.

(** X15.  For every fatigue level and every draw in [0, 1): the focus
    accuracy is an integer within the range of the level (90 to 100 for
    low, 75 to 90 for moderate, 60 to 75 for high), and the eye-movement
    pattern is always defined and is one of the patterns listed for the
    level (the computed index never runs past the list). *)
Theorem eye_test_metrics_in_range :
  (forall level w,
      unitInterval (nextDraw w) = true ->
      exists n,
        fst (EyeTestService.generateFocusAccuracy level w) = ofZ n
        /\ fst (focusRange level) <= n <= snd (focusRange level))
  /\ (forall level w,
        unitInterval (nextDraw w) = true ->
        exists p,
          fst (EyeTestService.generateEyeMovementPattern level w) = Some p
          /\ In p (EyeTestService.patterns level))
  /\ fst (EyeTestService.generateEyeMovementPattern low
            (mkWorld (fun _ => largestDraw) 0 (fun _ => 0) 0 (fun _ => "") (fun _ => None) []))
     = Some "coordinated".
Proof.
  split; [|split; [|vm_compute; reflexivity]].
  - intros level w Hr. rewrite focusAccuracy_value.
    apply round_between; [destruct level; cbn; lia|].
    apply focusAccuracy_range, Hr.
  - intros level w Hr. rewrite pattern_value.
    set (k := List.length (EyeTestService.patterns level)).
    assert (Hk : (k = 3 \/ k = 4)%nat) by (destruct level; cbn; auto).
    destruct (index_below (mul (nextDraw w) (ofNat k)) k ltac:(lia)
                (draw_times_count (nextDraw w) k Hr Hk)) as (i & -> & Hi).
    destruct (nth_error (EyeTestService.patterns level) i) as [p|] eqn:E.
    + exists p. split; [reflexivity|]. apply nth_error_In in E. exact E.
    + apply nth_error_None in E. fold k in E. lia.
Qed.

Lemma eye_test_metrics_in_range_witness :
  (exists n, fst (EyeTestService.generateFocusAccuracy moderate sampleWorld) = ofZ n
             /\ 75 <= n <= 90)
  /\ exists p, fst (EyeTestService.generateEyeMovementPattern high sampleWorld) = Some p
               /\ In p ["irregular"; "uncoordinated"; "significant tremor"; "delayed"].
Proof.
  split.
  - apply (proj1 eye_test_metrics_in_range moderate sampleWorld). reflexivity.
  - apply (proj1 (proj2 eye_test_metrics_in_range) high sampleWorld). reflexivity.
Defined.

(** ** Blink statistics *)

Lemma countBlinks_bound rest : forall previous,
  (EyeTestService.countBlinks previous rest <= List.length rest)%nat.
Proof.
  induction rest as [|c rest IH]; intros p; cbn [EyeTestService.countBlinks List.length]; [lia|].
  specialize (IH c). destruct (_ && _); lia.
Qed.

Lemma countBlinks_alternating rest : forall previous,
  alternatingEyes (previous :: rest) -> EyeTestService.countBlinks previous rest = 0%nat.
Proof.
  induction rest as [|c rest IH]; intros p H; [reflexivity|].
  cbn [alternatingEyes] in H. destruct H as [E H].
  cbn [EyeTestService.countBlinks]. rewrite E. cbn [andb]. apply IH, H.
Qed.

Lemma number_eqb_eq a b : number_eqb a b = true -> a = b.
Proof.
  destruct a as [s|s| |s m e], b as [s'|s'| |s' m' e']; cbn; try discriminate.
  - intros H. apply Bool.eqb_prop in H. congruence.
  - intros H. apply Bool.eqb_prop in H. congruence.
  - reflexivity.
  - intros H. apply andb_prop in H. destruct H as [H He].
    apply andb_prop in H. destruct H as [Hs Hm].
    apply Bool.eqb_prop in Hs. apply Pos.eqb_eq in Hm. apply Z.eqb_eq in He. congruence.
Qed.

Lemma storedBlinkRate_default n :
  (n < 1000)%nat -> storedBlinkRate n (lit 30) = ofNat (2 * n).
Proof.
  intros Hn. apply number_eqb_eq.
  assert (A : forallb (fun n => number_eqb (storedBlinkRate n (lit 30)) (ofNat (2 * n)))
                      (seq 0 1000) = true) by (vm_compute; reflexivity).
  rewrite forallb_forall in A. apply A, in_seq. lia.
Qed.

(** X16.  The blink count of [calculateBlinkStats] is at most the number
    of samples minus one, and it is 0 when no two neighbouring samples
    belong to the same eye, whatever the diameters do.  With a test duration
    of 0 the blink rate is NaN when there is no blink and Infinity
    otherwise.  With the duration of 30 seconds that every caller passes,
    the rate stored in the record is exactly twice the blink count (up to
    999 blinks), although the rate before the rounding to one decimal is
    not: for 31 blinks it is not 62. *)
Theorem blink_statistics :
  (forall pupilData testDuration,
      (fst (EyeTestService.calculateBlinkStats pupilData testDuration)
       <= List.length pupilData - 1)%nat)
  /\ (forall pupilData testDuration,
        alternatingEyes pupilData ->
        fst (EyeTestService.calculateBlinkStats pupilData testDuration) = 0%nat)
  /\ (forall pupilData,
        snd (EyeTestService.calculateBlinkStats pupilData zero)
        = if (fst (EyeTestService.calculateBlinkStats pupilData zero) =? 0)%nat
          then NaN else Infinity)
  /\ (forall text url md tt st rt pattern focus contrast,
        let d := assembledEyeTest text url md tt (lit 30) st rt pattern focus contrast in
        forall n, EyeTestData.blinkCount d = Some n -> (n < 1000)%nat ->
                  EyeTestData.averageBlinkRate d = Some (ofNat (2 * n)))
  /\ mul (div (ofNat 31) (lit 30)) (lit 60) <> ofNat 62.
Proof.
  split; [|split; [|split; [|split]]].
  - intros [|p rest] td; cbn [EyeTestService.calculateBlinkStats fst List.length]; [lia|].
    pose proof (countBlinks_bound rest p). lia.
  - intros [|p rest] td H; cbn [EyeTestService.calculateBlinkStats fst]; [reflexivity|].
    apply countBlinks_alternating, H.
  - intros pd. unfold EyeTestService.calculateBlinkStats. cbn [fst snd].
    set (n := match pd with [] => 0%nat | first :: rest => EyeTestService.countBlinks first rest end).
    destruct n as [|n]; [reflexivity|].
    destruct (ofNat_positive (S n) ltac:(lia)) as [->|(m & e & ->)]; reflexivity.
  - intros text url md tt st rt pattern focus contrast d n Hn Hlt.
    unfold d, assembledEyeTest in *. cbn [EyeTestData.blinkCount EyeTestData.averageBlinkRate] in *.
    set (pd := pupilData (parseResultData text)) in *.
    assert (Hc : fst (EyeTestService.calculateBlinkStats pd (lit 30)) = n) by congruence.
    assert (Hs : snd (EyeTestService.calculateBlinkStats pd (lit 30))
                 = mul (div (ofNat (fst (EyeTestService.calculateBlinkStats pd (lit 30))))
                            (lit 30)) (lit 60)) by reflexivity.
    rewrite Hs, Hc. f_equal. apply (storedBlinkRate_default n Hlt).
  - vm_compute. discriminate.
Qed.

Lemma blink_statistics_witness :
  let pupilData := [mkPupilData (lit 1) left_eye (lit 3.0);
                    mkPupilData (lit 2) right_eye (lit 2.0);
                    mkPupilData (lit 3) left_eye (lit 2.0)] in
  fst (EyeTestService.calculateBlinkStats pupilData (lit 30)) = 0%nat.
Proof.
  cbv zeta. apply (proj1 (proj2 blink_statistics)).
  cbn. repeat split.
Defined.

(** * The stored reaction time *)

Lemma binary_normalize_not_NaN m e :
  isNaN (binary_normalize prec emax m e false) = false.
Proof. destruct m; [reflexivity|apply binary_round_not_NaN|apply binary_round_not_NaN]. Qed.

Lemma sub_from_finite_not_NaN s m e a :
  isNaN a = false -> isNaN (sub (S754_finite s m e) a) = false.
Proof.
  destruct a as [sa|sa| |sa ma ea]; try discriminate; try reflexivity.
  intros _. unfold sub, SFsub. apply binary_normalize_not_NaN.
Qed.

Lemma mul_by_finite_not_NaN x s m e :
  isNaN x = false -> isNaN (mul x (S754_finite s m e)) = false.
Proof.
  destruct x as [sx|sx| |sx mx ex]; try discriminate; try reflexivity.
  intros _. unfold mul, SFmul. apply binary_round_aux_not_NaN. lia.
Qed.

Lemma add_to_finite_not_NaN s m e p :
  isNaN p = false -> isNaN (add (S754_finite s m e) p) = false.
Proof.
  destruct p as [sp|sp| |sp mp ep]; try discriminate; try reflexivity.
  intros _. unfold add, SFadd. apply binary_normalize_not_NaN.
Qed.

Lemma add_bounded_not_NaN b v H :
  isNaN b = false -> magnitudeAtMost H v -> isNaN (add b v) = false.
Proof.
  destruct v as [sv|sv| |sv mv ev]; try contradiction; intros Hb _.
  - destruct b as [[]|[]| |sb mb eb]; try discriminate; destruct sv; reflexivity.
  - destruct b as [sb|sb| |sb mb eb]; try discriminate; try reflexivity.
    unfold add, SFadd. apply binary_normalize_not_NaN.
Qed.

Lemma round_not_NaN x : isNaN x = false -> isNaN (JS.round x) = false.
Proof.
  destruct x as [s|s| |s m e]; try discriminate; try reflexivity.
  intros _. unfold JS.round. destruct (0 <=? e); [reflexivity|].
  unfold withSign. destruct (_ =? 0); [reflexivity|apply ofZ_not_NaN].
Qed.

Lemma analysisEstimate_number level avg r :
  unitInterval r = true ->
  (forall a, avg = Some a -> isNaN a = false) ->
  isNaN (analysisEstimate level avg r) = false.
Proof.
  intros Hr Ha. unfold analysisEstimate. apply round_not_NaN.
  destruct (constOf_base level) as (mb & eb & Eb & _).
  apply (add_bounded_not_NaN _ _ 20).
  - destruct avg as [a|]; [|rewrite Eb; reflexivity].
    destruct (JS.truthy a); [|rewrite Eb; reflexivity].
    rewrite Eb. apply add_to_finite_not_NaN.
    change (lit 50) with (S754_finite false 7036874417766400 (-47)).
    apply mul_by_finite_not_NaN.
    change (lit 3.0) with (S754_finite false 6755399441055744 (-51)).
    apply sub_from_finite_not_NaN, Ha. reflexivity.
  - apply mul_half_const; [apply sub_unit_half, Hr|exact constOf_lit40|lia].
Qed.

Lemma averagePupilSize_classifier l r :
  averagePupilSize l r = classifierAverage (presentStats l) (presentStats r).
Proof.
  unfold averagePupilSize, presentStats.
  destruct (gt (mean l) zero); destruct (gt (mean r) zero); reflexivity.
Qed.

Lemma averagePupilSize_number l r a : averagePupilSize l r = Some a -> isNaN a = false.
Proof.
  rewrite averagePupilSize_classifier. intros H.
  apply (eligible_average_number _ _ _ H); unfold presentStats, eligible.
  - destruct (gt (mean l) zero) eqn:E; [exact E|exact I].
  - destruct (gt (mean r) zero) eqn:E; [exact E|exact I].
Qed.

(** X20.  The reaction time of the analysis record written by a run is a
    number, never NaN, and at least 200, whatever the report holds, for
    every draw in [0, 1): the average pupil size handed to the estimate is
    never NaN, and the estimate before the clamp is then a number. *)
Theorem stored_reaction_time_at_least_200 text url md st w :
  pupilData (parseResultData text) <> [] ->
  unitInterval (nextDraw w) = true ->
  exists d t,
    In (mkWrite analysesPath (clock w (ticks w)) (AnalysisDoc d))
       (writes (snd (processAndSaveAnalysis text url md st w)))
    /\ (success (fst (processAndSaveAnalysis text url md st w)) = true ->
        data (fst (processAndSaveAnalysis text url md st w)) = Some d)
    /\ AnalysisData.reactionTime d = Some t
    /\ isNaN t = false
    /\ le (lit 200) t = true.
Proof.
  intros Hne Hr.
  destruct (analysis_run text url md st w Hne) as (rt' & pattern & focus & contrast & E).
  cbv zeta in E. rewrite E. cbn [fst snd].
  set (l := calculateEyeStats (pupilData (parseResultData text)) left_eye) in *.
  set (r := calculateEyeStats (pupilData (parseResultData text)) right_eye) in *.
  set (lv := determineFatigueLevel (Some l) (Some r)) in *.
  eexists _, (fst (generateMockReactionTime lv (averagePupilSize l r) w)).
  split; [unfold worldAfter; cbn [writes]; apply in_or_app; right; left; reflexivity|].
  split; [destruct (setError w (List.length (writes w))); [discriminate|reflexivity]|].
  split; [reflexivity|].
  rewrite analysis_estimate.
  assert (N : isNaN (analysisEstimate lv (averagePupilSize l r) (nextDraw w)) = false).
  { apply analysisEstimate_number; [exact Hr|]. intros a Ha.
    apply (averagePupilSize_number l r a Ha). }
  destruct (max2_choice (lit 200) (analysisEstimate lv (averagePupilSize l r) (nextDraw w))
              eq_refl N) as ([Hm|Hm] & Hle & _).
  - rewrite Hm. split; reflexivity.
  - split; [rewrite Hm; exact N|exact Hle].
Qed.

Lemma stored_reaction_time_at_least_200_witness :
  exists d t,
    data (fst (processAndSaveAnalysis "0,right_eye,9.5" None None None sampleWorld)) = Some d
    /\ AnalysisData.reactionTime d = Some t
    /\ le (lit 200) t = true.
Proof.
  destruct (stored_reaction_time_at_least_200 "0,right_eye,9.5" None None None sampleWorld)
    as (d & t & _ & Hd & Ht & _ & Hle); [vm_compute; discriminate|reflexivity|].
  exists d, t. split; [apply Hd; reflexivity|]. split; [exact Ht|exact Hle].
Defined.

(** * The metrics of a stored eye-test record *)

Lemma binary_round_aux_upper_exp s p e A g :
  -2148 <= e -> -1074 <= g <= 0 -> 0 <= A < 2 ^ 53 ->
  Zpos p * sc e <= A * sc g ->
  binary_round_aux prec emax s (Zpos p) e loc_Exact = S754_zero s
  \/ exists m' e',
       binary_round_aux prec emax s (Zpos p) e loc_Exact = S754_finite s m' e'
       /\ -1074 <= e' /\ Zpos m' * sc e' <= A * sc g
       /\ e' <= Z.max e g.
Proof.
  intros He Hg HA U. unfold binary_round_aux.
  destruct (shr_fexp_stage p e He) as (mrs1 & e1 & rho1 & E1 & Hm1 & He1 & Hr1 & Hp1 & Hx1).
  rewrite E1.
  destruct (round_nearest_even_bounds (shr_m mrs1) (loc_of_shr_record mrs1)) as [Hb2 Hx2].
  set (m2 := round_nearest_even (shr_m mrs1) (loc_of_shr_record mrs1)) in *.
  assert (U2 : m2 * sc e1 <= A * sc g).
  { apply (stage_upper p e (shr_m mrs1) m2 e1 rho1 A g); auto; try lia. }
  assert (He1' : -1074 <= e1) by lia.
  assert (Al1 : e1 <= Z.max e g).
  { destruct (Z_le_gt_dec e1 (Z.max e g)) as [|Hgt]; [assumption|exfalso].
    assert (Ed : e1 = Zpos (digits2_pos p) + e - 53) by lia.
    pose proof (digits_sc p e He) as Hd.
    pose proof (sc_big g (e + Zpos (digits2_pos p) - 1) A ltac:(lia) ltac:(lia) ltac:(lia)). lia. }
  destruct m2 as [|p2|p2] eqn:Em2; [| |lia].
  - left. rewrite (round_aux_zero_stage e1 He1'). reflexivity.
  - destruct (shr_fexp_stage p2 e1 ltac:(lia))
      as (mrs3 & e3 & rho3 & E3 & Hm3 & He3 & Hr3 & Hp3 & _).
    rewrite E3.
    assert (Hsc3 : sc e3 = sc e1 * 2 ^ (e3 - e1)).
    { replace e3 with (e1 + (e3 - e1)) at 1 by lia. apply sc_shift; lia. }
    pose proof (sc_gt0 e1 ltac:(lia)) as Hs1.
    pose proof (sc_gt0 g ltac:(lia)) as Hsg.
    assert (U3 : shr_m mrs3 * sc e3 <= A * sc g).
    { rewrite Hsc3. pose proof (pow2_gt0 (e3 - e1) ltac:(lia)). nia. }
    destruct (shr_m mrs3) as [|m|m] eqn:Em3; [left; reflexivity | | lia].
    right.
    assert (He3u : e3 < 53).
    { destruct (Z_lt_le_dec e3 53) as [|Hge]; [assumption|exfalso].
      pose proof (sc_big g e3 A ltac:(lia) ltac:(lia) ltac:(lia)).
      pose proof (sc_gt0 e3 ltac:(lia)). nia. }
    assert (Hle : (e3 <=? emax - prec) = true) by (apply Z.leb_le; unfold emax, prec; lia).
    rewrite Hle. exists m, e3. split; [reflexivity|]. split; [lia|]. split; [exact U3|].
    destruct (Z_le_gt_dec e3 (Z.max e g)) as [|Hgt]; [assumption|exfalso].
    assert (Ed : e3 = Zpos (digits2_pos p2) + e1 - 53) by lia.
    pose proof (digits_sc p2 e1 ltac:(lia)) as Hd.
    pose proof (sc_big g (e1 + Zpos (digits2_pos p2) - 1) A ltac:(lia) ltac:(lia) ltac:(lia)). lia.
Qed.

(** A number between two positive integers times a positive integer
    constant. *)
Lemma mul_between_const x c lo hi C :
  valueBetween lo hi x -> constOf c C -> 0 < lo -> 0 < C -> hi * C < 2 ^ 52 ->
  valueBetween (lo * C) (hi * C) (mul x c).
Proof.
  intros Hx (mc & ec & -> & Hec & Hc) Hlo HC Hhi.
  destruct x as [| | |[] m e]; try contradiction.
  apply valueBetween_sc in Hx. destruct Hx as [He [L U]].
  unfold mul, SFmul. cbn [xorb].
  assert (V : Zpos (m * mc) * sc (e + ec) = C * (Zpos m * sc e)).
  { rewrite Pos2Z.inj_mul.
    assert (S1 : sc e = sc (e + ec) * 2 ^ (- ec)).
    { replace e with ((e + ec) + (- ec)) at 1 by lia. apply sc_shift; lia. }
    assert (S2 : sc 0 = sc ec * 2 ^ (- ec)).
    { replace 0 with (ec + (- ec)) at 1 by lia. apply sc_shift; lia. }
    pose proof (sc_gt0 ec ltac:(lia)) as Hsec.
    assert (Zpos mc = C * 2 ^ (- ec)) by nia.
    rewrite S1. nia. }
  assert (S0 : sc 0 = sc (-1) * 2) by reflexivity.
  pose proof (sc_gt0 0 ltac:(lia)) as Hs0.
  assert (H53 : 2 ^ 53 = 2 ^ 52 * 2) by reflexivity.
  assert (Hlohi : lo <= hi) by nia.
  destruct (binary_round_aux_upper_exp false (m * mc) (e + ec) (2 * (hi * C)) (-1)
              ltac:(lia) ltac:(lia) ltac:(nia) ltac:(rewrite V; nia))
    as [Z0 | (m1 & e1 & Em & He1 & Um & Hexp)];
    destruct (binary_round_aux_lower false (m * mc) (e + ec) (lo * C) 0
                ltac:(lia) ltac:(lia) ltac:(nia) ltac:(rewrite V; nia))
      as [I0 | (m' & e' & Em' & He' & Lm)]; try congruence.
  rewrite Em in Em'. inversion Em'. subst m' e'.
  rewrite Em. apply valueBetween_sc. split; [lia|]. split; [lia|nia].
Qed.

Lemma constOf_lit95 : constOf (lit 95) 95.
Proof. prove_constOf. Qed.
Lemma constOf_lit80 : constOf (lit 80) 80.
Proof. prove_constOf. Qed.
Lemma constOf_lit65 : constOf (lit 65) 65.
Proof. prove_constOf. Qed.
Lemma constOf_lit5 : constOf (lit 5) 5.
Proof. prove_constOf. Qed.

Lemma contrastOf_range level r :
  unitInterval r = true ->
  valueBetween (fst (contrastRange level)) (snd (contrastRange level)) (contrastOf level r).
Proof.
  intros Hr. destruct level; cbn [contrastRange contrastOf fst snd].
  - apply (add_const_small (lit 95) 95 _ 5 constOf_lit95); try lia.
    apply (mul_unit_constOf r (lit 5) 5 Hr constOf_lit5). lia.
  - apply (add_const_small (lit 80) 80 _ 15 constOf_lit80); try lia.
    apply (mul_unit_constOf r (lit 15) 15 Hr constOf_lit15). lia.
  - apply (add_const_small (lit 65) 65 _ 15 constOf_lit65); try lia.
    apply (mul_unit_constOf r (lit 15) 15 Hr constOf_lit15). lia.
Qed.

Lemma tenths_within lo hi n :
  65 <= lo -> hi <= 100 -> lo * 10 <= n <= hi * 10 ->
  (lo = 95 /\ hi = 100) \/ (lo = 80 /\ hi = 95) \/ (lo = 65 /\ hi = 80) ->
  within lo hi (div (ofZ n) (lit 10)) = true.
Proof.
  intros Hlo Hhi Hn [[-> ->]|[[-> ->]|[-> ->]]].
  - apply (integersFrom_all (fun n => within 95 100 (div (ofZ n) (lit 10))) 950 51);
      [vm_compute; reflexivity|lia].
  - apply (integersFrom_all (fun n => within 80 95 (div (ofZ n) (lit 10))) 800 151);
      [vm_compute; reflexivity|lia].
  - apply (integersFrom_all (fun n => within 65 80 (div (ofZ n) (lit 10))) 650 151);
      [vm_compute; reflexivity|lia].
Qed.

Lemma stored_contrast_range level r :
  unitInterval r = true ->
  within (fst (contrastRange level)) (snd (contrastRange level))
         (oneDecimal (contrastOf level r)) = true.
Proof.
  intros Hr. unfold oneDecimal.
  pose proof (contrastOf_range level r Hr) as Hc.
  assert (Hy : valueBetween (fst (contrastRange level) * 10) (snd (contrastRange level) * 10)
                 (mul (contrastOf level r) (lit 10))).
  { apply mul_between_const; [exact Hc|exact constOf_lit10| | |];
      destruct level; vm_compute; reflexivity. }
  assert (Hpos : 0 < fst (contrastRange level) * 10) by (destruct level; cbn; lia).
  destruct (round_between _ _ _ Hpos Hy) as (n & -> & Hn).
  apply tenths_within; destruct level; cbn in *; auto; lia.
Qed.

Lemma eyeTest_run_values text url md tt td st w :
  pupilData (parseResultData text) <> [] ->
  let samples := pupilData (parseResultData text) in
  let leftEyeStats := calculateEyeStats samples left_eye in
  let rightEyeStats := calculateEyeStats samples right_eye in
  let level := determineFatigueLevel (Some leftEyeStats) (Some rightEyeStats) in
  let d := assembledEyeTest text url md tt td st
             (fst (EyeTestService.generateMockReactionTime
                     level (averagePupilSize leftEyeStats rightEyeStats) w))
             (patternOf level (drawAt w 1))
             (JS.round (focusOf level (drawAt w 2)))
             (contrastOf level (drawAt w 3)) in
  EyeTestService.processEyeTestResult text url md tt td st w
  = (match setError w (List.length (writes w)) with
     | None => EyeTestService.mkResult true (Some d) None
     | Some message => EyeTestService.mkResult false None (Some message)
     end,
     worldAfter w 4 1 [mkWrite eyeTestPath (clock w (ticks w)) (EyeTestDoc d)]).
Proof.
  intros Hne. unfold EyeTestService.processEyeTestResult, assembledEyeTest. cbv zeta.
  destruct (pupilData (parseResultData text)) as [|p ps] eqn:Hp; [congruence|].
  set (pd := p :: ps).
  set (lv := determineFatigueLevel _ _).
  set (avg := averagePupilSize _ _).
  destruct (EyeTestService.calculateBlinkStats pd td) as [bc br] eqn:Eb.
  cbn [fst snd].
  unfold patternOf, focusOf, contrastOf, drawAt.
  destruct lv;
    cbv [bind ret Math_random Date_now set saveEyeTestResult
         EyeTestService.generateMockReactionTime EyeTestService.generateEyeMovementPattern
         EyeTestService.generateFocusAccuracy];
    cbn [draws randoms clock ticks toISOString setError writes fst Nat.add];
    unfold worldAfter;
    destruct (setError w (List.length (writes w)));
    cbn [save_success save_error]; reflexivity.
Qed.

(** X21.  Every eye-test record written for a report with at least one
    sample has well-formed metrics when the four draws of the run are in
    [0, 1): the reaction time is an integer between 225 and 600, within the
    range of the level shifted by the pupil adjustment; the eye-movement
    pattern is one of those listed for the level of the record; the focus
    accuracy is an integer within the range of the level; the contrast
    sensitivity, rounded to one decimal, lies within 95 to 100 for low, 80
    to 95 for moderate and 65 to 80 for high; the visual acuity is 20/20,
    20/25 or 20/30 by level. *)
Theorem stored_eye_test_metrics text url md tt td st w :
  pupilData (parseResultData text) <> [] ->
  (forall k, (k < 4)%nat -> unitInterval (drawAt w k) = true) ->
  exists d,
    In (mkWrite eyeTestPath (clock w (ticks w)) (EyeTestDoc d))
       (writes (snd (EyeTestService.processEyeTestResult text url md tt td st w)))
    /\ (exists n, EyeTestData.reactionTime d = Some (ofZ n)
                  /\ 225 <= n <= 600
                  /\ fst (baseRange (EyeTestData.fatigueLevel d)) - 25 <= n
                     <= snd (baseRange (EyeTestData.fatigueLevel d)) + 50)
    /\ (exists p, EyeTestData.eyeMovementPattern d = Some p
                  /\ In p (EyeTestService.patterns (EyeTestData.fatigueLevel d)))
    /\ (exists f, EyeTestData.focusAccuracy d = Some (ofZ f)
                  /\ fst (focusRange (EyeTestData.fatigueLevel d)) <= f
                     <= snd (focusRange (EyeTestData.fatigueLevel d)))
    /\ (exists c, EyeTestData.contrastSensitivity d = Some c
                  /\ within (fst (contrastRange (EyeTestData.fatigueLevel d)))
                            (snd (contrastRange (EyeTestData.fatigueLevel d))) c = true)
    /\ EyeTestData.visualAcuity d = Some (visualAcuityOf (EyeTestData.fatigueLevel d)).
Proof.
  intros Hne Hd.
  pose proof (eyeTest_run_values text url md tt td st w Hne) as E. cbv zeta in E.
  rewrite E. cbn [snd]. clear E.
  set (l := calculateEyeStats (pupilData (parseResultData text)) left_eye).
  set (r := calculateEyeStats (pupilData (parseResultData text)) right_eye).
  set (lv := determineFatigueLevel (Some l) (Some r)).
  set (avg := averagePupilSize l r).
  eexists. split; [unfold worldAfter; cbn [writes]; apply in_or_app; right; left; reflexivity|].
  unfold assembledEyeTest.
  cbn [EyeTestData.reactionTime EyeTestData.eyeMovementPattern EyeTestData.focusAccuracy
       EyeTestData.contrastSensitivity EyeTestData.visualAcuity EyeTestData.fatigueLevel].
  fold l r. fold lv.
  assert (H0 : unitInterval (nextDraw w) = true) by (apply (Hd 0%nat); lia).
  split; [|split; [|split; [|split]]].
  - rewrite eyeTest_estimate.
    pose proof (eyeTestBaseTime_range lv (nextDraw w) H0) as Hb.
    assert (Hlo : 250 <= fst (baseRange lv)) by (destruct lv; cbn; lia).
    assert (Hhi : snd (baseRange lv) <= 550) by (destruct lv; cbn; lia).
    pose proof (adjust_range (pupilAdjustment avg) _ _ _ Hlo Hhi Hb) as Ha.
    assert (Hamt : -25 <= amount (pupilAdjustment avg) <= 50)
      by (destruct (pupilAdjustment avg); cbn; lia).
    assert (Hpos : 0 < fst (baseRange lv) + amount (pupilAdjustment avg)) by lia.
    destruct (round_between _ _ _ Hpos Ha) as (n & En & Hn).
    exists n. rewrite En. split; [reflexivity|]. lia.
  - unfold patternOf.
    set (k := List.length (EyeTestService.patterns lv)).
    assert (Hk : (k = 3 \/ k = 4)%nat) by (destruct lv; cbn; auto).
    destruct (index_below (mul (drawAt w 1) (ofNat k)) k ltac:(lia)
                (draw_times_count (drawAt w 1) k (Hd 1%nat ltac:(lia)) Hk)) as (i & -> & Hi).
    destruct (nth_error (EyeTestService.patterns lv) i) as [p|] eqn:En.
    + exists p. split; [reflexivity|]. apply nth_error_In in En. exact En.
    + apply nth_error_None in En. fold k in En. lia.
  - assert (Hpos : 0 < fst (focusRange lv)) by (destruct lv; cbn; lia).
    destruct (round_between _ _ _ Hpos (focusAccuracy_range lv (drawAt w 2) (Hd 2%nat ltac:(lia))))
      as (f & Ef & Hf).
    exists f. split; [|exact Hf]. f_equal. exact Ef.
  - eexists. split; [reflexivity|].
    apply (stored_contrast_range lv (drawAt w 3)), Hd. lia.
  - reflexivity.
Qed.

Lemma stored_eye_test_metrics_witness :
  exists d,
    In (mkWrite eyeTestPath 1700000000000 (EyeTestDoc d))
       (writes (snd (EyeTestService.processEyeTestResult
                       "0,right_eye,3.0" None None pupil_analysis (lit 30) None sampleWorld)))
    /\ (exists n, EyeTestData.reactionTime d = Some (ofZ n) /\ 225 <= n <= 600)
    /\ (exists c, EyeTestData.contrastSensitivity d = Some c
                  /\ within (fst (contrastRange (EyeTestData.fatigueLevel d)))
                            (snd (contrastRange (EyeTestData.fatigueLevel d))) c = true).
Proof.
  destruct (stored_eye_test_metrics "0,right_eye,3.0" None None pupil_analysis (lit 30) None
              sampleWorld) as (d & Hw & (n & Hn & Hr & _) & _ & _ & Hc & _).
  - vm_compute. discriminate.
  - intros k _. reflexivity.
  - exists d. split; [exact Hw|]. split; [exists n; split; assumption|exact Hc].
Defined.
